(** * The streaming chat client of [client/client.py]

    A shallow embedding of [MCPClient.process_query] and
    [MCPClient.chat_loop]: the loop that folds the model's event stream
    into text parts and tool calls, the dispatch of the tool calls to
    the session and the follow-up request.

    Python values are embedded as follows.
    - [str] is [string]; ["".join] is [String.concat ""]; [+=] on a
      [str] is [append].
    - The dictionaries built by the code become records; the tagged
      ["type"] entry becomes the constructor.
    - [json.loads], [str.strip], [str.lower], the formatting of a
      parsed value inside an f-string, and the three remote operations
      ([session.list_tools], [session.call_tool],
      [anthropic.messages.create]) are not code of this file: they are
      parameters of the development.  [json.loads] returns a value,
      raises [json.JSONDecodeError], or raises another exception (a
      [RecursionError] on a text nested too deep, the [ValueError] of
      the limit on the digits of an integer).
    - [print], [input] and the remote operations are effects; they are
      recorded, in order, in a trace. *)

From Stdlib Require Import String Ascii List Bool Arith Lia.
Import ListNotations.
Local Open Scope string_scope.
Local Open Scope list_scope.

Set Implicit Arguments.

(** ** Strings *)

(** The line feed that [print] writes after its argument. *)
Definition nl : string := String (ascii_of_nat 10) EmptyString.

(** ["".join(l)] *)
Definition join (l : list string) : string := String.concat "" l.

(** [s.endswith(suffix)] *)
Definition endswith (s suffix : string) : bool :=
  (String.length suffix <=? String.length s)%nat
  && (substring (String.length s - String.length suffix)
                (String.length suffix) s =? suffix)%string.

(** ** The events of a response stream

    [chunk.type] selects the event, [chunk.content_block.type] the kind
    of block a start event opens and [chunk.delta.type] the kind of
    fragment a delta event carries.  Every tag the code does not test
    for falls in the [Other...] constructor of its level. *)

Inductive ContentBlock : Type :=
| TextBlock                                   (* 'text' *)
| ToolUseBlock (id name : string)             (* 'tool_use' *)
| OtherBlock.

Inductive Delta : Type :=
| TextDelta (text : string)                   (* 'text_delta' *)
| InputJsonDelta (partial_json : string)      (* 'input_json_delta' *)
| OtherDelta.

Inductive Chunk : Type :=
| ContentBlockStart (content_block : ContentBlock)
| ContentBlockDelta (delta : Delta)
| ContentBlockStop
| OtherChunk.

(** The text fragments of a stream, in arrival order. *)
Fixpoint text_fragments (chunks : list Chunk) : list string :=
  match chunks with
  | [] => []
  | ContentBlockDelta (TextDelta t) :: rest => t :: text_fragments rest
  | _ :: rest => text_fragments rest
  end.

(** The partial-JSON fragments of a stream, in arrival order. *)
Fixpoint json_fragments (chunks : list Chunk) : list string :=
  match chunks with
  | [] => []
  | ContentBlockDelta (InputJsonDelta p) :: rest => p :: json_fragments rest
  | _ :: rest => json_fragments rest
  end.

Definition is_tool_use_start (c : Chunk) : bool :=
  match c with
  | ContentBlockStart (ToolUseBlock _ _) => true
  | _ => false
  end.

Definition is_stop (c : Chunk) : bool :=
  match c with
  | ContentBlockStop => true
  | _ => false
  end.

Definition is_text_delta (c : Chunk) : bool :=
  match c with
  | ContentBlockDelta (TextDelta _) => true
  | _ => false
  end.

Definition is_json_delta (c : Chunk) : bool :=
  match c with
  | ContentBlockDelta (InputJsonDelta _) => true
  | _ => false
  end.

(** The stream without its partial-JSON deltas. *)
Definition without_json_deltas (chunks : list Chunk) : list Chunk :=
  filter (fun c => negb (is_json_delta c)) chunks.

(** No event of the stream opens a tool-use block. *)
Definition no_tool_use_start (chunks : list Chunk) : bool :=
  forallb (fun c => negb (is_tool_use_start c)) chunks.

(** No event of the stream closes a block. *)
Definition no_stop (chunks : list Chunk) : bool :=
  forallb (fun c => negb (is_stop c)) chunks.

(** Every delta of the stream is a text delta and no tool-use block is
    opened. *)
Definition text_only (chunks : list Chunk) : bool :=
  forallb (fun c =>
             match c with
             | ContentBlockStart (ToolUseBlock _ _) => false
             | ContentBlockDelta (TextDelta _) => true
             | ContentBlockDelta _ => false
             | _ => true
             end) chunks.

(** A tool-use block as the stream carries it: the start event with the
    id and the name, the events of the block, the stop event. *)
Definition tool_use_block (id name : string) (body : list Chunk)
  : list Chunk :=
  ContentBlockStart (ToolUseBlock id name) :: body ++ [ContentBlockStop].

(** ** Exceptions

    Of a raised exception the code observes two things: whether
    [except Exception] catches it, and its [str]. *)
Record PyException : Type := {
  is_Exception : bool;
  exn_str : string
}.

Inductive Outcome (A : Type) : Type :=
| Returned (a : A)
| Raised (e : PyException).
Arguments Returned {A} a.
Arguments Raised {A} e.

(** What [json.loads] does with a text: it returns the value of the
    document, it raises [json.JSONDecodeError], or it raises another
    exception. *)
Inductive Loads (JSON : Type) : Type :=
| Parsed (value : JSON)
| JSONDecodeError
| OtherError (e : PyException).
Arguments Parsed {JSON} value.
Arguments JSONDecodeError {JSON}.
Arguments OtherError {JSON} e.

(** An iterated response stream: the events it yields and, when the
    transport breaks, the exception the iteration raises after them. *)
Record ResponseStream : Type := {
  chunks : list Chunk;
  broken : option PyException
}.

(** [tool] as reported by [session.list_tools()]. *)
Record Tool (JSON : Type) : Type := {
  tool_name : string;
  tool_description : option string;
  tool_inputSchema : JSON
}.

(** An entry of [available_tools]. *)
Record ToolDescriptor (JSON : Type) : Type := {
  name : string;
  description : option string;
  input_schema : JSON
}.

(** [StdioServerParameters(command=..., args=..., env=...)] *)
Record StdioServerParameters : Type := {
  command : string;
  args : list string;
  env : option (list (string * string))
}.

(** The context managers the client enters on its exit stack:
    [stdio_client(server_params)] and [ClientSession(stdio, write)]. *)
Inductive Context : Type :=
| StdioClient (server_params : StdioServerParameters)
| ClientSession.

(** ** A concrete instance for the examples

    The properties below hold for every choice of the parameters.  The
    examples run the client on this instance: a reader of JSON texts
    that keeps the syntax tree of the document (numbers and strings as
    they are written), and a session and a model that answer from a
    script. *)
Module Sample.

Unset Elimination Schemes.
Inductive json : Type :=
| JNull
| JBool (b : bool)
| JNumber (lexeme : string)
| JString (raw : string)
| JArray (items : list json)
| JObject (members : list (string * json)).
Set Elimination Schemes.

Definition is_ws (c : ascii) : bool :=
  match nat_of_ascii c with
  | 9 | 10 | 13 | 32 => true
  | _ => false
  end.

Fixpoint skip_ws (s : string) : string :=
  match s with
  | EmptyString => EmptyString
  | String c rest => if is_ws c then skip_ws rest else s
  end.

Definition is_digit (c : ascii) : bool :=
  let n := nat_of_ascii c in (48 <=? n)%nat && (n <=? 57)%nat.

Definition is_hex (c : ascii) : bool :=
  let n := nat_of_ascii c in
  is_digit c || ((65 <=? n)%nat && (n <=? 70)%nat) || ((97 <=? n)%nat && (n <=? 102)%nat).

Definition is_escape (c : ascii) : bool :=
  match nat_of_ascii c with
  | 34 | 47 | 92 | 98 | 102 | 110 | 114 | 116 => true
  | _ => false
  end.

Fixpoint digits (s : string) : string * string :=
  match s with
  | EmptyString => (EmptyString, EmptyString)
  | String c rest =>
      if is_digit c
      then let (d, r) := digits rest in (String c d, r)
      else (EmptyString, s)
  end.

Fixpoint strip_prefix (p s : string) : option string :=
  match p, s with
  | EmptyString, _ => Some s
  | String a p', String b s' =>
      if Ascii.eqb a b then strip_prefix p' s' else None
  | String _ _, EmptyString => None
  end.

(** A number: an optional minus sign, an integer part without leading
    zero, an optional fraction and an optional exponent, the longest
    match. *)
Definition parse_number (s : string) : option (string * string) :=
  let (sign, s1) :=
    match s with
    | String "-"%char r => ("-", r)
    | _ => ("", s)
    end in
  match s1 with
  | EmptyString => None
  | String c r =>
      if is_digit c then
        let (int, s2) :=
          if Ascii.eqb c "0"%char then ("0", r) else digits s1 in
        let (frac, s3) :=
          match s2 with
          | String "."%char r2 =>
              match digits r2 with
              | (EmptyString, _) => ("", s2)
              | (d, r3) => (String "."%char d, r3)
              end
          | _ => ("", s2)
          end in
        let (exp, s4) :=
          match s3 with
          | String e r3 =>
              if Ascii.eqb e "e"%char || Ascii.eqb e "E"%char then
                let (sg, r4) :=
                  match r3 with
                  | String "+"%char r4 => ("+", r4)
                  | String "-"%char r4 => ("-", r4)
                  | _ => ("", r3)
                  end in
                match digits r4 with
                | (EmptyString, _) => ("", s3)
                | (d, r5) => (String e (sg ++ d)%string, r5)
                end
              else ("", s3)
          | EmptyString => ("", s3)
          end in
        Some ((sign ++ int ++ frac ++ exp)%string, s4)
      else None
  end.

(** The text of a string after its opening quote, up to the closing
    one; escapes are checked and kept as written. *)
Fixpoint parse_string (s : string) : option (string * string) :=
  match s with
  | EmptyString => None
  | String c r =>
      if Ascii.eqb c (ascii_of_nat 34) then Some (EmptyString, r)
      else if Ascii.eqb c (ascii_of_nat 92) then
        match r with
        | EmptyString => None
        | String e r1 =>
            if is_escape e then
              match parse_string r1 with
              | Some (t, r2) => Some (String c (String e t), r2)
              | None => None
              end
            else if Ascii.eqb e "u"%char then
              match r1 with
              | String h1 (String h2 (String h3 (String h4 r2))) =>
                  if is_hex h1 && is_hex h2 && is_hex h3 && is_hex h4 then
                    match parse_string r2 with
                    | Some (t, r3) =>
                        Some (String c (String e (String h1 (String h2
                               (String h3 (String h4 t))))), r3)
                    | None => None
                    end
                  else None
              | _ => None
              end
            else None
        end
      else if (nat_of_ascii c <? 32)%nat then None
      else
        match parse_string r with
        | Some (t, r1) => Some (String c t, r1)
        | None => None
        end
  end.

Definition parse_literal (s : string) : option (json * string) :=
  match strip_prefix "null" s with
  | Some r => Some (JNull, r)
  | None =>
  match strip_prefix "true" s with
  | Some r => Some (JBool true, r)
  | None =>
  match strip_prefix "false" s with
  | Some r => Some (JBool false, r)
  | None =>
  match strip_prefix "NaN" s with
  | Some r => Some (JNumber "NaN", r)
  | None =>
  match strip_prefix "Infinity" s with
  | Some r => Some (JNumber "Infinity", r)
  | None =>
  match strip_prefix "-Infinity" s with
  | Some r => Some (JNumber "-Infinity", r)
  | None =>
  match parse_number s with
  | Some (l, r) => Some (JNumber l, r)
  | None => None
  end end end end end end end.

(** How the reading of a value ends: with the value and the text that
    is left, on a text that is not a document, or on a nesting deeper
    than the interpreter has room for ([in_array] tells whether an array
    or an object was being entered). *)
Inductive reading (A : Type) : Type :=
| Value (a : A) (rest : string)
| Malformed
| TooDeep (in_array : bool).
Arguments Value {A} a rest.
Arguments Malformed {A}.
Arguments TooDeep {A} in_array.

(** [depth] is the number of arrays and objects that may still be
    entered, one inside the other. *)
Fixpoint parse_value (fuel depth : nat) (s : string) : reading json :=
  match fuel with
  | O => Malformed
  | S fuel =>
      match skip_ws s with
      | EmptyString => Malformed
      | String c r =>
          if Ascii.eqb c "{"%char then
            match depth with
            | O => TooDeep false
            | S depth =>
                match skip_ws r with
                | String "}"%char r1 => Value (JObject []) r1
                | _ =>
                    match parse_members fuel depth r with
                    | Value ms r1 => Value (JObject ms) r1
                    | Malformed => Malformed
                    | TooDeep a => TooDeep a
                    end
                end
            end
          else if Ascii.eqb c "["%char then
            match depth with
            | O => TooDeep true
            | S depth =>
                match skip_ws r with
                | String "]"%char r1 => Value (JArray []) r1
                | _ =>
                    match parse_items fuel depth r with
                    | Value vs r1 => Value (JArray vs) r1
                    | Malformed => Malformed
                    | TooDeep a => TooDeep a
                    end
                end
            end
          else if Ascii.eqb c (ascii_of_nat 34) then
            match parse_string r with
            | Some (t, r1) => Value (JString t) r1
            | None => Malformed
            end
          else
            match parse_literal (String c r) with
            | Some (v, r1) => Value v r1
            | None => Malformed
            end
      end
  end

with parse_items (fuel depth : nat) (s : string) : reading (list json) :=
  match fuel with
  | O => Malformed
  | S fuel =>
      match parse_value fuel depth s with
      | Malformed => Malformed
      | TooDeep a => TooDeep a
      | Value v r =>
          match skip_ws r with
          | String ","%char r1 =>
              match parse_items fuel depth r1 with
              | Value vs r2 => Value (v :: vs) r2
              | Malformed => Malformed
              | TooDeep a => TooDeep a
              end
          | String "]"%char r1 => Value [v] r1
          | _ => Malformed
          end
      end
  end

with parse_members (fuel depth : nat) (s : string)
  : reading (list (string * json)) :=
  match fuel with
  | O => Malformed
  | S fuel =>
      match skip_ws s with
      | String c r =>
          if Ascii.eqb c (ascii_of_nat 34) then
            match parse_string r with
            | None => Malformed
            | Some (k, r1) =>
                match skip_ws r1 with
                | String ":"%char r2 =>
                    match parse_value fuel depth r2 with
                    | Malformed => Malformed
                    | TooDeep a => TooDeep a
                    | Value v r3 =>
                        match skip_ws r3 with
                        | String ","%char r4 =>
                            match parse_members fuel depth r4 with
                            | Value ms r5 => Value ((k, v) :: ms) r5
                            | Malformed => Malformed
                            | TooDeep a => TooDeep a
                            end
                        | String "}"%char r4 => Value [(k, v)] r4
                        | _ => Malformed
                        end
                    end
                | _ => Malformed
                end
            end
          else Malformed
      | EmptyString => Malformed
      end
  end.

(** The [RecursionError] of the reader. *)
Definition recursion_error (in_array : bool) : PyException :=
  {| is_Exception := true;
     exn_str :=
       ("maximum recursion depth exceeded while decoding a JSON "
        ++ (if in_array then "array" else "object")
        ++ " from a unicode string")%string |}.

(** The whole text is one value, white space around it allowed; the
    reader has room for [depth] nested arrays and objects. *)
Definition loads (depth : nat) (s : string) : Loads json :=
  match parse_value (2 * String.length s + 2) depth s with
  | Value v r =>
      match skip_ws r with
      | EmptyString => Parsed v
      | String _ _ => JSONDecodeError
      end
  | Malformed => JSONDecodeError
  | TooDeep a => OtherError (recursion_error a)
  end.

(** The room the interpreter of the examples has. *)
Definition recursion_limit : nat := 1000.

Definition json_loads (s : string) : Loads json := loads recursion_limit s.

(** The text shown for a parsed value. *)
Fixpoint format_json (v : json) : string :=
  match v with
  | JNull => "None"
  | JBool true => "True"
  | JBool false => "False"
  | JNumber l => l
  | JString t => ("'" ++ t ++ "'")%string
  | JArray items =>
      ("[" ++ String.concat ", " (map format_json items) ++ "]")%string
  | JObject members =>
      ("{" ++ String.concat ", "
                (map (fun kv => ("'" ++ fst kv ++ "': "
                                 ++ format_json (snd kv))%string) members)
           ++ "}")%string
  end.

(** [str.strip()] and [str.lower()] on Latin-1 text, one character for
    each code point below 256.  The white space of [str.isspace] there
    is the range 9 to 13, the range 28 to 32, 133 and 160; the capitals
    are the range 65 to 90 and the range 192 to 222 without 215. *)
Definition is_space (c : ascii) : bool :=
  let n := nat_of_ascii c in
  ((9 <=? n)%nat && (n <=? 13)%nat) || ((28 <=? n)%nat && (n <=? 32)%nat)
  || (n =? 133)%nat || (n =? 160)%nat.

Fixpoint lstrip (s : string) : string :=
  match s with
  | EmptyString => EmptyString
  | String c rest => if is_space c then lstrip rest else s
  end.

Fixpoint rstrip (s : string) : string :=
  match s with
  | EmptyString => EmptyString
  | String c rest =>
      match rstrip rest with
      | EmptyString => if is_space c then EmptyString else String c EmptyString
      | kept => String c kept
      end
  end.

Definition strip (s : string) : string := rstrip (lstrip s).

Definition lower_char (c : ascii) : ascii :=
  let n := nat_of_ascii c in
  if ((65 <=? n)%nat && (n <=? 90)%nat)
     || ((192 <=? n)%nat && (n <=? 222)%nat && negb (n =? 215)%nat)
  then ascii_of_nat (n + 32) else c.

Fixpoint lower (s : string) : string :=
  match s with
  | EmptyString => EmptyString
  | String c rest => String (lower_char c) (lower rest)
  end.

(** A scripted world: the catalogue of the session and the replies the
    model and the session give, in the order they are asked for. *)
Record world : Type := {
  catalog : list (Tool json);
  model_replies : list (Outcome ResponseStream);
  tool_replies : list (Outcome string)
}.

Definition script_exhausted : PyException :=
  {| is_Exception := true; exn_str := "no reply left in the script" |}.

Definition list_tools (w : world) : Outcome (list (Tool json)) * world :=
  (Returned (catalog w), w).

Definition call_tool (tool : string) (arguments : json) (w : world)
  : Outcome string * world :=
  match tool_replies w with
  | r :: rest =>
      (r, {| catalog := catalog w;
             model_replies := model_replies w;
             tool_replies := rest |})
  | [] => (Raised script_exhausted, w)
  end.

Definition create {Messages Tools : Type}
  (messages : Messages) (tools : Tools) (w : world)
  : Outcome ResponseStream * world :=
  match model_replies w with
  | r :: rest =>
      (r, {| catalog := catalog w;
             model_replies := rest;
             tool_replies := tool_replies w |})
  | [] => (Raised script_exhausted, w)
  end.

(** The streams and the worlds of the examples. *)

Definition dq : string := String (ascii_of_nat 34) EmptyString.

(** The two fragments [{"path"] and [:"/tmp"}]. *)
Definition path_open : string := ("{" ++ dq ++ "path" ++ dq)%string.
Definition path_close : string := (":" ++ dq ++ "/tmp" ++ dq ++ "}")%string.

Definition path_body : list Chunk :=
  [ContentBlockDelta (InputJsonDelta path_open);
   ContentBlockDelta (InputJsonDelta path_close)].

(** A block whose input stops after the first fragment. *)
Definition cut_body : list Chunk :=
  [ContentBlockDelta (InputJsonDelta path_open)].

Definition path_value : json := JObject [("path", JString "/tmp")].

Definition text_block (fragments : list string) : list Chunk :=
  ContentBlockStart TextBlock
  :: map (fun t => ContentBlockDelta (TextDelta t)) fragments
  ++ [ContentBlockStop].

Definition stream_of (cs : list Chunk) : ResponseStream :=
  {| chunks := cs; broken := None |}.

Definition list_files : Tool json :=
  {| tool_name := "list_files";
     tool_description := Some "List the files of a directory";
     tool_inputSchema := JObject [("type", JString "object")] |}.

Definition remote_error : PyException :=
  {| is_Exception := true; exn_str := "remote error" |}.

(** The model answers with text only. *)
Definition text_world : world :=
  {| catalog := [list_files];
     model_replies := [Returned (stream_of (text_block ["4"]))];
     tool_replies := [] |}.

(** The model asks for [list_files], then answers with text. *)
Definition files_stream : list Chunk :=
  text_block ["Let me "; "look."]
  ++ tool_use_block "toolu_01" "list_files" path_body.

Definition files_world : world :=
  {| catalog := [list_files];
     model_replies :=
       [Returned (stream_of files_stream);
        Returned (stream_of (text_block ["a.txt"; " b.txt"]))];
     tool_replies := [Returned "a.txt b.txt"] |}.

(** The same, but the session fails to run the tool. *)
Definition failing_world : world :=
  {| catalog := [list_files];
     model_replies :=
       [Returned (stream_of files_stream);
        Returned (stream_of (text_block ["never sent"]))];
     tool_replies := [Raised remote_error] |}.

(** The model asks for two tools; its second answer carries a tool-use
    block besides its text. *)
Definition two_calls_stream : list Chunk :=
  tool_use_block "toolu_A" "list_files" path_body
  ++ [OtherChunk]
  ++ tool_use_block "toolu_B" "read_file" path_body.

Definition second_stream : list Chunk :=
  text_block ["Two "; "files."]
  ++ tool_use_block "toolu_C" "list_files" path_body.

Definition two_calls_world : world :=
  {| catalog := [list_files];
     model_replies :=
       [Returned (stream_of two_calls_stream);
        Returned (stream_of second_stream)];
     tool_replies := [Returned "result of A"; Returned "result of B"] |}.

(** The same, but the user interrupts the tool invocation. *)
Definition keyboard_interrupt : PyException :=
  {| is_Exception := false; exn_str := "" |}.

Definition interrupted_world : world :=
  {| catalog := [list_files];
     model_replies := [Returned (stream_of files_stream)];
     tool_replies := [Raised keyboard_interrupt] |}.

(** A text of [n] opening brackets; a block whose input is nested
    deeper than the reader has room for, followed by text; the same
    input in two fragments, after two events that belong to no block. *)
Fixpoint brackets (n : nat) : string :=
  match n with
  | O => EmptyString
  | S n => String "["%char (brackets n)
  end.

Definition deep_input : string := brackets 2000.

Definition deep_stream : list Chunk :=
  tool_use_block "toolu_02" "list_files"
    [ContentBlockDelta (InputJsonDelta deep_input)]
  ++ text_block ["never printed"].

Definition stray_deep_stream : list Chunk :=
  [ContentBlockDelta (InputJsonDelta "{"); ContentBlockStop]
  ++ text_block ["Hi"]
  ++ tool_use_block "toolu_03" "list_files"
       [ContentBlockDelta (InputJsonDelta (brackets 1000));
        ContentBlockDelta (InputJsonDelta (brackets 1000))]
  ++ text_block ["never printed"].

Definition deep_world : world :=
  {| catalog := [list_files];
     model_replies := [Returned (stream_of deep_stream)];
     tool_replies := [] |}.

(** The start of the client on the scripted instance: only [python]
    can be launched; everything else succeeds and leaves the world as
    it is. *)
Definition format_names (names : list string) : string :=
  ("[" ++ String.concat ", " (map (fun n => "'" ++ n ++ "'") names)
       ++ "]")%string.

Definition no_node : PyException :=
  {| is_Exception := true; exn_str := "No such file or directory: 'node'" |}.

Definition anthropic_new (w : world) : Outcome unit * world :=
  (Returned tt, w).

Definition stdio_client_enter (server_params : StdioServerParameters)
  (w : world) : Outcome unit * world :=
  if (command server_params =? "python")%string
  then (Returned tt, w)
  else (Raised no_node, w).

Definition client_session_enter (w : world) : Outcome unit * world :=
  (Returned tt, w).

Definition session_initialize (w : world) : Outcome unit * world :=
  (Returned tt, w).

Definition exit_stack_aclose (stack : list Context) (w : world)
  : Outcome unit * world :=
  (Returned tt, w).

End Sample.

Section Client.

(** The values [json.loads] produces. *)
Variable JSON : Type.
(** [json.loads] on a [str]. *)
Variable json_loads : string -> Loads JSON.
(** The text an f-string puts for a parsed value. *)
Variable format_json : JSON -> string.
(** [result.content] of a tool invocation. *)
Variable Payload : Type.

(** ** Messages *)

Inductive Block : Type :=
| Text (text : string)
| ToolUse (id name : string) (input : JSON)
| ToolResult (tool_use_id : string) (content : Payload).

Inductive Content : Type :=
| Str (s : string)
| Blocks (blocks : list Block).

Inductive Role : Type := User | Assistant.

Record Message : Type := {
  role : Role;
  content : Content
}.

(** The blocks of a message; a [str] content has none. *)
Definition content_blocks (m : Message) : list Block :=
  match content m with
  | Str _ => []
  | Blocks blocks => blocks
  end.

Definition is_text_block (b : Block) : bool :=
  match b with
  | Text _ => true
  | _ => false
  end.

(** ** The stream loop (lines 83 to 112) *)

(** [current_tool_call] while its ["input"] is still the accumulated
    text. *)
Record OpenToolCall : Type := {
  open_id : string;
  open_name : string;
  open_input : string
}.

(** An entry of [tool_calls]: ["input"] has been replaced by the parsed
    value. *)
Record ToolCall : Type := {
  call_id : string;
  call_name : string;
  call_input : JSON
}.

Record DecoderState : Type := {
  text_parts : list string;
  tool_calls : list ToolCall;
  current_tool_call : option OpenToolCall
}.

Definition initial_state : DecoderState :=
  {| text_parts := []; tool_calls := []; current_tool_call := None |}.

(** The message printed when [json.loads] fails. *)
Definition decode_error_message (buffer : string) : string :=
  (nl ++ "Error: Could not decode JSON for tool input: " ++ buffer ++ nl)%string.

(** One iteration of the loop: the next state, or the exception that
    [json.loads] raised and no handler of the loop catches, and what
    the iteration writes to standard output. *)
Definition on_chunk (st : DecoderState) (chunk : Chunk)
  : Outcome DecoderState * list string :=
  match chunk with
  | ContentBlockStart cb =>
      match cb with
      | ToolUseBlock id name =>
          (Returned
             {| text_parts := text_parts st;
                tool_calls := tool_calls st;
                current_tool_call :=
                  Some {| open_id := id; open_name := name;
                          open_input := "" |} |},
           [])
      | _ => (Returned st, [])
      end
  | ContentBlockDelta delta =>
      match delta with
      | TextDelta text_part =>
          (Returned
             {| text_parts := text_parts st ++ [text_part];
                tool_calls := tool_calls st;
                current_tool_call := current_tool_call st |},
           [text_part])
      | InputJsonDelta partial_json =>
          match current_tool_call st with
          | Some c =>
              (Returned
                 {| text_parts := text_parts st;
                    tool_calls := tool_calls st;
                    current_tool_call :=
                      Some {| open_id := open_id c;
                              open_name := open_name c;
                              open_input :=
                                (open_input c ++ partial_json)%string |} |},
               [])
          | None => (Returned st, [])
          end
      | OtherDelta => (Returned st, [])
      end
  | ContentBlockStop =>
      match current_tool_call st with
      | Some c =>
          match json_loads (open_input c) with
          | Parsed v =>
              (Returned
                 {| text_parts := text_parts st;
                    tool_calls :=
                      tool_calls st ++
                      [{| call_id := open_id c;
                          call_name := open_name c;
                          call_input := v |}];
                    current_tool_call := None |},
               [])
          | JSONDecodeError =>
              (Returned
                 {| text_parts := text_parts st;
                    tool_calls := tool_calls st;
                    current_tool_call := None |},
               [decode_error_message (open_input c)])
          | OtherError e => (Raised e, [])
          end
      | None => (Returned st, [])
      end
  | OtherChunk => (Returned st, [])
  end.

(** The whole loop, from a given state: the state in which the loop is
    left and what it wrote, and the exception that left it, if the loop
    did not reach the end of the events. *)
Fixpoint run_decoder (st : DecoderState) (chunks : list Chunk)
  : DecoderState * list string * option PyException :=
  match chunks with
  | [] => (st, [], None)
  | chunk :: rest =>
      match on_chunk st chunk with
      | (Returned st1, out1) =>
          match run_decoder st1 rest with
          | (st2, out2, r) => (st2, out1 ++ out2, r)
          end
      | (Raised e, out1) => (st, out1, Some e)
      end
  end.

Definition decode (chunks : list Chunk) : DecoderState * list string :=
  fst (run_decoder initial_state chunks).

(** The exception with which the loop is left before the end of the
    events. *)
Definition decode_raised (chunks : list Chunk) : option PyException :=
  snd (run_decoder initial_state chunks).

(** The text the loop has accumulated. *)
Definition decoded_text (st : DecoderState) : string := join (text_parts st).

(** Lines 114 to 118. *)
Definition assistant_message_content (st : DecoderState) : list Block :=
  (match text_parts st with
   | [] => []
   | _ :: _ => [Text (join (text_parts st))]
   end)
  ++ map (fun c => ToolUse (call_id c) (call_name c) (call_input c))
         (tool_calls st).

(** The tool call a closed block yields, if its input parses. *)
Definition closed_call (id name buffer : string) : list ToolCall :=
  match json_loads buffer with
  | Parsed v => [{| call_id := id; call_name := name; call_input := v |}]
  | _ => []
  end.

(** The warning a closed block yields, if its input is rejected. *)
Definition closed_warning (buffer : string) : list string :=
  match json_loads buffer with
  | JSONDecodeError => [decode_error_message buffer]
  | _ => []
  end.

(** The exception that closing a block raises, if any. *)
Definition closed_raise (buffer : string) : option PyException :=
  match json_loads buffer with
  | OtherError e => Some e
  | _ => None
  end.

(** ** Effects

    The remote operations answer from a world that the client cannot
    see; every answer may be an exception. *)
Variable World : Type.
(** [await self.session.list_tools()], its [.tools]. *)
Variable session_list_tools : World -> Outcome (list (Tool JSON)) * World.
(** [await self.session.call_tool(name, arguments)], its [.content]. *)
Variable session_call_tool :
  string -> JSON -> World -> Outcome Payload * World.
(** [self.anthropic.messages.create(messages=..., tools=..., stream=True)];
    the model name and the token limit are constants of the request. *)
Variable messages_create :
  list Message -> list (ToolDescriptor JSON) -> World ->
  Outcome ResponseStream * World.

(** What an observer of the process sees, in order. *)
Inductive Event : Type :=
| Printed (s : string)
| ReadLine (line : string)
| ListTools (r : Outcome (list (Tool JSON)))
| ModelCall (messages : list Message) (tools : list (ToolDescriptor JSON))
            (r : Outcome ResponseStream)
| CallTool (tool : string) (arguments : JSON) (r : Outcome Payload).

(** A computation: from a world to an outcome, the next world and the
    events of the computation. *)
Definition M (A : Type) : Type := World -> Outcome A * World * list Event.

Definition ret {A : Type} (a : A) : M A := fun w => (Returned a, w, []).

Definition raise {A : Type} (e : PyException) : M A :=
  fun w => (Raised e, w, []).

Definition bind {A B : Type} (m : M A) (k : A -> M B) : M B :=
  fun w =>
    match m w with
    | (Returned a, w1, t1) =>
        match k a w1 with
        | (o, w2, t2) => (o, w2, t1 ++ t2)
        end
    | (Raised e, w1, t1) => (Raised e, w1, t1)
    end.

Local Notation "x <- m ;; k" := (bind m (fun x => k))
  (at level 61, m at next level, right associativity).
Local Notation "m ;; k" := (bind m (fun _ => k))
  (at level 61, right associativity).

(** [try: body  except Exception as e: handler e] *)
Definition try_except {A : Type} (body : M A) (handler : PyException -> M A)
  : M A :=
  fun w =>
    match body w with
    | (Raised e, w1, t1) =>
        if is_Exception e then
          match handler e w1 with
          | (o, w2, t2) => (o, w2, t1 ++ t2)
          end
        else (Raised e, w1, t1)
    | r => r
    end.

(** [print(s, end="")] *)
Definition write (s : string) : M unit :=
  fun w => (Returned tt, w, [Printed s]).

(** [print(s)] *)
Definition print (s : string) : M unit := write (s ++ nl)%string.

(** Writes of a loop that does nothing else. *)
Definition write_all (out : list string) : M unit :=
  fun w => (Returned tt, w, map Printed out).

(** [input(prompt)] when the user types [line]. *)
Definition input (prompt line : string) : M string :=
  fun w => (Returned line, w, [Printed prompt; ReadLine line]).

Definition list_tools : M (list (Tool JSON)) :=
  fun w => let (r, w1) := session_list_tools w in (r, w1, [ListTools r]).

Definition call_tool (tool : string) (arguments : JSON) : M Payload :=
  fun w =>
    let (r, w1) := session_call_tool tool arguments w in
    (r, w1, [CallTool tool arguments r]).

Definition create (messages : list Message)
  (tools : list (ToolDescriptor JSON)) : M ResponseStream :=
  fun w =>
    let (r, w1) := messages_create messages tools w in
    (r, w1, [ModelCall messages tools r]).

(** Iterating a stream to its end: the exception of a broken transport
    is raised after the events that arrived. *)
Definition end_of_stream (stream : ResponseStream) : M unit :=
  match broken stream with
  | Some e => raise e
  | None => ret tt
  end.

(** ** [process_query] *)

(** The first loop over the stream (lines 85 to 112): an exception of
    [json.loads] leaves it at once; otherwise the stream is iterated to
    its end. *)
Definition decode_stream (response_stream : ResponseStream) : M DecoderState :=
  match run_decoder initial_state (chunks response_stream) with
  | (st, out, Some e) => write_all out ;; raise e
  | (st, out, None) =>
      write_all out ;;
      end_of_stream response_stream ;;
      ret st
  end.

(** The message printed before a tool is called. *)
Definition calling_tool_message (tool_name : string) (tool_args : JSON)
  : string :=
  (nl ++ "[Calling tool " ++ tool_name ++ " with args "
      ++ format_json tool_args ++ "]")%string.

(** The loop over [tool_calls] (lines 131 to 142); [tool_results] is
    the list built so far. *)
Fixpoint call_tools (calls : list ToolCall) (tool_results : list Block)
  : M (list Block) :=
  match calls with
  | [] => ret tool_results
  | tool_call :: rest =>
      let tool_name := call_name tool_call in
      let tool_args := call_input tool_call in
      print (calling_tool_message tool_name tool_args) ;;
      result <- call_tool tool_name tool_args ;;
      call_tools rest
        (tool_results ++ [ToolResult (call_id tool_call) result])
  end.

(** What the second loop (lines 159 to 162) writes. *)
Fixpoint text_deltas (chunks : list Chunk) : list string :=
  match chunks with
  | [] => []
  | chunk :: rest =>
      match chunk with
      | ContentBlockDelta (TextDelta text_delta) =>
          text_delta :: text_deltas rest
      | _ => text_deltas rest
      end
  end.

Definition print_text_deltas (response_stream : ResponseStream) : M unit :=
  write_all (text_deltas (chunks response_stream)) ;;
  end_of_stream response_stream.

Definition user_message (query : string) : Message :=
  {| role := User; content := Str query |}.

Definition assistant_message (st : DecoderState) : Message :=
  {| role := Assistant; content := Blocks (assistant_message_content st) |}.

Definition tool_result_message (tool_results : list Block) : Message :=
  {| role := User; content := Blocks tool_results |}.

Definition descriptor (tool : Tool JSON) : ToolDescriptor JSON :=
  {| name := tool_name tool;
     description := tool_description tool;
     input_schema := tool_inputSchema tool |}.

Definition process_query (query : string) : M unit :=
  let messages := [user_message query] in
  response <- list_tools ;;
  let available_tools := map descriptor response in
  response_stream <- create messages available_tools ;;
  st <- decode_stream response_stream ;;
  match assistant_message_content st with
  | [] => ret tt
  | _ :: _ =>
      let messages := messages ++ [assistant_message st] in
      match tool_calls st with
      | [] => ret tt
      | _ :: _ =>
          tool_results <- call_tools (tool_calls st) [] ;;
          let messages := messages ++ [tool_result_message tool_results] in
          response_stream <- create messages available_tools ;;
          print "" ;;
          print_text_deltas response_stream ;;
          print ""
      end
  end.

(** ** [chat_loop] *)

Inductive LoopControl : Type := Break | Continue.

(** How a run of the loop over the lines typed so far stands: the loop
    was left at ['quit'], or [input] waits for the next line. *)
Inductive LoopStatus : Type := Exited | WaitingForInput.

Definition error_message (e : PyException) : string :=
  (nl ++ "Error: " ++ exn_str e)%string.

(** [str.strip()] and [str.lower()]. *)
Variable strip : string -> string.
Variable lower : string -> string.

(** One pass of the [while True] body. *)
Definition chat_iteration (line : string) : M LoopControl :=
  try_except
    (typed <- input (nl ++ "Query: ")%string line ;;
     let query := strip typed in
     if (lower query =? "quit")%string then ret Break
     else process_query query ;; ret Continue)
    (fun e => print (error_message e) ;; ret Continue).

(** The loop over the lines typed so far; when they are used up,
    [input] has written its prompt and waits. *)
Fixpoint chat_iterations (lines : list string) : M LoopStatus :=
  match lines with
  | [] => write (nl ++ "Query: ")%string ;; ret WaitingForInput
  | line :: rest =>
      c <- chat_iteration line ;;
      match c with
      | Break => ret Exited
      | Continue => chat_iterations rest
      end
  end.

Definition chat_loop (lines : list string) : M LoopStatus :=
  print (nl ++ "MCP Client Started!")%string ;;
  print "Type your queries or 'quit' to exit." ;;
  chat_iterations lines.

(** ** Reading a trace *)

Definition is_model_call (ev : Event) : bool :=
  match ev with
  | ModelCall _ _ _ => true
  | _ => false
  end.

Definition is_call_tool (ev : Event) : bool :=
  match ev with
  | CallTool _ _ _ => true
  | _ => false
  end.

(** The number of requests sent to the model. *)
Definition model_calls (tr : list Event) : nat :=
  List.length (filter is_model_call tr).

(** The tool invocations, in order. *)
Definition tool_invocations (tr : list Event) : list Event :=
  filter is_call_tool tr.

(** The invocations of [calls], in order, each answered by the payload
    at its position. *)
Definition invocations (calls : list ToolCall) (payloads : list Payload)
  : list Event :=
  map (fun cp => CallTool (call_name (fst cp)) (call_input (fst cp))
                          (Returned (snd cp)))
      (combine calls payloads).

(** The tool results of [calls], in order, each with the id of its
    call and the payload at its position. *)
Definition tool_result_blocks (calls : list ToolCall)
  (payloads : list Payload) : list Block :=
  map (fun cp => ToolResult (call_id (fst cp)) (snd cp))
      (combine calls payloads).

(** The events up to the end of the first stream. *)
Definition first_round (query : string) (tools : list (Tool JSON))
  (s1 : ResponseStream) : list Event :=
  ListTools (Returned tools)
  :: ModelCall [user_message query] (map descriptor tools) (Returned s1)
  :: map Printed (snd (decode (chunks s1))).

(** The events from the line feed that follows the second request to
    the end of the second stream. *)
Definition second_round (s2 : ResponseStream) : list Event :=
  Printed nl :: map Printed (text_fragments (chunks s2))
  ++ match broken s2 with
     | Some _ => []
     | None => [Printed nl]
     end.

(** The messages of the second request. *)
Definition second_request (query : string) (st : DecoderState)
  (tool_results : list Block) : list Message :=
  [user_message query; assistant_message st; tool_result_message tool_results].

(** How iterating a stream to its end finishes. *)
Definition stream_end (s : ResponseStream) : Outcome unit :=
  match broken s with
  | Some e => Raised e
  | None => Returned tt
  end.

(** ** More readings of a stream and of a trace *)

(** The number of start events of tool-use blocks, and of stop events. *)
Definition tool_use_starts (chunks : list Chunk) : nat :=
  List.length (filter is_tool_use_start chunks).

Definition stops (chunks : list Chunk) : nat :=
  List.length (filter is_stop chunks).

(** The tool calls that are open: one or none. *)
Definition open_calls (st : DecoderState) : nat :=
  match current_tool_call st with
  | Some _ => 1
  | None => 0
  end.

Definition is_list_tools (ev : Event) : bool :=
  match ev with
  | ListTools _ => true
  | _ => false
  end.

(** The lines read from standard input, in order. *)
Definition read_lines (tr : list Event) : list string :=
  flat_map (fun ev => match ev with
                      | ReadLine line => [line]
                      | _ => []
                      end) tr.

(** The name and the arguments of every tool invocation, in order. *)
Definition invoked (tr : list Event) : list (string * JSON) :=
  flat_map (fun ev => match ev with
                      | CallTool tool arguments _ => [(tool, arguments)]
                      | _ => []
                      end) tr.

(** The name and the input of every tool call, in order. *)
Definition requested (calls : list ToolCall) : list (string * JSON) :=
  map (fun c => (call_name c, call_input c)) calls.

(** The exceptions of the remote operations that failed, in order. *)
Definition failures (tr : list Event) : list PyException :=
  flat_map (fun ev => match ev with
                      | ListTools (Raised e) => [e]
                      | ModelCall _ _ (Raised e) => [e]
                      | CallTool _ _ (Raised e) => [e]
                      | _ => []
                      end) tr.

(** The ids of the tool-use blocks, and the ids the tool-result blocks
    refer to, in order. *)
Definition tool_use_ids (blocks : list Block) : list string :=
  flat_map (fun b => match b with
                     | ToolUse id _ _ => [id]
                     | _ => []
                     end) blocks.

Definition tool_result_ids (blocks : list Block) : list string :=
  flat_map (fun b => match b with
                     | ToolResult tool_use_id _ => [tool_use_id]
                     | _ => []
                     end) blocks.

Definition is_tool_use (b : Block) : bool :=
  match b with
  | ToolUse _ _ _ => true
  | _ => false
  end.

Definition is_tool_result (b : Block) : bool :=
  match b with
  | ToolResult _ _ => true
  | _ => false
  end.

(** [l] holds the entries of [l1] and those of [l2], each list in its
    order. *)
Inductive interleaved {A : Type} : list A -> list A -> list A -> Prop :=
| interleaved_nil : interleaved [] [] []
| interleaved_left (x : A) (l1 l2 l : list A) :
    interleaved l1 l2 l -> interleaved (x :: l1) l2 (x :: l)
| interleaved_right (x : A) (l1 l2 l : list A) :
    interleaved l1 l2 l -> interleaved l1 (x :: l2) (x :: l).

(** The test of the loop on a typed line: [query.lower() == 'quit']
    after [strip]. *)
Definition is_quit (line : string) : bool :=
  (lower (strip line) =? "quit")%string.

(** ** Starting and stopping the client

    [MCPClient.__init__], [connect_to_server], [cleanup] and [main].
    Of the client object the code below uses [self.exit_stack], here
    the list of the contexts entered and not yet closed, oldest first;
    [self.session] is set when [connect_to_server] has entered the
    session, and [main] runs the chat loop only after that. *)

(** The text [print] writes for the list of the tool names. *)
Variable format_names : list string -> string.
(** [Anthropic()] *)
Variable anthropic_new : World -> Outcome unit * World.
(** Entering [stdio_client(server_params)]: the server is launched. *)
Variable stdio_client_enter :
  StdioServerParameters -> World -> Outcome unit * World.
(** Entering [ClientSession(self.stdio, self.write)]. *)
Variable client_session_enter : World -> Outcome unit * World.
(** [await self.session.initialize()] *)
Variable session_initialize : World -> Outcome unit * World.
(** [await self.exit_stack.aclose()] on the contexts of the stack. *)
Variable exit_stack_aclose : list Context -> World -> Outcome unit * World.

Inductive ProcessEvent : Type :=
| Client (ev : Event)
| NewAnthropic (r : Outcome unit)
| Enter (c : Context) (r : Outcome unit)
| Initialize (r : Outcome unit)
| Aclose (stack : list Context) (r : Outcome unit).

(** A computation on the client object: it also threads the exit
    stack. *)
Definition P (A : Type) : Type :=
  World -> list Context ->
  Outcome A * World * list Context * list ProcessEvent.

Definition pret {A : Type} (a : A) : P A :=
  fun w stack => (Returned a, w, stack, []).

Definition praise {A : Type} (e : PyException) : P A :=
  fun w stack => (Raised e, w, stack, []).

Definition pbind {A B : Type} (m : P A) (k : A -> P B) : P B :=
  fun w stack =>
    match m w stack with
    | (Returned a, w1, stack1, t1) =>
        match k a w1 stack1 with
        | (o, w2, stack2, t2) => (o, w2, stack2, t1 ++ t2)
        end
    | (Raised e, w1, stack1, t1) => (Raised e, w1, stack1, t1)
    end.

Local Notation "x <<- m ;; k" := (pbind m (fun x => k))
  (at level 61, m at next level, right associativity).
Local Notation "m >> k" := (pbind m (fun _ => k))
  (at level 61, right associativity).

(** A computation that does not touch the exit stack. *)
Definition lift {A : Type} (m : M A) : P A :=
  fun w stack =>
    match m w with
    | (o, w1, t1) => (o, w1, stack, map Client t1)
    end.

(** [await self.exit_stack.enter_async_context(cm)]: the context is
    pushed when it was entered. *)
Definition enter_async_context (c : Context)
  (enter : World -> Outcome unit * World) : P unit :=
  fun w stack =>
    match enter w with
    | (Returned u, w1) =>
        (Returned tt, w1, stack ++ [c], [Enter c (Returned u)])
    | (Raised e, w1) => (Raised e, w1, stack, [Enter c (Raised e)])
    end.

Definition initialize : P unit :=
  fun w stack =>
    let (r, w1) := session_initialize w in (r, w1, stack, [Initialize r]).

(** [MCPClient()]: a fresh exit stack and a new [Anthropic()]. *)
Definition new_client : P unit :=
  fun w stack =>
    let (r, w1) := anthropic_new w in (r, w1, [], [NewAnthropic r]).

Definition ValueError_script : PyException :=
  {| is_Exception := true;
     exn_str := "Server script must be a .py or .js file" |}.

Definition connected_message (names : list string) : string :=
  (nl ++ "Connected to server with tools:" ++ " " ++ format_names names)%string.

Definition connect_to_server (server_script_path : string) : P unit :=
  let is_python := endswith server_script_path ".py" in
  let is_js := endswith server_script_path ".js" in
  if negb (is_python || is_js) then praise ValueError_script
  else
    let command := if is_python then "python" else "node" in
    let server_params :=
      {| command := command; args := [server_script_path]; env := None |} in
    enter_async_context (StdioClient server_params)
                        (stdio_client_enter server_params) >>
    enter_async_context ClientSession client_session_enter >>
    initialize >>
    tools <<- lift list_tools ;;
    lift (print (connected_message (map (@tool_name JSON) tools))).

(** [cleanup]: the stack is closed and left empty. *)
Definition cleanup : P unit :=
  fun w stack =>
    let (r, w1) := exit_stack_aclose stack w in (r, w1, [], [Aclose stack r]).

(** [try: body  finally: final], for a body that ends with the chat
    loop: while the loop waits for the next line the body has not
    ended, and [final] has not run. *)
Definition try_finally (body : P LoopStatus) (final : P unit)
  : P LoopStatus :=
  fun w stack =>
    match body w stack with
    | (Returned WaitingForInput, w1, stack1, t1) =>
        (Returned WaitingForInput, w1, stack1, t1)
    | (o, w1, stack1, t1) =>
        match final w1 stack1 with
        | (Returned _, w2, stack2, t2) => (o, w2, stack2, t1 ++ t2)
        | (Raised e, w2, stack2, t2) => (Raised e, w2, stack2, t1 ++ t2)
        end
    end.

(** [sys.exit(1)] *)
Definition SystemExit_1 : PyException :=
  {| is_Exception := false; exn_str := "1" |}.

Definition usage : string := "Usage: python client.py <path_to_server_script>".

(** [main], with [sys.argv] and the lines typed so far. *)
Definition main (argv : list string) (lines : list string) : P LoopStatus :=
  if (List.length argv <? 2)%nat then
    lift (print usage) >> praise SystemExit_1
  else
    new_client >>
    try_finally
      (connect_to_server (nth 1 argv "") >> lift (chat_loop lines))
      cleanup.

(** The parameters [connect_to_server] builds for a script. *)
Definition server_params_for (server_script_path : string)
  : StdioServerParameters :=
  {| command := if endswith server_script_path ".py" then "python" else "node";
     args := [server_script_path];
     env := None |}.

(** The exceptions of the operations that failed while the client was
    started or stopped, in order. *)
Definition start_failures (tr : list ProcessEvent) : list PyException :=
  flat_map (fun ev => match ev with
                      | Client ev => failures [ev]
                      | NewAnthropic (Raised e) => [e]
                      | Enter _ (Raised e) => [e]
                      | Initialize (Raised e) => [e]
                      | Aclose _ (Raised e) => [e]
                      | _ => []
                      end) tr.

(** The contexts a trace entered, in order. *)
Definition entered (tr : list ProcessEvent) : list Context :=
  flat_map (fun ev => match ev with
                      | Enter c (Returned _) => [c]
                      | _ => []
                      end) tr.

(** The closings of the exit stack in a trace. *)
Definition is_aclose (ev : ProcessEvent) : bool :=
  match ev with
  | Aclose _ _ => true
  | _ => false
  end.

(** The events of the chat loop and of the queries in a trace. *)
Definition client_events (tr : list ProcessEvent) : list Event :=
  flat_map (fun ev => match ev with
                      | Client ev => [ev]
                      | _ => []
                      end) tr.

(** ** Strings and lists *)

Lemma append_nil_r (s : string) : (s ++ "")%string = s.
Proof. induction s as [|c s IH]; simpl; [reflexivity | now rewrite IH]. Qed.

Lemma append_assoc (s t u : string) :
  ((s ++ t) ++ u = s ++ (t ++ u))%string.
Proof. induction s as [|c s IH]; simpl; [reflexivity | now rewrite IH]. Qed.

Lemma join_cons (x : string) (l : list string) :
  join (x :: l) = (x ++ join l)%string.
Proof.
  unfold join. destruct l as [|y l]; simpl.
  - now rewrite append_nil_r.
  - reflexivity.
Qed.

Lemma join_app (l1 l2 : list string) :
  join (l1 ++ l2) = (join l1 ++ join l2)%string.
Proof.
  induction l1 as [|x l1 IH].
  - reflexivity.
  - change ((x :: l1) ++ l2) with (x :: (l1 ++ l2)).
    now rewrite !join_cons, IH, append_assoc.
Qed.

Lemma text_fragments_app (a b : list Chunk) :
  text_fragments (a ++ b) = text_fragments a ++ text_fragments b.
Proof.
  induction a as [|c a IH]; [reflexivity|].
  destruct c as [cb|d| |]; simpl; try exact IH.
  destruct d; simpl; now rewrite ?IH.
Qed.

Lemma json_fragments_app (a b : list Chunk) :
  json_fragments (a ++ b) = json_fragments a ++ json_fragments b.
Proof.
  induction a as [|c a IH]; [reflexivity|].
  destruct c as [cb|d| |]; simpl; try exact IH.
  destruct d; simpl; now rewrite ?IH.
Qed.

(** The second loop writes the text fragments of its stream. *)
Lemma text_deltas_fragments (cs : list Chunk) :
  text_deltas cs = text_fragments cs.
Proof.
  induction cs as [|c cs IH]; [reflexivity|].
  destruct c as [cb|d| |]; simpl; try exact IH.
  destruct d; simpl; now rewrite ?IH.
Qed.

(** ** The stream loop *)

Lemma run_decoder_cons (st : DecoderState) (c : Chunk) (cs : list Chunk) :
  run_decoder st (c :: cs) =
  match on_chunk st c with
  | (Returned st1, out1) =>
      (fst (fst (run_decoder st1 cs)),
       out1 ++ snd (fst (run_decoder st1 cs)),
       snd (run_decoder st1 cs))
  | (Raised e, out1) => (st, out1, Some e)
  end.
Proof.
  simpl. destruct (on_chunk st c) as [[st1|e] o1]; [|reflexivity].
  now destruct (run_decoder st1 cs) as [[st2 o2] r].
Qed.

(** The loop goes on with the second half of a stream only when the
    first half did not leave it. *)
Lemma run_decoder_app (st : DecoderState) (a b : list Chunk) :
  run_decoder st (a ++ b) =
  match run_decoder st a with
  | (st1, out1, None) =>
      (fst (fst (run_decoder st1 b)),
       out1 ++ snd (fst (run_decoder st1 b)),
       snd (run_decoder st1 b))
  | (st1, out1, Some e) => (st1, out1, Some e)
  end.
Proof.
  revert st. induction a as [|c a IH]; intro st.
  - simpl. now destruct (run_decoder st b) as [[st2 o2] r].
  - change ((c :: a) ++ b) with (c :: (a ++ b)).
    rewrite !run_decoder_cons.
    destruct (on_chunk st c) as [[st1|e] o1]; [|reflexivity].
    rewrite IH. destruct (run_decoder st1 a) as [[st2 o2] [e|]]; cbn [fst snd].
    + reflexivity.
    + now rewrite app_assoc.
Qed.

(** The loop reads of its state only the open tool call; the text
    parts and the tool calls it found before are left in front of the
    new ones. *)
Lemma on_chunk_frame (tp : list string) (tc : list ToolCall)
  (slot : option OpenToolCall) (c : Chunk) :
  on_chunk {| text_parts := tp; tool_calls := tc; current_tool_call := slot |} c
  = match on_chunk {| text_parts := []; tool_calls := [];
                      current_tool_call := slot |} c with
    | (Returned st1, out) =>
        (Returned {| text_parts := tp ++ text_parts st1;
                     tool_calls := tc ++ tool_calls st1;
                     current_tool_call := current_tool_call st1 |}, out)
    | (Raised e, out) => (Raised e, out)
    end.
Proof.
  destruct c as [cb|d| |]; simpl.
  - destruct cb; simpl; now rewrite ?app_nil_r.
  - destruct d; simpl; rewrite ?app_nil_r; try reflexivity.
    destruct slot; simpl; now rewrite ?app_nil_r.
  - destruct slot as [c|]; simpl; rewrite ?app_nil_r; try reflexivity.
    destruct (json_loads (open_input c)); simpl; now rewrite ?app_nil_r.
  - now rewrite !app_nil_r.
Qed.

Lemma run_decoder_frame (cs : list Chunk) :
  forall (tp : list string) (tc : list ToolCall) (slot : option OpenToolCall),
  run_decoder {| text_parts := tp; tool_calls := tc;
                 current_tool_call := slot |} cs
  = (let st1 := fst (fst (run_decoder {| text_parts := []; tool_calls := [];
                                         current_tool_call := slot |} cs)) in
     {| text_parts := tp ++ text_parts st1;
        tool_calls := tc ++ tool_calls st1;
        current_tool_call := current_tool_call st1 |},
     snd (fst (run_decoder {| text_parts := []; tool_calls := [];
                              current_tool_call := slot |} cs)),
     snd (run_decoder {| text_parts := []; tool_calls := [];
                         current_tool_call := slot |} cs)).
Proof.
  induction cs as [|c cs IH]; intros tp tc slot.
  - simpl. now rewrite !app_nil_r.
  - rewrite !run_decoder_cons, on_chunk_frame.
    destruct (on_chunk {| text_parts := []; tool_calls := [];
                          current_tool_call := slot |} c)
      as [[[tp1 tc1 s1]|e] o1].
    + cbn [fst snd text_parts tool_calls current_tool_call].
      rewrite (IH (tp ++ tp1) (tc ++ tc1) s1), (IH tp1 tc1 s1).
      cbn [fst snd text_parts tool_calls current_tool_call].
      now rewrite !app_assoc.
    + cbn. now rewrite !app_nil_r.
Qed.

(** While no tool call is open and none is opened, the loop only
    collects text, and [json.loads] is not called. *)
Lemma run_decoder_closed (cs : list Chunk) :
  no_tool_use_start cs = true ->
  forall (tp : list string) (tc : list ToolCall),
  run_decoder {| text_parts := tp; tool_calls := tc;
                 current_tool_call := None |} cs
  = ({| text_parts := tp ++ text_fragments cs; tool_calls := tc;
        current_tool_call := None |},
     text_fragments cs, None).
Proof.
  induction cs as [|c cs IH]; intros H tp tc.
  - simpl. now rewrite app_nil_r.
  - unfold no_tool_use_start in H. simpl in H.
    apply andb_prop in H. destruct H as [Hc H].
    rewrite run_decoder_cons.
    destruct c as [cb|d| |]; simpl in *.
    + destruct cb; simpl in *; try discriminate; now rewrite (IH H).
    + destruct d; simpl; rewrite (IH H); simpl; try reflexivity.
      now rewrite <- app_assoc.
    + now rewrite (IH H).
    + now rewrite (IH H).
Qed.

(** Inside a block, the partial-JSON fragments are appended to the
    input of the open tool call, in order and with nothing between
    them. *)
Lemma run_decoder_body (body : list Chunk) :
  no_tool_use_start body = true ->
  no_stop body = true ->
  forall (tp : list string) (tc : list ToolCall) (id name buffer : string),
  run_decoder {| text_parts := tp; tool_calls := tc;
                 current_tool_call :=
                   Some {| open_id := id; open_name := name;
                           open_input := buffer |} |} body
  = ({| text_parts := tp ++ text_fragments body; tool_calls := tc;
        current_tool_call :=
          Some {| open_id := id; open_name := name;
                  open_input := (buffer ++ join (json_fragments body))%string |} |},
     text_fragments body, None).
Proof.
  induction body as [|c body IH]; intros H1 H2 tp tc id name buffer.
  - simpl. now rewrite app_nil_r, append_nil_r.
  - unfold no_tool_use_start in H1. unfold no_stop in H2. simpl in H1, H2.
    apply andb_prop in H1. destruct H1 as [Hc1 H1].
    apply andb_prop in H2. destruct H2 as [Hc2 H2].
    rewrite run_decoder_cons.
    destruct c as [cb|d| |]; simpl in *; try discriminate.
    + destruct cb; simpl in *; try discriminate; now rewrite (IH H1 H2).
    + destruct d; simpl; rewrite (IH H1 H2); simpl; try reflexivity.
      * now rewrite <- app_assoc.
      * now rewrite join_cons, append_assoc.
    + now rewrite (IH H1 H2).
Qed.

(** A whole block, from its start event to its stop event, whatever
    was open before: the stop event yields a tool call or a warning, or
    it leaves the loop with the tool call still open. *)
Lemma run_decoder_block (body : list Chunk) :
  no_tool_use_start body = true ->
  no_stop body = true ->
  forall (st : DecoderState) (id name : string),
  run_decoder st (tool_use_block id name body)
  = match closed_raise (join (json_fragments body)) with
    | Some e =>
        ({| text_parts := text_parts st ++ text_fragments body;
            tool_calls := tool_calls st;
            current_tool_call :=
              Some {| open_id := id; open_name := name;
                      open_input := join (json_fragments body) |} |},
         text_fragments body, Some e)
    | None =>
        ({| text_parts := text_parts st ++ text_fragments body;
            tool_calls :=
              tool_calls st
              ++ closed_call id name (join (json_fragments body));
            current_tool_call := None |},
         text_fragments body ++ closed_warning (join (json_fragments body)),
         None)
    end.
Proof.
  intros H1 H2 st id name. unfold tool_use_block.
  rewrite run_decoder_cons. cbn [on_chunk fst snd].
  rewrite run_decoder_app, (run_decoder_body body H1 H2). cbn [fst snd app].
  unfold closed_call, closed_warning, closed_raise. simpl.
  destruct (json_loads (join (json_fragments body))); simpl;
    now rewrite ?app_nil_r.
Qed.

(** The loop is left by an exception only at a stop event, with the
    tool call still open whose input [json.loads] did not accept. *)
Lemma run_decoder_raised (cs : list Chunk) :
  forall (st : DecoderState) (e : PyException),
  snd (run_decoder st cs) = Some e ->
  exists (pre post : list Chunk) (c : OpenToolCall),
    cs = pre ++ ContentBlockStop :: post
    /\ run_decoder st pre
       = (fst (fst (run_decoder st cs)), snd (fst (run_decoder st cs)), None)
    /\ current_tool_call (fst (fst (run_decoder st cs))) = Some c
    /\ json_loads (open_input c) = OtherError e.
Proof.
  induction cs as [|ch cs IH]; intros st e H.
  - discriminate.
  - rewrite run_decoder_cons in H |- *.
    destruct (on_chunk st ch) as [[st1|e1] o1] eqn:E.
    + cbn [fst snd] in H |- *.
      destruct (IH st1 e H) as [pre [post [c [-> [R [S L]]]]]].
      exists (ch :: pre), post, c. repeat split; try assumption.
      rewrite run_decoder_cons, E, R. reflexivity.
    + cbn [fst snd] in H |- *. injection H as ->.
      destruct ch as [cb|d| |]; simpl in E.
      * destruct cb; discriminate.
      * destruct d; try discriminate.
        destruct (current_tool_call st); discriminate.
      * destruct (current_tool_call st) as [c|] eqn:S; [|discriminate].
        destruct (json_loads (open_input c)) eqn:L; try discriminate.
        injection E as -> <-.
        exists [], cs, c. now repeat split.
      * discriminate.
Qed.

(** A loop that ends with no tool call open was not left by an
    exception. *)
Lemma run_decoder_closed_end (cs : list Chunk) (st : DecoderState) :
  current_tool_call (fst (fst (run_decoder st cs))) = None ->
  snd (run_decoder st cs) = None.
Proof.
  intro H. destruct (snd (run_decoder st cs)) as [e|] eqn:R; [|reflexivity].
  destruct (run_decoder_raised cs st R) as [pre [post [c [_ [_ [S _]]]]]].
  congruence.
Qed.

Lemma decode_closed_end (cs : list Chunk) :
  current_tool_call (fst (decode cs)) = None -> decode_raised cs = None.
Proof. apply run_decoder_closed_end. Qed.

(** The text parts are the text fragments of the events the loop went
    through: all of them, unless the loop was left by an exception. *)
Lemma run_decoder_text_parts (cs : list Chunk) :
  forall st : DecoderState,
  exists unread : list string,
    text_parts st ++ text_fragments cs
    = text_parts (fst (fst (run_decoder st cs))) ++ unread
    /\ (snd (run_decoder st cs) = None -> unread = []).
Proof.
  induction cs as [|c cs IH]; intro st.
  - exists []. simpl. now rewrite !app_nil_r.
  - rewrite run_decoder_cons.
    destruct (on_chunk st c) as [[st1|e] o1] eqn:E.
    + cbn [fst snd]. destruct (IH st1) as [unread [U N]].
      exists unread. split; [|exact N]. rewrite <- U.
      destruct c as [cb|d| |]; [destruct cb|destruct d| |]; simpl in E;
        try (injection E as <- _; reflexivity).
      * injection E as <- _. cbn [text_parts]. now rewrite <- app_assoc.
      * destruct (current_tool_call st); injection E as <- _; reflexivity.
      * destruct (current_tool_call st) as [c|]; [|now injection E as <- _].
        destruct (json_loads (open_input c)); try discriminate;
          injection E as <- _; reflexivity.
    + cbn [fst snd]. exists (text_fragments (c :: cs)).
      split; [reflexivity | discriminate].
Qed.

Lemma text_parts_decode (cs : list Chunk) :
  exists unread : list string,
    text_fragments cs = text_parts (fst (decode cs)) ++ unread
    /\ (decode_raised cs = None -> unread = []).
Proof. exact (run_decoder_text_parts cs initial_state). Qed.

Lemma text_parts_decode_all (cs : list Chunk) :
  decode_raised cs = None -> text_parts (fst (decode cs)) = text_fragments cs.
Proof.
  intro H. destruct (text_parts_decode cs) as [unread [U N]].
  rewrite U, (N H). now rewrite app_nil_r.
Qed.


(** How the first loop of a query ends, and what it writes. *)
Lemma decode_stream_eq (s : ResponseStream) (w : World) :
  decode_stream s w
  = (match decode_raised (chunks s) with
     | Some e => Raised e
     | None =>
         match broken s with
         | Some e => Raised e
         | None => Returned (fst (decode (chunks s)))
         end
     end, w, map Printed (snd (decode (chunks s)))).
Proof.
  unfold decode_stream, decode, decode_raised.
  destruct (run_decoder initial_state (chunks s)) as [[st out] [e|]];
    unfold bind, write_all, end_of_stream, raise, ret; cbn.
  - now rewrite app_nil_r.
  - destruct (broken s); cbn; now rewrite ?app_nil_r.
Qed.

(** Iterating a stream that does not break raises only what
    [json.loads] raised. *)
Lemma decode_stream_unbroken (cs : list Chunk) (w : World) :
  decode_raised cs = None ->
  decode_stream {| chunks := cs; broken := None |} w
  = (Returned (fst (decode cs)), w, map Printed (snd (decode cs))).
Proof.
  intro H. rewrite decode_stream_eq. cbn [chunks broken]. now rewrite H.
Qed.

(** C1: a stream with exactly one tool-use block (no other block is
    opened before, inside or after it) whose partial-JSON fragments,
    appended in arrival order with nothing between them, parse as JSON,
    yields exactly one tool call: its input is the parsed value, its id
    and name are those of the start event of the block. *)
Theorem single_tool_use_block_decoded
  (pre body post : list Chunk) (id name : string) (v : JSON) :
  no_tool_use_start pre = true ->
  no_tool_use_start body = true ->
  no_stop body = true ->
  no_tool_use_start post = true ->
  json_loads (join (json_fragments body)) = Parsed v ->
  tool_calls (fst (decode (pre ++ tool_use_block id name body ++ post)))
  = [{| call_id := id; call_name := name; call_input := v |}].
Proof.
  intros Hpre Hb1 Hb2 Hpost Hv. unfold decode, initial_state.
  rewrite run_decoder_app, (run_decoder_closed pre Hpre). cbn [fst snd].
  rewrite run_decoder_app, (run_decoder_block body Hb1 Hb2).
  unfold closed_raise, closed_call. rewrite Hv. cbn [fst snd].
  rewrite (run_decoder_closed post Hpost). reflexivity.
Qed.


(** C7 (as amended): a stream with no text delta, in particular one
    with only tool-use blocks, yields an assistant message with no
    text block. *)
Theorem no_text_delta_no_text_block (cs : list Chunk) (b : Block) :
  forallb (fun c => negb (is_text_delta c)) cs = true ->
  In b (content_blocks (assistant_message (fst (decode cs)))) ->
  is_text_block b = false.
Proof.
  intros H Hb.
  assert (E : text_fragments cs = []).
  { clear Hb. induction cs as [|c cs IH]; [reflexivity|].
    simpl in H. apply andb_prop in H. destruct H as [Hc H].
    destruct c as [cb|d| |]; simpl; try (exact (IH H)).
    destruct d; simpl in *; try discriminate; exact (IH H). }
  assert (T : text_parts (fst (decode cs)) = []).
  { destruct (text_parts_decode cs) as [unread [U _]]. rewrite E in U.
    symmetry in U. now apply app_eq_nil in U. }
  unfold assistant_message, content_blocks, assistant_message_content in Hb.
  cbn [content] in Hb.
  rewrite T in Hb. cbn [app] in Hb.
  apply in_map_iff in Hb. destruct Hb as [c [<- _]]. reflexivity.
Qed.

(** C8: when the start event of a tool-use block arrives while the
    block opened by an earlier start event is still open, the earlier
    one is dropped: the new tool call is open with an empty input, the
    tool calls found so far are unchanged, and whatever follows, the
    tool calls of the stream are those closed before the dropped block
    followed by those of the stream that begins at the new start
    event.  The events before the earlier start event are events the
    loop went through: none of them left it by an exception. *)
Theorem unclosed_slot_discarded
  (pre mid rest : list Chunk) (idA nameA idB nameB : string) :
  decode_raised pre = None ->
  no_tool_use_start mid = true ->
  no_stop mid = true ->
  current_tool_call
    (fst (decode (pre ++ ContentBlockStart (ToolUseBlock idA nameA) :: mid)))
  = Some {| open_id := idA; open_name := nameA;
            open_input := join (json_fragments mid) |}
  /\ current_tool_call
       (fst (decode (pre ++ ContentBlockStart (ToolUseBlock idA nameA) :: mid
                         ++ [ContentBlockStart (ToolUseBlock idB nameB)])))
     = Some {| open_id := idB; open_name := nameB; open_input := "" |}
  /\ tool_calls
       (fst (decode (pre ++ ContentBlockStart (ToolUseBlock idA nameA) :: mid
                         ++ [ContentBlockStart (ToolUseBlock idB nameB)])))
     = tool_calls (fst (decode pre))
  /\ tool_calls
       (fst (decode (pre ++ ContentBlockStart (ToolUseBlock idA nameA) :: mid
                         ++ ContentBlockStart (ToolUseBlock idB nameB) :: rest)))
     = tool_calls (fst (decode pre))
       ++ tool_calls
            (fst (decode (ContentBlockStart (ToolUseBlock idB nameB) :: rest)))
  /\ decode_raised
       (pre ++ ContentBlockStart (ToolUseBlock idA nameA) :: mid
            ++ ContentBlockStart (ToolUseBlock idB nameB) :: rest)
     = decode_raised (ContentBlockStart (ToolUseBlock idB nameB) :: rest).
Proof.
  intros H0 H1 H2.
  assert (A : forall tail,
             run_decoder initial_state
               (pre ++ ContentBlockStart (ToolUseBlock idA nameA) :: mid ++ tail)
             = (fst (fst (run_decoder
                       {| text_parts :=
                            text_parts (fst (decode pre)) ++ text_fragments mid;
                          tool_calls := tool_calls (fst (decode pre));
                          current_tool_call :=
                            Some {| open_id := idA; open_name := nameA;
                                    open_input := join (json_fragments mid) |} |}
                       tail)),
                snd (decode pre) ++ text_fragments mid
                ++ snd (fst (run_decoder
                          {| text_parts :=
                               text_parts (fst (decode pre)) ++ text_fragments mid;
                             tool_calls := tool_calls (fst (decode pre));
                             current_tool_call :=
                               Some {| open_id := idA; open_name := nameA;
                                       open_input := join (json_fragments mid) |} |}
                          tail)),
                snd (run_decoder
                       {| text_parts :=
                            text_parts (fst (decode pre)) ++ text_fragments mid;
                          tool_calls := tool_calls (fst (decode pre));
                          current_tool_call :=
                            Some {| open_id := idA; open_name := nameA;
                                    open_input := join (json_fragments mid) |} |}
                       tail))).
  { intro tail. rewrite run_decoder_app.
    unfold decode, decode_raised in H0 |- *.
    destruct (run_decoder initial_state pre) as [[st1 out1] r1].
    cbn [fst snd] in H0 |- *. subst r1.
    rewrite run_decoder_cons. cbn [on_chunk fst snd app].
    rewrite run_decoder_app, (run_decoder_body mid H1 H2). cbn [fst snd].
    reflexivity. }
  split; [|split; [|split; [|split]]].
  - unfold decode at 1.
    rewrite <- (app_nil_r mid) at 1. rewrite A. cbn [run_decoder fst].
    reflexivity.
  - unfold decode at 1. rewrite A. reflexivity.
  - unfold decode at 1. rewrite A. reflexivity.
  - unfold decode at 1. rewrite A. cbn [fst].
    rewrite run_decoder_cons. cbn [on_chunk fst text_parts tool_calls].
    rewrite run_decoder_frame. cbn [fst tool_calls].
    f_equal. unfold decode, initial_state. now rewrite run_decoder_cons.
  - unfold decode_raised at 1. rewrite A. cbn [snd].
    rewrite run_decoder_cons. cbn [on_chunk snd].
    rewrite run_decoder_frame. cbn [snd].
    unfold decode_raised, initial_state. now rewrite run_decoder_cons.
Qed.

(** The loop is left by an exception exactly when [json.loads] raises
    another exception than [json.JSONDecodeError] on the input of the
    tool call that a stop event closes. *)
Lemma decode_raised_iff (cs : list Chunk) (e : PyException) :
  decode_raised cs = Some e
  <-> exists (pre post : list Chunk) (c : OpenToolCall),
        cs = pre ++ ContentBlockStop :: post
        /\ decode_raised pre = None
        /\ current_tool_call (fst (decode pre)) = Some c
        /\ json_loads (open_input c) = OtherError e.
Proof.
  split.
  - intro H.
    destruct (run_decoder_raised cs initial_state H)
      as [pre [post [c [E [R [S L]]]]]].
    exists pre, post, c. unfold decode, decode_raised. rewrite R.
    now repeat split.
  - intros [pre [post [c [-> [R [S L]]]]]].
    unfold decode, decode_raised in *. rewrite run_decoder_app.
    destruct (run_decoder initial_state pre) as [[st1 out1] r1].
    cbn [fst snd] in R, S |- *. subst r1.
    rewrite run_decoder_cons. cbn [on_chunk]. now rewrite S, L.
Qed.

(** C9 (as amended): a partial-JSON delta or a stop event that arrives
    while no tool call is open changes neither the state nor the
    output and raises nothing, so the stream decodes as if the event
    were not there.  The loop does not end normally on every finite
    stream: it is left by an exception exactly when [json.loads] raises
    another exception than [json.JSONDecodeError] on the input of a
    tool call that a stop event closes; on every other finite stream
    that does not break it runs to the end of the events. *)
Theorem stray_event_ignored (c : Chunk) :
  is_json_delta c = true \/ is_stop c = true ->
  (forall st : DecoderState,
      current_tool_call st = None -> on_chunk st c = (Returned st, []))
  /\ (forall pre post : list Chunk,
         current_tool_call (fst (decode pre)) = None ->
         decode (pre ++ c :: post) = decode (pre ++ post)
         /\ decode_raised (pre ++ c :: post) = decode_raised (pre ++ post))
  /\ (forall (cs : list Chunk) (e : PyException),
         decode_raised cs = Some e
         <-> exists (pre post : list Chunk) (open : OpenToolCall),
               cs = pre ++ ContentBlockStop :: post
               /\ decode_raised pre = None
               /\ current_tool_call (fst (decode pre)) = Some open
               /\ json_loads (open_input open) = OtherError e)
  /\ (forall (cs : list Chunk) (w : World),
         decode_raised cs = None ->
         decode_stream {| chunks := cs; broken := None |} w
         = (Returned (fst (decode cs)), w, map Printed (snd (decode cs)))).
Proof.
  intro Hc.
  assert (S : forall st : DecoderState,
             current_tool_call st = None -> on_chunk st c = (Returned st, [])).
  { intros st Hst.
    destruct Hc as [Hc|Hc]; destruct c as [cb|d| |]; try discriminate.
    - destruct d; try discriminate. simpl. now rewrite Hst.
    - simpl. now rewrite Hst. }
  split; [exact S|split; [|split]].
  - intros pre post Hpre.
    pose proof (decode_closed_end pre Hpre) as N.
    unfold decode, decode_raised in *.
    rewrite !run_decoder_app.
    destruct (run_decoder initial_state pre) as [[st1 out1] r1].
    cbn [fst snd] in Hpre, N |- *. subst r1.
    rewrite run_decoder_cons, (S _ Hpre). now split.
  - intros cs e. apply decode_raised_iff.
  - intros cs w H. now apply decode_stream_unbroken.
Qed.

Lemma without_json_deltas_closed (cs : list Chunk) :
  no_tool_use_start cs = true ->
  no_tool_use_start (without_json_deltas cs) = true
  /\ text_fragments (without_json_deltas cs) = text_fragments cs.
Proof.
  unfold no_tool_use_start, without_json_deltas.
  induction cs as [|c cs IH]; intro H; [now split|].
  simpl in H. apply andb_prop in H. destruct H as [Hc H].
  destruct (IH H) as [I1 I2].
  destruct c as [cb|d| |]; [destruct cb | destruct d | |]; simpl in *;
    rewrite ?I1, ?I2; try discriminate; now split.
Qed.

(** C10: an iteration on a stop event either ends with no tool call
    open, whether the input of the closed one parsed or was rejected,
    or leaves the loop at once with the exception of [json.loads], so
    that nothing arrives after it.  After a stop event that the loop
    went through, the tool calls stay as they are and no tool call is
    open until the next start of a tool-use block, and the partial-JSON
    fragments that arrive meanwhile change nothing: the stream decodes
    as if they were not there. *)
Theorem stop_clears_slot
  (st : DecoderState) (between rest : list Chunk) :
  no_tool_use_start between = true ->
  match on_chunk st ContentBlockStop with
  | (Returned st1, _) =>
      current_tool_call st1 = None
      /\ tool_calls (fst (fst (run_decoder st (ContentBlockStop :: between))))
         = tool_calls st1
      /\ current_tool_call
           (fst (fst (run_decoder st (ContentBlockStop :: between))))
         = None
      /\ snd (run_decoder st (ContentBlockStop :: between)) = None
  | (Raised e, out) =>
      out = []
      /\ (exists c, current_tool_call st = Some c
                    /\ json_loads (open_input c) = OtherError e)
      /\ run_decoder st (ContentBlockStop :: between ++ rest)
         = (st, [], Some e)
  end
  /\ run_decoder st (ContentBlockStop :: between ++ rest)
     = run_decoder st
         (ContentBlockStop :: without_json_deltas between ++ rest).
Proof.
  intro H.
  destruct (without_json_deltas_closed between H) as [H' T].
  rewrite !run_decoder_cons.
  destruct (on_chunk st ContentBlockStop) as [[st1|e] out] eqn:E.
  - assert (N : current_tool_call st1 = None).
    { simpl in E. destruct (current_tool_call st) as [c|] eqn:S.
      - destruct (json_loads (open_input c)); try discriminate;
          now injection E as <- _.
      - now injection E as <- _. }
    destruct st1 as [tp tc slot]. cbn [current_tool_call] in N. subst slot.
    rewrite !run_decoder_app.
    rewrite (run_decoder_closed between H),
      (run_decoder_closed (without_json_deltas between) H'), T.
    cbn [fst snd tool_calls current_tool_call]. now repeat split.
  - split; [|reflexivity].
    simpl in E. destruct (current_tool_call st) as [c|] eqn:S;
      [|discriminate].
    destruct (json_loads (open_input c)) eqn:L; try discriminate.
    injection E as -> <-. repeat split. now exists c.
Qed.

(** ** The two rounds of [process_query] *)

Lemma model_calls_app (a b : list Event) :
  model_calls (a ++ b) = model_calls a + model_calls b.
Proof. unfold model_calls. now rewrite filter_app, length_app. Qed.

Lemma model_calls_printed (out : list string) :
  model_calls (map Printed out) = 0.
Proof. induction out as [|x out IH]; [reflexivity | exact IH]. Qed.

Lemma tool_invocations_app (a b : list Event) :
  tool_invocations (a ++ b) = tool_invocations a ++ tool_invocations b.
Proof. apply filter_app. Qed.

Lemma tool_invocations_printed (out : list string) :
  tool_invocations (map Printed out) = [].
Proof. induction out as [|x out IH]; [reflexivity | exact IH]. Qed.

Lemma in_tool_invocations (tr : list Event) tool arguments r :
  In (CallTool tool arguments r) tr ->
  In (CallTool tool arguments r) (tool_invocations tr).
Proof. intro H. apply filter_In. now split. Qed.

Lemma tool_invocations_none (tr : list Event) :
  tool_invocations tr = [] ->
  forall tool arguments r, ~ In (CallTool tool arguments r) tr.
Proof.
  intros E tool arguments r H.
  assert (I : In (CallTool tool arguments r) (tool_invocations tr)).
  { apply filter_In. now split. }
  rewrite E in I. exact I.
Qed.

Lemma second_round_quiet (s2 : ResponseStream) :
  model_calls (second_round s2) = 0 /\ tool_invocations (second_round s2) = [].
Proof.
  unfold second_round. split.
  - change (Printed nl :: ?l) with ([Printed nl] ++ l).
    rewrite !model_calls_app, model_calls_printed.
    now destruct (broken s2).
  - change (Printed nl :: ?l) with ([Printed nl] ++ l).
    rewrite !tool_invocations_app, tool_invocations_printed.
    now destruct (broken s2).
Qed.

(** The loop over the tool calls: it sends no request to the model; a
    failed invocation ends it with the exception of that invocation;
    when it returns, every call was invoked once, in the order of
    [calls], and the results are in that order too. *)
Lemma call_tools_spec (calls : list ToolCall) :
  forall (tool_results : list Block) (w : World)
         (o : Outcome (list Block)) (w' : World) (tr : list Event),
  call_tools calls tool_results w = (o, w', tr) ->
  model_calls tr = 0
  /\ (forall tool arguments e,
         In (CallTool tool arguments (Raised e)) tr -> o = Raised e)
  /\ (forall results,
         o = Returned results ->
         exists payloads : list Payload,
           List.length payloads = List.length calls
           /\ results = tool_results ++ tool_result_blocks calls payloads
           /\ tool_invocations tr = invocations calls payloads).
Proof.
  induction calls as [|tc calls IH]; intros acc w o w' tr H.
  - cbn in H. injection H as <- <- <-. repeat split.
    + intros tool arguments e [].
    + intros results E. injection E as <-. exists []. repeat split.
      unfold tool_result_blocks. simpl. now rewrite app_nil_r.
  - cbn [call_tools] in H. unfold bind, print, write, call_tool in H.
    destruct (session_call_tool (call_name tc) (call_input tc) w)
      as [[p|e] w1] eqn:Ecall.
    + destruct (call_tools calls (acc ++ [ToolResult (call_id tc) p]) w1)
        as [[o2 w2] t2] eqn:Erest.
      injection H as <- <- <-.
      destruct (IH _ _ _ _ _ Erest) as [M0 [F0 R0]].
      repeat split.
      * cbn. exact M0.
      * intros tool arguments e0 [X|[X|X]]; try discriminate.
        exact (F0 _ _ _ X).
      * intros results E. destruct (R0 results E) as [ps [L [Eres Einv]]].
        exists (p :: ps). repeat split.
        -- simpl. now rewrite L.
        -- rewrite Eres, <- app_assoc. reflexivity.
        -- cbn. unfold tool_invocations in Einv. rewrite Einv. reflexivity.
    + injection H as <- <- <-. repeat split.
      * intros tool arguments e0 [X|[X|[]]]; try discriminate.
        now injection X as _ _ <-.
      * intros results E. discriminate.
Qed.

(** [process_query], path by path. *)
Lemma process_query_eq (query : string) (w : World) :
  process_query query w =
  match session_list_tools w with
  | (Raised e, w1) => (Raised e, w1, [ListTools (Raised e)])
  | (Returned tools, w1) =>
    match messages_create [user_message query] (map descriptor tools) w1 with
    | (Raised e, w2) =>
        (Raised e, w2,
         [ListTools (Returned tools);
          ModelCall [user_message query] (map descriptor tools) (Raised e)])
    | (Returned s1, w2) =>
      match decode_raised (chunks s1) with
      | Some e => (Raised e, w2, first_round query tools s1)
      | None =>
      match broken s1 with
      | Some e => (Raised e, w2, first_round query tools s1)
      | None =>
        match tool_calls (fst (decode (chunks s1))) with
        | [] => (Returned tt, w2, first_round query tools s1)
        | _ :: _ =>
          match call_tools (tool_calls (fst (decode (chunks s1)))) [] w2 with
          | (Raised e, w3, t3) =>
              (Raised e, w3, first_round query tools s1 ++ t3)
          | (Returned results, w3, t3) =>
            match messages_create
                    (second_request query (fst (decode (chunks s1))) results)
                    (map descriptor tools) w3 with
            | (Raised e, w4) =>
                (Raised e, w4,
                 first_round query tools s1 ++ t3
                 ++ [ModelCall
                       (second_request query (fst (decode (chunks s1))) results)
                       (map descriptor tools) (Raised e)])
            | (Returned s2, w4) =>
                (stream_end s2, w4,
                 first_round query tools s1 ++ t3
                 ++ ModelCall
                      (second_request query (fst (decode (chunks s1))) results)
                      (map descriptor tools) (Returned s2)
                    :: second_round s2)
            end
          end
        end
      end
      end
    end
  end.
Proof.
  unfold process_query, bind, list_tools.
  destruct (session_list_tools w) as [[tools|e] w1]; [|reflexivity].
  unfold create at 1.
  destruct (messages_create [user_message query] (map descriptor tools) w1)
    as [[s1|e] w2]; [|reflexivity].
  rewrite decode_stream_eq. unfold first_round.
  destruct (decode_raised (chunks s1)) as [e|]; [reflexivity|].
  destruct (broken s1) as [e|]; [reflexivity|].
  destruct (decode (chunks s1)) as [st out]. cbn [fst snd].
  unfold assistant_message_content.
  destruct (tool_calls st) as [|tc tcs] eqn:Etc.
  { destruct (text_parts st); cbn; now rewrite ?app_nil_r. }
  assert (N : exists b bs,
             (match text_parts st with
              | [] => []
              | _ :: _ => [Text (join (text_parts st))]
              end)
             ++ map (fun c => ToolUse (call_id c) (call_name c) (call_input c))
                    (tc :: tcs) = b :: bs).
  { destruct (text_parts st); cbn; eauto. }
  destruct N as [b [bs ->]].
  destruct (call_tools (tc :: tcs) [] w2) as [[[results|e] w3] t3];
    [|cbn; now rewrite ?app_nil_r].
  unfold create, second_request.
  cbn [app].
  destruct (messages_create
              [user_message query; assistant_message st;
               tool_result_message results] (map descriptor tools) w3)
    as [[s2|e] w4]; [|cbn; now rewrite ?app_nil_r].
  unfold print, write, print_text_deltas, bind, write_all, end_of_stream,
    stream_end, second_round.
  rewrite text_deltas_fragments.
  destruct (broken s2) as [e|]; cbn;
    rewrite ?app_nil_r, <- ?app_assoc; reflexivity.
Qed.

Ltac query_paths H :=
  rewrite process_query_eq in H;
  repeat match type of H with
         | context [match ?x with _ => _ end] => destruct x eqn:?
         end;
  let Eo := fresh "Eo" in
  let Ew := fresh "Ew" in
  let Etr := fresh "Etr" in
  pose proof (f_equal (fun x => fst (fst x)) H) as Eo;
  pose proof (f_equal (fun x => snd (fst x)) H) as Ew;
  pose proof (f_equal snd H) as Etr;
  cbn [fst snd] in Eo, Ew, Etr; clear H.

Lemma text_only_no_tool_use (cs : list Chunk) :
  text_only cs = true -> no_tool_use_start cs = true.
Proof.
  unfold text_only, no_tool_use_start. rewrite !forallb_forall.
  intros H c Hc. specialize (H c Hc).
  destruct c as [cb|d| |]; try reflexivity. now destruct cb.
Qed.

Lemma no_tool_use_decode (cs : list Chunk) :
  no_tool_use_start cs = true ->
  decode cs
  = ({| text_parts := text_fragments cs; tool_calls := [];
        current_tool_call := None |}, text_fragments cs)
  /\ decode_raised cs = None.
Proof.
  intro H. unfold decode, decode_raised, initial_state.
  now rewrite (run_decoder_closed cs H).
Qed.

Lemma no_tool_use_no_tool_calls (cs : list Chunk) :
  no_tool_use_start cs = true -> tool_calls (fst (decode cs)) = [].
Proof.
  intro H. now rewrite (proj1 (no_tool_use_decode cs H)).
Qed.

(** C3: when every delta of the stream is a text delta and no tool-use
    block is opened, the decoded text is the text fragments appended in
    arrival order and there is no tool call; a query whose first
    response is such a stream invokes no tool. *)
Theorem text_only_stream_no_dispatch (cs : list Chunk) :
  text_only cs = true ->
  decoded_text (fst (decode cs)) = join (text_fragments cs)
  /\ tool_calls (fst (decode cs)) = []
  /\ forall (query : string) (w w' : World) (o : Outcome unit)
            (r0 : Outcome (list (Tool JSON))) (msgs : list Message)
            (tools : list (ToolDescriptor JSON)) (e1 : option PyException)
            (rest : list Event),
       process_query query w
       = (o, w',
          ListTools r0
          :: ModelCall msgs tools (Returned {| chunks := cs; broken := e1 |})
          :: rest) ->
       forall tool arguments r, ~ In (CallTool tool arguments r) rest.
Proof.
  intro H.
  pose proof (no_tool_use_no_tool_calls cs (text_only_no_tool_use cs H)) as T.
  split; [|split].
  - unfold decoded_text.
    now rewrite (proj1 (no_tool_use_decode cs (text_only_no_tool_use cs H))).
  - exact T.
  - intros query w w' o r0 msgs tools e1 rest R.
    apply tool_invocations_none.
    query_paths R; unfold first_round in Etr; try discriminate;
      injection Etr; intros; subst; cbn [chunks] in *;
      try apply tool_invocations_printed; congruence.
Qed.

Lemma model_calls_cons (x : Event) (tr : list Event) :
  model_calls (x :: tr)
  = (if is_model_call x then 1 else 0) + model_calls tr.
Proof. unfold model_calls. simpl. now destruct (is_model_call x). Qed.

Lemma tool_invocations_cons (x : Event) (tr : list Event) :
  tool_invocations (x :: tr)
  = if is_call_tool x then x :: tool_invocations tr else tool_invocations tr.
Proof. reflexivity. Qed.

Ltac count_events :=
  rewrite ?model_calls_app, ?tool_invocations_app,
    ?model_calls_cons, ?tool_invocations_cons,
    ?model_calls_printed, ?tool_invocations_printed;
  cbn [is_model_call is_call_tool].

Lemma model_calls_none (tr : list Event) :
  model_calls tr = 0 ->
  forall msgs tools r, ~ In (ModelCall msgs tools r) tr.
Proof.
  intros E msgs tools r H.
  assert (I : In (ModelCall msgs tools r) (filter is_model_call tr)).
  { apply filter_In. now split. }
  unfold model_calls in E. apply length_zero_iff_nil in E.
  rewrite E in I. exact I.
Qed.

Lemma first_round_quiet (query : string) (tools : list (Tool JSON))
  (s1 : ResponseStream) :
  model_calls (first_round query tools s1) = 1
  /\ tool_invocations (first_round query tools s1) = [].
Proof.
  unfold first_round. split.
  - change (model_calls (ListTools (Returned tools)
                         :: ModelCall [user_message query]
                              (map descriptor tools) (Returned s1)
                         :: map Printed (snd (decode (chunks s1)))))
      with (S (model_calls (map Printed (snd (decode (chunks s1)))))).
    now rewrite model_calls_printed.
  - change (tool_invocations (ListTools (Returned tools)
                              :: ModelCall [user_message query]
                                   (map descriptor tools) (Returned s1)
                              :: map Printed (snd (decode (chunks s1)))))
      with (tool_invocations (map Printed (snd (decode (chunks s1))))).
    apply tool_invocations_printed.
Qed.

(** A trace is cut in one way only at its n-th request to the model. *)
Lemma split_at_model_call (a : list Event) :
  forall (a' b b' : list Event) (x x' : Event),
  a ++ x :: b = a' ++ x' :: b' ->
  is_model_call x = true ->
  is_model_call x' = true ->
  model_calls a = model_calls a' ->
  a = a' /\ x = x' /\ b = b'.
Proof.
  induction a as [|y a IH]; intros a' b b' x x' E Hx Hx' C.
  - destruct a' as [|y' a'].
    + injection E as -> ->. now repeat split.
    + injection E as -> _. unfold model_calls in C. simpl in C.
      rewrite Hx in C. discriminate.
  - destruct a' as [|y' a'].
    + injection E as -> _. unfold model_calls in C. simpl in C.
      rewrite Hx' in C. discriminate.
    + injection E as -> E.
      assert (C' : model_calls a = model_calls a').
      { unfold model_calls in *. simpl in C.
        destruct (is_model_call y'); simpl in C; [now injection C|exact C]. }
      destruct (IH _ _ _ _ _ E Hx Hx' C') as [-> [-> ->]]. now repeat split.
Qed.

(** C5: when an invocation of a tool fails with an error, the query
    ends with that error and only one request was sent to the model;
    the chat loop prints a line feed, [Error: ] and the text of the
    error, and goes on with the next line. *)
Theorem failed_tool_call_abandons_turn
  (query : string) (w w' : World) (o : Outcome unit) (tr : list Event)
  (tool : string) (arguments : JSON) (e : PyException) :
  process_query query w = (o, w', tr) ->
  In (CallTool tool arguments (Raised e)) tr ->
  is_Exception e = true ->
  o = Raised e
  /\ model_calls tr = 1
  /\ forall (line : string) (rest : list string),
       strip line = query ->
       lower query <> "quit" ->
       chat_iterations (line :: rest) w
       = (fst (fst (chat_iterations rest w')),
          snd (fst (chat_iterations rest w')),
          Printed (nl ++ "Query: ")%string :: ReadLine line :: tr
          ++ Printed (nl ++ "Error: " ++ exn_str e ++ nl)%string
             :: snd (chat_iterations rest w')).
Proof.
  intros R I He.
  assert (P : o = Raised e /\ model_calls tr = 1).
  { apply in_tool_invocations in I.
    query_paths R; subst;
      repeat match goal with
             | H : call_tools _ _ _ = _ |- _ =>
                 apply call_tools_spec in H; destruct H as [? [? ?]]
             end;
      revert I; count_events;
      rewrite ?(proj2 (first_round_quiet _ _ _)),
        ?(proj2 (second_round_quiet _)),
        ?(proj1 (first_round_quiet _ _ _)),
        ?(proj1 (second_round_quiet _)); cbn [app In]; intro I;
      try contradiction;
      rewrite ?app_nil_r in I; apply filter_In in I; destruct I as [I _];
      match goal with
      | F : forall t a x, In _ _ -> _ = Raised x |- _ =>
          specialize (F _ _ _ I)
      end;
      try discriminate.
    split; [congruence | now rewrite H]. }
  destruct P as [-> P]. split; [reflexivity | split; [exact P|]].
  intros line rest Hq Hn.
  cbn [chat_iterations]. unfold chat_iteration, try_except, bind, input.
  rewrite Hq. apply String.eqb_neq in Hn. rewrite Hn, R, He.
  unfold print, write, ret, error_message.
  destruct (chat_iterations rest w') as [[o2 w2] tr2]. cbn.
  rewrite <- !app_assoc, ?append_assoc. reflexivity.
Qed.

(** C6: from the second request on, the query only prints: a line
    feed, the text fragments of the second stream in arrival order
    and, when the stream ends normally, a last line feed.  Nothing else
    of the second stream has any effect: no tool is invoked and no
    request is sent. *)
Theorem second_stream_text_only
  (query : string) (w w' : World) (o : Outcome unit)
  (before after : list Event) (msgs : list Message)
  (tools : list (ToolDescriptor JSON)) (s2 : ResponseStream) :
  process_query query w
  = (o, w', before ++ ModelCall msgs tools (Returned s2) :: after) ->
  model_calls before = 1 ->
  after = Printed nl :: map Printed (text_fragments (chunks s2))
          ++ match broken s2 with
             | Some _ => []
             | None => [Printed nl]
             end
  /\ o = stream_end s2
  /\ tool_invocations after = []
  /\ model_calls after = 0.
Proof.
  intros R C.
  assert (P : after = second_round s2 /\ o = stream_end s2).
  { query_paths R; subst;
      repeat match goal with
             | H : call_tools _ _ _ = _ |- _ =>
                 apply call_tools_spec in H; destruct H as [? [? ?]]
             end;
      try solve [ apply (f_equal model_calls) in Etr; revert Etr;
                  count_events;
                  rewrite ?(proj1 (first_round_quiet _ _ _)); cbn; lia ];
      rewrite app_assoc in Etr;
      (apply split_at_model_call in Etr;
       [ destruct Etr as [_ [Ex <-]]; try discriminate;
         injection Ex as _ _ <-; now split
       | reflexivity
       | reflexivity
       | count_events; rewrite ?(proj1 (first_round_quiet _ _ _)); lia ]). }
  destruct P as [-> ->].
  destruct (second_round_quiet s2) as [Q1 Q2].
  repeat split; assumption.
Qed.

(** The tool calls are kept in the order their blocks were closed:
    those closed in a prefix of the stream come first. *)
Lemma tool_calls_prefix (cs1 cs2 : list Chunk) :
  exists later : list ToolCall,
    tool_calls (fst (decode (cs1 ++ cs2)))
    = tool_calls (fst (decode cs1)) ++ later.
Proof.
  unfold decode. rewrite run_decoder_app.
  destruct (run_decoder initial_state cs1) as [[[tp tc slot] out1] [e|]];
    cbn [fst].
  - exists []. now rewrite app_nil_r.
  - rewrite run_decoder_frame. cbn [fst tool_calls]. eexists. reflexivity.
Qed.

(** Two blocks closed one after the other, with nothing else opened,
    yield their tool calls in that order; the loop goes through the
    whole stream. *)
Lemma two_blocks_in_close_order
  (pre bodyA mid bodyB post : list Chunk) (idA nameA idB nameB : string)
  (vA vB : JSON) :
  no_tool_use_start pre = true ->
  no_tool_use_start bodyA = true -> no_stop bodyA = true ->
  no_tool_use_start mid = true ->
  no_tool_use_start bodyB = true -> no_stop bodyB = true ->
  no_tool_use_start post = true ->
  json_loads (join (json_fragments bodyA)) = Parsed vA ->
  json_loads (join (json_fragments bodyB)) = Parsed vB ->
  tool_calls (fst (decode (pre ++ tool_use_block idA nameA bodyA ++ mid
                               ++ tool_use_block idB nameB bodyB ++ post)))
  = [{| call_id := idA; call_name := nameA; call_input := vA |};
     {| call_id := idB; call_name := nameB; call_input := vB |}]
  /\ decode_raised (pre ++ tool_use_block idA nameA bodyA ++ mid
                        ++ tool_use_block idB nameB bodyB ++ post) = None.
Proof.
  intros Hpre HA1 HA2 Hmid HB1 HB2 Hpost EA EB.
  unfold decode, decode_raised, initial_state.
  rewrite run_decoder_app, (run_decoder_closed pre Hpre). cbn [fst snd].
  rewrite run_decoder_app, (run_decoder_block bodyA HA1 HA2).
  unfold closed_raise, closed_call. rewrite EA. cbn [fst snd].
  rewrite run_decoder_app, (run_decoder_closed mid Hmid). cbn [fst snd].
  rewrite run_decoder_app, (run_decoder_block bodyB HB1 HB2).
  unfold closed_raise, closed_call. rewrite EB. cbn [fst snd].
  rewrite (run_decoder_closed post Hpost). cbn [fst snd tool_calls].
  now split.
Qed.

(** The second request of a query: its messages and the invocations
    that came before it. *)
Lemma second_request_results
  (query : string) (w w' : World) (o : Outcome unit)
  (r0 : Outcome (list (Tool JSON))) (msgs1 : list Message)
  (tools1 : list (ToolDescriptor JSON)) (s1 : ResponseStream)
  (rest : list Event)
  (msgs2 : list Message) (tools2 : list (ToolDescriptor JSON))
  (r2 : Outcome ResponseStream) :
  process_query query w
  = (o, w', ListTools r0 :: ModelCall msgs1 tools1 (Returned s1) :: rest) ->
  In (ModelCall msgs2 tools2 r2) rest ->
  exists payloads : list Payload,
    List.length payloads
    = List.length (tool_calls (fst (decode (chunks s1))))
    /\ msgs2
       = [user_message query;
          assistant_message (fst (decode (chunks s1)));
          tool_result_message
            (tool_result_blocks (tool_calls (fst (decode (chunks s1))))
                                payloads)]
    /\ tool_invocations rest
       = invocations (tool_calls (fst (decode (chunks s1)))) payloads
    /\ decode_raised (chunks s1) = None
    /\ broken s1 = None.
Proof.
  intros R I.
  query_paths R; unfold first_round in Etr; cbn [app] in Etr;
    try discriminate; injection Etr as <- <- <- <- <-;
    repeat match goal with
           | H : call_tools _ _ _ = _ |- _ =>
               apply call_tools_spec in H; destruct H as [Hm [_ Hr]]
           end;
    try solve [ exfalso; revert I; apply model_calls_none; count_events;
                rewrite ?Hm; reflexivity ];
    (apply in_app_or in I; destruct I as [I|I];
     [ exfalso; revert I; apply model_calls_none, model_calls_printed | ]);
    (apply in_app_or in I; destruct I as [I|I];
     [ exfalso; revert I; apply model_calls_none, Hm | ]);
    (destruct I as [I|I];
     [ injection I as <- <- <-
     | first [ now destruct I
             | exfalso; revert I; apply model_calls_none;
               apply second_round_quiet ] ]);
    destruct (Hr _ eq_refl) as [ps [L [Er Ei]]];
    exists ps; cbn [chunks] in *;
    match goal with
    | E : tool_calls _ = _ :: _ |- _ => rewrite E
    end;
    (split; [exact L | split; [ | split; [ | split; assumption ] ] ]);
    [ unfold second_request; now rewrite Er
    | count_events; rewrite ?(proj2 (second_round_quiet _)), Ei;
      now rewrite ?app_nil_r
    | unfold second_request; now rewrite Er
    | count_events; rewrite Ei; now rewrite ?app_nil_r ].
Qed.

(** C4: when a query sends its second request, the request carries
    three messages: the query of the user, the assistant message with
    the text and the tool calls decoded from the first stream, and a
    user message whose content is one tool result for each tool call,
    in the order of the tool calls: the result at a position has the
    id of the call at that position and the payload the session
    returned for it, and the tools were invoked in that same order.
    The tool calls themselves are in the order their blocks were closed
    in the stream.  In particular, when the stream closes a block A and
    then a block B, the last message lists the result of A before the
    result of B. *)
Theorem tool_results_in_call_order
  (query : string) (w w' : World) (o : Outcome unit)
  (r0 : Outcome (list (Tool JSON))) (msgs1 : list Message)
  (tools1 : list (ToolDescriptor JSON)) (s1 : ResponseStream)
  (rest : list Event)
  (msgs2 : list Message) (tools2 : list (ToolDescriptor JSON))
  (r2 : Outcome ResponseStream) :
  process_query query w
  = (o, w', ListTools r0 :: ModelCall msgs1 tools1 (Returned s1) :: rest) ->
  In (ModelCall msgs2 tools2 r2) rest ->
  (exists payloads : list Payload,
      List.length payloads
      = List.length (tool_calls (fst (decode (chunks s1))))
      /\ msgs2
         = [{| role := User; content := Str query |};
            {| role := Assistant;
               content :=
                 Blocks
                   ((match text_fragments (chunks s1) with
                     | [] => []
                     | _ :: _ => [Text (join (text_fragments (chunks s1)))]
                     end)
                    ++ map (fun c => ToolUse (call_id c) (call_name c)
                                             (call_input c))
                           (tool_calls (fst (decode (chunks s1))))) |};
            {| role := User;
               content :=
                 Blocks
                   (map (fun cp => ToolResult (call_id (fst cp)) (snd cp))
                        (combine (tool_calls (fst (decode (chunks s1))))
                                 payloads)) |}]
      /\ tool_invocations rest
         = map (fun cp => CallTool (call_name (fst cp)) (call_input (fst cp))
                                   (Returned (snd cp)))
               (combine (tool_calls (fst (decode (chunks s1)))) payloads))
  /\ (forall cs1 cs2 : list Chunk,
         chunks s1 = cs1 ++ cs2 ->
         exists later : list ToolCall,
           tool_calls (fst (decode (chunks s1)))
           = tool_calls (fst (decode cs1)) ++ later)
  /\ (forall (pre bodyA mid bodyB post : list Chunk)
             (idA nameA idB nameB : string) (vA vB : JSON),
         chunks s1
         = pre ++ tool_use_block idA nameA bodyA ++ mid
               ++ tool_use_block idB nameB bodyB ++ post ->
         no_tool_use_start pre = true ->
         no_tool_use_start bodyA = true -> no_stop bodyA = true ->
         no_tool_use_start mid = true ->
         no_tool_use_start bodyB = true -> no_stop bodyB = true ->
         no_tool_use_start post = true ->
         json_loads (join (json_fragments bodyA)) = Parsed vA ->
         json_loads (join (json_fragments bodyB)) = Parsed vB ->
         exists pA pB : Payload,
           msgs2
           = [{| role := User; content := Str query |};
              {| role := Assistant;
                 content :=
                   Blocks
                     ((match text_fragments (chunks s1) with
                       | [] => []
                       | _ :: _ => [Text (join (text_fragments (chunks s1)))]
                       end)
                      ++ [ToolUse idA nameA vA; ToolUse idB nameB vB]) |};
              {| role := User;
                 content := Blocks [ToolResult idA pA; ToolResult idB pB] |}]
           /\ tool_invocations rest
              = [CallTool nameA vA (Returned pA);
                 CallTool nameB vB (Returned pB)]).
Proof.
  intros R I.
  destruct (second_request_results query w msgs2 tools2 r2 R I)
    as [ps [L [Em [Ei [N _]]]]].
  assert (Em' :
    msgs2
    = [{| role := User; content := Str query |};
       {| role := Assistant;
          content :=
            Blocks
              ((match text_fragments (chunks s1) with
                | [] => []
                | _ :: _ => [Text (join (text_fragments (chunks s1)))]
                end)
               ++ map (fun c => ToolUse (call_id c) (call_name c)
                                        (call_input c))
                      (tool_calls (fst (decode (chunks s1))))) |};
       {| role := User;
          content :=
            Blocks
              (map (fun cp => ToolResult (call_id (fst cp)) (snd cp))
                   (combine (tool_calls (fst (decode (chunks s1)))) ps)) |}]).
  { rewrite Em. unfold user_message, assistant_message, tool_result_message,
      assistant_message_content, tool_result_blocks.
    now rewrite (text_parts_decode_all _ N). }
  split; [|split].
  - exists ps. repeat split; [exact L | exact Em' | exact Ei].
  - intros cs1 cs2 ->. apply tool_calls_prefix.
  - intros pre bodyA mid bodyB post idA nameA idB nameB vA vB
           E Hpre HA1 HA2 Hmid HB1 HB2 Hpost EA EB.
    pose proof (proj1 (two_blocks_in_close_order pre bodyA mid bodyB post
                         idA nameA idB nameB
                         Hpre HA1 HA2 Hmid HB1 HB2 Hpost EA EB)) as T.
    rewrite <- E in T. rewrite T in L, Em', Ei.
    destruct ps as [|pA [|pB [|pC ps]]]; try discriminate.
    exists pA, pB. split; [exact Em' | exact Ei].
Qed.

(** ** Further properties of the stream loop *)

(** Where the id and the name of a tool call can come from: a start
    event of the stream, or the tool call that was open before. *)
Lemma on_chunk_origin (st st1 : DecoderState) (ch : Chunk) (o1 : list string) :
  on_chunk st ch = (Returned st1, o1) ->
  (forall tc, In tc (tool_calls st1) ->
     In tc (tool_calls st)
     \/ (exists c, current_tool_call st = Some c
                   /\ open_id c = call_id tc /\ open_name c = call_name tc))
  /\ (forall c', current_tool_call st1 = Some c' ->
        ch = ContentBlockStart (ToolUseBlock (open_id c') (open_name c'))
        \/ (exists c, current_tool_call st = Some c
                      /\ open_id c = open_id c' /\ open_name c = open_name c')).
Proof.
  intro E.
  destruct ch as [cb|d| |]; [destruct cb|destruct d| |]; simpl in E;
    try (injection E as <- _; split;
         [ now left | intros c' H; right; now exists c' ]).
  - injection E as <- _. cbn. split; [now left|].
    intros c' H. injection H as <-. now left.
  - destruct (current_tool_call st) as [c|] eqn:S; injection E as <- _.
    + split; [now left|]. cbn. intros c' H. injection H as <-. right.
      now exists c.
    + split; [now left|]. intros c' H. congruence.
  - destruct (current_tool_call st) as [c|] eqn:S.
    + destruct (json_loads (open_input c)); try discriminate;
        injection E as <- _; cbn; (split; [|discriminate]).
      * intros tc H. apply in_app_or in H. destruct H as [H|[<-|[]]];
          [now left|]. right. now exists c.
      * now left.
    + injection E as <- _. split; [now left|]. intros c' H. congruence.
Qed.

Lemma run_decoder_origin (cs : list Chunk) :
  forall st : DecoderState,
  (forall tc, In tc (tool_calls (fst (fst (run_decoder st cs)))) ->
     In tc (tool_calls st)
     \/ In (ContentBlockStart (ToolUseBlock (call_id tc) (call_name tc))) cs
     \/ (exists c, current_tool_call st = Some c
                   /\ open_id c = call_id tc /\ open_name c = call_name tc))
  /\ (forall c', current_tool_call (fst (fst (run_decoder st cs))) = Some c' ->
        In (ContentBlockStart (ToolUseBlock (open_id c') (open_name c'))) cs
        \/ (exists c, current_tool_call st = Some c
                      /\ open_id c = open_id c' /\ open_name c = open_name c')).
Proof.
  induction cs as [|ch cs IH]; intro st.
  - simpl. split; [now left | intros c' E; right; now exists c'].
  - rewrite run_decoder_cons.
    destruct (on_chunk st ch) as [[st1|e] o1] eqn:E; cbn [fst snd].
    2:{ split; [now left | intros c' H; right; now exists c']. }
    destruct (IH st1) as [IH1 IH2].
    destruct (on_chunk_origin st ch E) as [S1 S2].
    split.
    + intros tc H. destruct (IH1 tc H) as [H1|[H1|[c [Ec [E1 E2]]]]].
      * destruct (S1 tc H1) as [?|?]; auto.
      * right. left. now right.
      * destruct (S2 c Ec) as [->|[c0 [E0 [F1 F2]]]].
        -- right. left. left. now rewrite E1, E2.
        -- right. right. exists c0. repeat split; congruence.
    + intros c' H. destruct (IH2 c' H) as [H1|[c [Ec [E1 E2]]]].
      * left. now right.
      * destruct (S2 c Ec) as [->|[c0 [E0 [F1 F2]]]].
        -- left. left. now rewrite E1, E2.
        -- right. exists c0. repeat split; congruence.
Qed.

(** X1: every tool call the loop yields carries the id and the name of a
    start event of a tool-use block of the stream. *)
Theorem tool_calls_from_start_events (cs : list Chunk) (tc : ToolCall) :
  In tc (tool_calls (fst (decode cs))) ->
  In (ContentBlockStart (ToolUseBlock (call_id tc) (call_name tc))) cs.
Proof.
  intro H. destruct (run_decoder_origin cs initial_state) as [O _].
  destruct (O tc H) as [[]|[H1|[c [E _]]]]; [exact H1 | discriminate].
Qed.

Lemma interleaved_concat (A : Type) (a b : list A) : interleaved a b (a ++ b).
Proof.
  induction a as [|x a IH]; simpl.
  - induction b as [|y b IHb]; now constructor.
  - now constructor.
Qed.

Lemma interleaved_app (A : Type) (a1 b1 l1 a2 b2 l2 : list A) :
  interleaved a1 b1 l1 -> interleaved a2 b2 l2 ->
  interleaved (a1 ++ a2) (b1 ++ b2) (l1 ++ l2).
Proof.
  intros H1 H2. induction H1; simpl; try now constructor. exact H2.
Qed.

(** One step of the counting argument: a start event can open a tool
    call, a stop event can close one into a tool call or a warning, a
    text delta writes its text. *)
Lemma on_chunk_count (st st1 : DecoderState) (ch : Chunk) (o1 : list string) :
  on_chunk st ch = (Returned st1, o1) ->
  exists (tp buffers : list string),
    text_parts st1 = text_parts st ++ tp
    /\ text_fragments [ch] = tp
    /\ o1 = tp ++ map decode_error_message buffers
    /\ (forall buffer, In buffer buffers ->
                       json_loads buffer = JSONDecodeError)
    /\ List.length (tool_calls st1) + List.length buffers + open_calls st1
       <= List.length (tool_calls st) + open_calls st
          + (if is_tool_use_start ch then 1 else 0)
    /\ List.length (tool_calls st1) + List.length buffers
       <= List.length (tool_calls st) + (if is_stop ch then 1 else 0).
Proof.
  intro E. unfold open_calls.
  destruct ch as [cb|d| |]; [destruct cb|destruct d| |]; simpl in E;
    try (injection E as <- <-; exists [], []; rewrite app_nil_r; cbn;
         repeat split; try lia; now intros buffer []).
  - injection E as <- <-. exists [text], []. cbn.
    repeat split; try lia; now intros buffer [].
  - destruct (current_tool_call st) as [c|] eqn:S; injection E as <- <-;
      exists [], []; rewrite app_nil_r; cbn; rewrite ?S;
      repeat split; try lia; now intros buffer [].
  - destruct (current_tool_call st) as [c|] eqn:S.
    + destruct (json_loads (open_input c)) eqn:L; try discriminate;
        injection E as <- <-.
      * exists [], []. rewrite app_nil_r. cbn. rewrite length_app. cbn.
        repeat split; try lia; now intros buffer [].
      * exists [], [open_input c]. rewrite app_nil_r. cbn.
        repeat split; try lia. intros buffer [<-|[]]. exact L.
    + injection E as <- <-. exists [], []. rewrite app_nil_r. cbn.
      rewrite S. repeat split; try lia; now intros buffer [].
Qed.

Lemma run_decoder_count (cs : list Chunk) :
  forall st : DecoderState,
  exists (tp buffers unread : list string),
    text_parts (fst (fst (run_decoder st cs))) = text_parts st ++ tp
    /\ text_fragments cs = tp ++ unread
    /\ (snd (run_decoder st cs) = None -> unread = [])
    /\ interleaved tp (map decode_error_message buffers)
                   (snd (fst (run_decoder st cs)))
    /\ (forall buffer, In buffer buffers ->
                       json_loads buffer = JSONDecodeError)
    /\ List.length (tool_calls (fst (fst (run_decoder st cs))))
       + List.length buffers + open_calls (fst (fst (run_decoder st cs)))
       <= List.length (tool_calls st) + open_calls st + tool_use_starts cs
    /\ List.length (tool_calls (fst (fst (run_decoder st cs))))
       + List.length buffers
       + (match snd (run_decoder st cs) with Some _ => 1 | None => 0 end)
       <= List.length (tool_calls st) + stops cs.
Proof.
  induction cs as [|ch cs IH]; intro st.
  - exists [], [], []. simpl. rewrite app_nil_r.
    unfold tool_use_starts, stops. simpl.
    repeat split; try lia; try constructor; now intros buffer [].
  - rewrite run_decoder_cons.
    destruct (on_chunk st ch) as [[st1|e] o1] eqn:E; cbn [fst snd].
    + destruct (on_chunk_count st ch E)
        as [tp1 [b1 [T1 [F1 [O1 [J1 [C1 D1]]]]]]].
      destruct (IH st1)
        as [tp2 [b2 [unread [T2 [F2 [N2 [I2 [J2 [C2 D2]]]]]]]]].
      exists (tp1 ++ tp2), (b1 ++ b2), unread.
      change (ch :: cs) with ([ch] ++ cs).
      rewrite text_fragments_app, F1, F2, T2, T1, map_app, !length_app, O1.
      unfold tool_use_starts, stops in *. rewrite !filter_app, !length_app.
      cbn [filter app].
      repeat split.
      * now rewrite app_assoc.
      * now rewrite app_assoc.
      * exact N2.
      * apply interleaved_app; [apply interleaved_concat | exact I2].
      * intros buffer H. apply in_app_or in H. destruct H as [H|H]; auto.
      * destruct (is_tool_use_start ch); cbn [List.length] in *; lia.
      * destruct (is_stop ch); cbn [List.length] in *; lia.
    + exists [], [], (text_fragments (ch :: cs)).
      rewrite app_nil_r.
      assert (S : is_stop ch = true).
      { destruct ch as [cb|d| |]; [destruct cb|destruct d| |]; simpl in E;
          try discriminate; try reflexivity.
        destruct (current_tool_call st); discriminate. }
      assert (O : o1 = []).
      { destruct ch as [cb|d| |]; try discriminate. simpl in E.
        destruct (current_tool_call st) as [c|]; [|discriminate].
        destruct (json_loads (open_input c)); try discriminate.
        now injection E as _ <-. }
      subst o1. unfold tool_use_starts, stops. cbn [filter]. rewrite S.
      cbn [List.length map].
      repeat split; try lia; try discriminate; try constructor;
        now intros buffer [].
Qed.

(** X2: the loop writes the text fragments of the events it goes
    through, in order, and between them warnings, each for an input
    that [json.loads] rejected, and nothing else; the fragments it went
    through are all those of the stream unless the loop was left by an
    exception.  It yields at most one tool call, one warning or one
    exception for each tool-use block: their number does not exceed
    the number of start events of tool-use blocks, nor the number of
    stop events. *)
Theorem tool_calls_bounded (cs : list Chunk) :
  exists (buffers unread : list string),
    interleaved
      (text_parts (fst (decode cs)))
      (map (fun buffer =>
              (nl ++ "Error: Could not decode JSON for tool input: "
                  ++ buffer ++ nl)%string) buffers)
      (snd (decode cs))
    /\ (forall buffer, In buffer buffers ->
                       json_loads buffer = JSONDecodeError)
    /\ text_fragments cs = text_parts (fst (decode cs)) ++ unread
    /\ (decode_raised cs = None -> unread = [])
    /\ List.length (tool_calls (fst (decode cs))) + List.length buffers
       + (match decode_raised cs with Some _ => 1 | None => 0 end)
       <= Nat.min (tool_use_starts cs) (stops cs).
Proof.
  destruct (run_decoder_count cs initial_state)
    as [tp [buffers [unread [T [F [N [I [J [C D]]]]]]]]].
  fold (decode cs) in T, I, C, D. fold (decode_raised cs) in N, D.
  cbn [initial_state text_parts tool_calls app List.length] in T, C, D.
  unfold open_calls in C. cbn [initial_state current_tool_call] in C.
  exists buffers, unread. rewrite T. repeat split; try assumption.
  assert (R : match decode_raised cs with Some _ => 1 | None => 0 end
              <= match current_tool_call (fst (decode cs)) with
                 | Some _ => 1
                 | None => 0
                 end).
  { destruct (current_tool_call (fst (decode cs))) eqn:S; [|
      now rewrite (decode_closed_end cs S)].
    destruct (decode_raised cs); lia. }
  lia.
Qed.

(** X3: a stream can be decoded in pieces cut where no tool call is open:
    the text parts, the tool calls and the output of the whole are
    those of the first piece followed by those of the second, and the
    whole ends as the second piece does. *)
Theorem decode_app_closed (a b : list Chunk) :
  current_tool_call (fst (decode a)) = None ->
  text_parts (fst (decode (a ++ b)))
  = text_parts (fst (decode a)) ++ text_parts (fst (decode b))
  /\ tool_calls (fst (decode (a ++ b)))
     = tool_calls (fst (decode a)) ++ tool_calls (fst (decode b))
  /\ current_tool_call (fst (decode (a ++ b)))
     = current_tool_call (fst (decode b))
  /\ snd (decode (a ++ b)) = snd (decode a) ++ snd (decode b)
  /\ decode_raised (a ++ b) = decode_raised b.
Proof.
  intro H. pose proof (decode_closed_end a H) as N.
  unfold decode, decode_raised in *. rewrite run_decoder_app.
  destruct (run_decoder initial_state a) as [[[tp tc slot] out] r].
  cbn [fst snd current_tool_call] in H, N |- *. subst slot r.
  rewrite run_decoder_frame. cbn [fst snd text_parts tool_calls
    current_tool_call]. now repeat split.
Qed.

(** X4: where the stream cuts the input of a tool call into fragments, and
    the text into deltas, does not matter: two blocks whose partial-JSON
    fragments append to the same text and whose text deltas append to
    the same text give the same tool calls, the same decoded text and,
    appended, the same output, and the loop ends in the same way. *)
Theorem fragment_boundaries_irrelevant
  (pre post body1 body2 : list Chunk) (id name : string) :
  no_tool_use_start body1 = true -> no_stop body1 = true ->
  no_tool_use_start body2 = true -> no_stop body2 = true ->
  join (json_fragments body1) = join (json_fragments body2) ->
  join (text_fragments body1) = join (text_fragments body2) ->
  tool_calls (fst (decode (pre ++ tool_use_block id name body1 ++ post)))
  = tool_calls (fst (decode (pre ++ tool_use_block id name body2 ++ post)))
  /\ decoded_text (fst (decode (pre ++ tool_use_block id name body1 ++ post)))
     = decoded_text (fst (decode (pre ++ tool_use_block id name body2 ++ post)))
  /\ current_tool_call
       (fst (decode (pre ++ tool_use_block id name body1 ++ post)))
     = current_tool_call
         (fst (decode (pre ++ tool_use_block id name body2 ++ post)))
  /\ join (snd (decode (pre ++ tool_use_block id name body1 ++ post)))
     = join (snd (decode (pre ++ tool_use_block id name body2 ++ post)))
  /\ decode_raised (pre ++ tool_use_block id name body1 ++ post)
     = decode_raised (pre ++ tool_use_block id name body2 ++ post).
Proof.
  intros A1 A2 B1 B2 EJ ET. unfold decode, decode_raised, decoded_text.
  rewrite !run_decoder_app.
  destruct (run_decoder initial_state pre) as [[st0 out0] [e0|]];
    [now repeat split|].
  rewrite !run_decoder_app,
    (run_decoder_block body1 A1 A2), (run_decoder_block body2 B1 B2).
  rewrite EJ.
  destruct (closed_raise (join (json_fragments body2))) as [e|];
    cbn [fst snd text_parts tool_calls current_tool_call].
  - rewrite !join_app, ET. now repeat split.
  - rewrite (run_decoder_frame post (text_parts st0 ++ text_fragments body1)),
      (run_decoder_frame post (text_parts st0 ++ text_fragments body2)).
    cbn [fst snd text_parts tool_calls current_tool_call].
    rewrite !join_app, ET. now repeat split.
Qed.

(** ** Further properties of [process_query] *)

Lemma read_lines_app (a b : list Event) :
  read_lines (a ++ b) = read_lines a ++ read_lines b.
Proof. apply flat_map_app. Qed.

Lemma invoked_app (a b : list Event) :
  invoked (a ++ b) = invoked a ++ invoked b.
Proof. apply flat_map_app. Qed.

Lemma failures_app (a b : list Event) :
  failures (a ++ b) = failures a ++ failures b.
Proof. apply flat_map_app. Qed.

Lemma printed_quiet (out : list string) :
  read_lines (map Printed out) = []
  /\ invoked (map Printed out) = []
  /\ failures (map Printed out) = []
  /\ filter is_list_tools (map Printed out) = [].
Proof. induction out as [|x out IH]; [now repeat split | exact IH]. Qed.

Lemma first_round_silent (query : string) (tools : list (Tool JSON))
  (s1 : ResponseStream) :
  read_lines (first_round query tools s1) = []
  /\ invoked (first_round query tools s1) = []
  /\ failures (first_round query tools s1) = [].
Proof.
  unfold first_round.
  destruct (printed_quiet (snd (decode (chunks s1)))) as [A [B [C _]]].
  repeat split; cbn; assumption.
Qed.

Lemma second_round_silent (s2 : ResponseStream) :
  read_lines (second_round s2) = []
  /\ invoked (second_round s2) = []
  /\ failures (second_round s2) = []
  /\ filter is_list_tools (second_round s2) = [].
Proof.
  unfold second_round.
  destruct (printed_quiet (text_fragments (chunks s2))) as [A [B [C D]]].
  change (Printed nl :: ?l) with ([Printed nl] ++ l).
  rewrite !read_lines_app, !invoked_app, !failures_app, !filter_app, A, B, C, D.
  now destruct (broken s2).
Qed.

(** The loop over the tool calls, event by event: it reads no line and
    lists no tools; it invokes the calls in order, stopping at the
    first failure, which is then its last event and its outcome. *)
Lemma call_tools_trace (calls : list ToolCall) :
  forall (tool_results : list Block) (w : World)
         (o : Outcome (list Block)) (w' : World) (tr : list Event),
  call_tools calls tool_results w = (o, w', tr) ->
  read_lines tr = []
  /\ filter is_list_tools tr = []
  /\ (exists remaining, requested calls = invoked tr ++ remaining
                        /\ (forall results, o = Returned results ->
                                            remaining = []))
  /\ (forall results, o = Returned results -> failures tr = [])
  /\ (forall e, o = Raised e ->
        exists pre tool arguments,
          tr = pre ++ [CallTool tool arguments (Raised e)]
          /\ failures pre = [])
  /\ (forall tc tcs, calls = tc :: tcs ->
        exists r later,
          tool_invocations tr
          = CallTool (call_name tc) (call_input tc) r :: later).
Proof.
  induction calls as [|tc calls IH]; intros acc w o w' tr H.
  - cbn in H. injection H as <- <- <-. repeat split; try discriminate.
    exists []. now split.
  - cbn [call_tools] in H. unfold bind, print, write, call_tool in H.
    destruct (session_call_tool (call_name tc) (call_input tc) w)
      as [[p|e] w1] eqn:Ecall.
    + destruct (call_tools calls (acc ++ [ToolResult (call_id tc) p]) w1)
        as [[o2 w2] t2] eqn:Erest.
      injection H as <- <- <-.
      destruct (IH _ _ _ _ _ Erest) as [R [L [[rem [Q Q']] [F [G _]]]]].
      repeat split.
      * exact R.
      * exact L.
      * exists rem. split; [|exact Q'].
        change (requested (tc :: calls))
          with ((call_name tc, call_input tc) :: requested calls).
        now rewrite Q.
      * intros results E. cbn. exact (F results E).
      * intros e E. destruct (G e E) as [pre [t [a [-> Fp]]]].
        exists (Printed (calling_tool_message (call_name tc) (call_input tc)
                         ++ nl)%string
                :: CallTool (call_name tc) (call_input tc) (Returned p)
                :: pre), t, a.
        split; [reflexivity | exact Fp].
      * intros tc0 tcs E. injection E as <- <-. cbn. eauto.
    + injection H as <- <- <-. repeat split; try discriminate.
      * exists (requested calls). split; [reflexivity | discriminate].
      * intros e0 E. injection E as <-.
        exists [Printed (calling_tool_message (call_name tc) (call_input tc)
                         ++ nl)%string], (call_name tc), (call_input tc).
        now split.
      * intros tc0 tcs E. injection E as <- <-. cbn. eauto.
Qed.

Lemma read_lines_cons (x : Event) (tr : list Event) :
  read_lines (x :: tr)
  = match x with
    | ReadLine line => line :: read_lines tr
    | _ => read_lines tr
    end.
Proof. now destruct x. Qed.

Lemma invoked_cons (x : Event) (tr : list Event) :
  invoked (x :: tr)
  = match x with
    | CallTool tool arguments _ => (tool, arguments) :: invoked tr
    | _ => invoked tr
    end.
Proof. now destruct x. Qed.

Lemma failures_cons (x : Event) (tr : list Event) :
  failures (x :: tr) = failures [x] ++ failures tr.
Proof. change (x :: tr) with ([x] ++ tr). apply failures_app. Qed.

Ltac trace_facts :=
  repeat match goal with
         | H : call_tools _ _ _ = _ |- _ =>
             let Hm := fresh "Hm" in
             pose proof (proj1 (call_tools_spec _ _ _ H)) as Hm;
             apply call_tools_trace in H;
             destruct H as (? & ? & (? & ? & ?) & ? & ? & ?)
         end.

Ltac silence_step :=
  first
    [ progress cbn [filter is_list_tools app]
    | progress rewrite ?read_lines_app, ?invoked_app, ?failures_app,
        ?filter_app, ?read_lines_cons, ?invoked_cons
    | progress rewrite ?(proj1 (first_round_silent _ _ _)),
        ?(proj1 (proj2 (first_round_silent _ _ _))),
        ?(proj2 (proj2 (first_round_silent _ _ _))),
        ?(proj1 (second_round_silent _)),
        ?(proj1 (proj2 (second_round_silent _))),
        ?(proj1 (proj2 (proj2 (second_round_silent _)))),
        ?(proj2 (proj2 (proj2 (second_round_silent _)))),
        ?(proj1 (printed_quiet _)),
        ?(proj1 (proj2 (printed_quiet _))),
        ?(proj1 (proj2 (proj2 (printed_quiet _)))),
        ?(proj2 (proj2 (proj2 (printed_quiet _))))
    | match goal with
      | H : read_lines ?t = [] |- context [read_lines ?t] => rewrite H
      | H : filter is_list_tools ?t = []
        |- context [filter is_list_tools ?t] => rewrite H
      end ].

Ltac silence := repeat silence_step.

(** X5: a query lists the tools once, before anything else, sends at most
    two requests to the model and reads nothing from standard input. *)
Theorem query_request_budget
  (query : string) (w w' : World) (o : Outcome unit) (tr : list Event) :
  process_query query w = (o, w', tr) ->
  (exists r rest, tr = ListTools r :: rest /\ filter is_list_tools rest = [])
  /\ model_calls tr <= 2
  /\ read_lines tr = [].
Proof.
  intro R. query_paths R; subst; trace_facts; (split; [|split]);
    try (unfold first_round; cbn [app]; do 2 eexists;
         split; [reflexivity | now silence]);
    try (count_events;
         rewrite ?(proj1 (first_round_quiet _ _ _)),
           ?(proj1 (second_round_quiet _)), ?Hm; cbn; lia);
    try (now silence).
Qed.

(** A query reads nothing from standard input. *)
Lemma process_query_reads_nothing
  (query : string) (w w' : World) (o : Outcome unit) (tr : list Event) :
  process_query query w = (o, w', tr) -> read_lines tr = [].
Proof.
  intro R. query_paths R; subst; trace_facts; now silence.
Qed.

(** Where a request to the model can sit in a trace. *)
Ltac find_model_call I :=
  repeat match type of I with
         | In _ (_ ++ _) => apply in_app_or in I; destruct I as [I|I]
         | In _ (_ :: _) => destruct I as [I|I]
         | In _ [] => destruct I
         | In _ (map Printed ?out) =>
             exfalso; revert I; apply model_calls_none, model_calls_printed
         | In _ (second_round ?s) =>
             exfalso; revert I; apply model_calls_none, second_round_quiet
         | In _ ?t =>
             match goal with
             | H : model_calls t = 0 |- _ =>
                 exfalso; revert I; apply model_calls_none, H
             end
         end.

(** X6: both requests of a query carry the same tools, the descriptors of
    the tools the session listed, in the order it listed them, and both
    begin with the user's query. *)
Theorem requests_share_tools_and_query
  (query : string) (w w' : World) (o : Outcome unit)
  (cat : list (Tool JSON)) (rest : list Event)
  (msgs : list Message) (tools : list (ToolDescriptor JSON))
  (r : Outcome ResponseStream) :
  process_query query w = (o, w', ListTools (Returned cat) :: rest) ->
  In (ModelCall msgs tools r) rest ->
  tools = map descriptor cat
  /\ map (@name JSON) tools = map (@tool_name JSON) cat
  /\ List.length tools = List.length cat
  /\ exists more, msgs = user_message query :: more.
Proof.
  intros R I.
  assert (P : tools = map descriptor cat
              /\ exists more, msgs = user_message query :: more).
  { query_paths R; unfold first_round in Etr; cbn [app] in Etr;
      try discriminate; injection Etr as <- <-; trace_facts;
      find_model_call I; try discriminate;
      injection I as <- <- <-; split; try reflexivity;
      unfold second_request; eauto. }
  destruct P as [-> P]. repeat split; [| |exact P].
  - rewrite map_map. reflexivity.
  - apply length_map.
Qed.

Ltac returned_facts :=
  repeat match goal with
         | H : forall results, Returned ?a = Returned results -> _ |- _ =>
             pose proof (H _ eq_refl); clear H
         | H : forall e, Raised ?x = Raised e -> _ |- _ =>
             pose proof (H _ eq_refl); clear H
         | H : forall results, Raised _ = Returned results -> _ |- _ =>
             clear H
         | H : forall e, Returned _ = Raised e -> _ |- _ => clear H
         end.

Lemma in_printed_model_call (out : list string) (msgs : list Message)
  (tools : list (ToolDescriptor JSON)) (r : Outcome ResponseStream) :
  ~ In (ModelCall msgs tools r) (map Printed out).
Proof. apply model_calls_none, model_calls_printed. Qed.

(** X7: a query never goes on after something failed.  When it returns,
    no remote operation failed and every stream the model returned was
    read to its end.  When it raises, either a remote operation failed:
    it is the only one, it is the last event of the query and its
    exception is the outcome; or the loop over a stream the model
    returned was left, because the stream broke or because
    [json.loads] raised: no remote operation failed, after the request
    that returned the stream the query only printed, and the exception
    is the outcome. *)
Theorem remote_failure_ends_query
  (query : string) (w w' : World) (o : Outcome unit) (tr : list Event) :
  process_query query w = (o, w', tr) ->
  (forall u, o = Returned u ->
     failures tr = []
     /\ forall msgs tools s,
          In (ModelCall msgs tools (Returned s)) tr -> broken s = None)
  /\ (forall e, o = Raised e ->
        (exists pre ev,
            tr = pre ++ [ev] /\ failures [ev] = [e] /\ failures pre = [])
        \/ (exists pre msgs tools s out,
               tr = pre ++ ModelCall msgs tools (Returned s)
                        :: map Printed out
               /\ failures tr = []
               /\ (broken s = Some e \/ decode_raised (chunks s) = Some e))).
Proof.
  intro R. rewrite process_query_eq in R.
  destruct (session_list_tools w) as [[tools|e0] w1].
  2:{ injection R as <- <- <-. split; [discriminate|].
      intros e E. injection E as ->. left.
      exists [], (ListTools (Raised e)). now repeat split. }
  destruct (messages_create [user_message query] (map descriptor tools) w1)
    as [[s1|e0] w2].
  2:{ injection R as <- <- <-. split; [discriminate|].
      intros e E. injection E as ->. left.
      exists [ListTools (Returned tools)],
        (ModelCall [user_message query] (map descriptor tools) (Raised e)).
      now repeat split. }
  pose proof (first_round_silent query tools s1) as [_ [_ F1]].
  destruct (decode_raised (chunks s1)) as [e0|] eqn:D.
  { injection R as <- <- <-. split; [discriminate|].
    intros e E. injection E as ->. right.
    exists [ListTools (Returned tools)], [user_message query],
      (map descriptor tools), s1, (snd (decode (chunks s1))).
    split; [reflexivity|]. split; [exact F1 | now right]. }
  destruct (broken s1) as [e0|] eqn:B.
  { injection R as <- <- <-. split; [discriminate|].
    intros e E. injection E as ->. right.
    exists [ListTools (Returned tools)], [user_message query],
      (map descriptor tools), s1, (snd (decode (chunks s1))).
    split; [reflexivity|]. split; [exact F1 | now left]. }
  destruct (tool_calls (fst (decode (chunks s1)))) as [|tc tcs] eqn:T.
  { injection R as <- <- <-. split; [|discriminate].
    intros u _. split; [exact F1|].
    intros msgs tools' s I. unfold first_round in I.
    destruct I as [I|[I|I]]; try discriminate.
    - injection I as _ _ <-. exact B.
    - now apply in_printed_model_call in I. }
  destruct (call_tools (tc :: tcs) [] w2) as [[[results|e0] w3] t3] eqn:C;
    pose proof (proj1 (call_tools_spec _ _ _ C)) as Hm;
    apply call_tools_trace in C; destruct C as [_ [_ [_ [F3 [G3 _]]]]].
  2:{ injection R as <- <- <-. split; [discriminate|].
      intros e E. injection E as ->. left.
      destruct (G3 e eq_refl) as [pre [t0 [a0 [-> Fp]]]].
      exists (first_round query tools s1 ++ pre),
        (CallTool t0 a0 (Raised e)).
      rewrite <- app_assoc. split; [reflexivity|]. split; [reflexivity|].
      now rewrite failures_app, F1, Fp. }
  specialize (F3 results eq_refl).
  destruct (messages_create
              (second_request query (fst (decode (chunks s1))) results)
              (map descriptor tools) w3) as [[s2|e0] w4].
  2:{ injection R as <- <- <-. split; [discriminate|].
      intros e E. injection E as ->. left.
      exists (first_round query tools s1 ++ t3),
        (ModelCall (second_request query (fst (decode (chunks s1))) results)
                   (map descriptor tools) (Raised e)).
      rewrite <- app_assoc. split; [reflexivity|]. split; [reflexivity|].
      now rewrite failures_app, F1, F3. }
  pose proof (second_round_silent s2) as [_ [_ [F2 _]]].
  assert (F : failures
                (first_round query tools s1 ++ t3
                 ++ ModelCall
                      (second_request query (fst (decode (chunks s1))) results)
                      (map descriptor tools) (Returned s2)
                    :: second_round s2) = []).
  { rewrite !failures_app, failures_cons, F1, F2, F3. reflexivity. }
  injection R as <- <- <-. unfold stream_end.
  destruct (broken s2) as [e0|] eqn:B2.
  - split; [discriminate|]. intros e E. injection E as ->. right.
    exists (first_round query tools s1 ++ t3),
      (second_request query (fst (decode (chunks s1))) results),
      (map descriptor tools), s2, (nl :: text_fragments (chunks s2)).
    split; [|split; [exact F | now left]].
    unfold second_round. rewrite B2, app_nil_r, <- app_assoc. reflexivity.
  - split; [|discriminate]. intros u _. split; [exact F|].
    intros msgs tools' s I. unfold first_round in I. cbn [app] in I.
    destruct I as [I|[I|I]]; try discriminate.
    { injection I as _ _ <-. exact B. }
    apply in_app_or in I. destruct I as [I|I].
    { now apply in_printed_model_call in I. }
    apply in_app_or in I. destruct I as [I|I].
    { exfalso. revert I. apply model_calls_none, Hm. }
    destruct I as [I|I].
    + injection I as _ _ <-. exact B2.
    + exfalso. revert I. apply model_calls_none, second_round_quiet.
Qed.

(** X8: the tools a query invokes are the tool calls decoded from the
    first stream, taken from the first on, in order and each at most
    once; when the query returns, all of them were invoked. *)
Theorem invocations_follow_requests
  (query : string) (w w' : World) (o : Outcome unit)
  (r0 : Outcome (list (Tool JSON))) (msgs : list Message)
  (tools : list (ToolDescriptor JSON)) (s1 : ResponseStream)
  (rest : list Event) :
  process_query query w
  = (o, w', ListTools r0 :: ModelCall msgs tools (Returned s1) :: rest) ->
  exists remaining,
    requested (tool_calls (fst (decode (chunks s1))))
    = invoked rest ++ remaining
    /\ (forall u, o = Returned u -> remaining = []).
Proof.
  intro R.
  query_paths R; unfold first_round in Etr; cbn [app] in Etr;
    try discriminate; injection Etr as <- <- <- <- <-; subst;
    trace_facts; returned_facts; cbn [chunks] in *.
  - exists (requested (tool_calls (fst (decode (chunks a0))))).
    split; [now silence | discriminate].
  - exists (requested (tool_calls (fst (decode (chunks a0))))).
    split; [now silence | discriminate].
  - exists []. split; [|reflexivity].
    match goal with H : tool_calls _ = [] |- _ => rewrite H end.
    now silence.
  - match goal with H : tool_calls _ = _ :: _ |- _ => rewrite H end.
    exists x. split; [|intros; assumption].
    silence. now rewrite app_nil_r.
  - match goal with H : tool_calls _ = _ :: _ |- _ => rewrite H end.
    exists x. split; [|discriminate].
    silence. now rewrite app_nil_r.
  - match goal with H : tool_calls _ = _ :: _ |- _ => rewrite H end.
    exists x. split; [|discriminate]. now silence.
Qed.

Lemma call_tools_first (tc : ToolCall) (tcs : list ToolCall)
  (tool_results : list Block) (w w' : World)
  (o : Outcome (list Block)) (tr : list Event) :
  call_tools (tc :: tcs) tool_results w = (o, w', tr) ->
  exists r later,
    tr = Printed (calling_tool_message (call_name tc) (call_input tc)
                  ++ nl)%string
         :: CallTool (call_name tc) (call_input tc) r :: later.
Proof.
  cbn [call_tools]. unfold bind, print, write, call_tool.
  destruct (session_call_tool (call_name tc) (call_input tc) w)
    as [[p|e] w1].
  - destruct (call_tools tcs (tool_results ++ [ToolResult (call_id tc) p]) w1)
      as [[o2 w2] t2].
    intro H. injection H as <- <- <-. cbn. eauto.
  - intro H. injection H as <- <- <-. cbn. eauto.
Qed.

(** X9: what follows the first stream.  When the loop over the stream
    was left by an exception of [json.loads], the query ends there with
    that exception.  When the stream broke or no tool call was decoded
    from it (also when every tool-use block was rejected), the query
    ends there: nothing more happens and the outcome is the end of the
    stream.  Otherwise the first tool call is announced and invoked.
    In every case what the loop wrote comes first. *)
Theorem first_round_decides
  (query : string) (w w' : World) (o : Outcome unit)
  (r0 : Outcome (list (Tool JSON))) (msgs : list Message)
  (tools : list (ToolDescriptor JSON)) (s1 : ResponseStream)
  (rest : list Event) :
  process_query query w
  = (o, w', ListTools r0 :: ModelCall msgs tools (Returned s1) :: rest) ->
  (forall e, decode_raised (chunks s1) = Some e ->
     rest = map Printed (snd (decode (chunks s1))) /\ o = Raised e)
  /\ (decode_raised (chunks s1) = None ->
      broken s1 <> None \/ tool_calls (fst (decode (chunks s1))) = [] ->
      rest = map Printed (snd (decode (chunks s1))) /\ o = stream_end s1)
  /\ (forall tc tcs,
         decode_raised (chunks s1) = None ->
         broken s1 = None ->
         tool_calls (fst (decode (chunks s1))) = tc :: tcs ->
         exists r later,
           rest = map Printed (snd (decode (chunks s1)))
                  ++ Printed (nl ++ "[Calling tool " ++ call_name tc
                                 ++ " with args " ++ format_json (call_input tc)
                                 ++ "]" ++ nl)%string
                  :: CallTool (call_name tc) (call_input tc) r :: later).
Proof.
  intro R. rewrite process_query_eq in R.
  destruct (session_list_tools w) as [[tools0|e0] w1]; [|discriminate].
  destruct (messages_create [user_message query] (map descriptor tools0) w1)
    as [[s|e0] w2]; [|discriminate].
  unfold first_round in R. cbn [app] in R.
  destruct (decode_raised (chunks s)) as [e0|] eqn:D.
  { injection R as Eo _ _ _ _ Es Er. subst.
    split; [|split]; try (intros; congruence).
    intros e D'. rewrite D in D'. injection D' as <-. now split. }
  destruct (broken s) as [e0|] eqn:B.
  { injection R as Eo _ _ _ _ Es Er. subst.
    split; [|split]; try (intros; congruence).
    intros _ _. unfold stream_end. rewrite B. now split. }
  destruct (tool_calls (fst (decode (chunks s)))) as [|tc0 tcs0] eqn:T.
  { injection R as Eo _ _ _ _ Es Er. subst.
    split; [|split]; try (intros; congruence).
    intros _ _. unfold stream_end. rewrite B. now split. }
  destruct (call_tools (tc0 :: tcs0) [] w2) as [[o3 w3] t3] eqn:C.
  destruct (call_tools_first _ _ _ _ C) as [r [later ->]].
  assert (E : s = s1
              /\ exists later',
                   rest = map Printed (snd (decode (chunks s)))
                          ++ Printed (calling_tool_message (call_name tc0)
                                        (call_input tc0) ++ nl)%string
                          :: CallTool (call_name tc0) (call_input tc0) r
                          :: later').
  { destruct o3 as [results|e0].
    - destruct (messages_create _ _ w3) as [[s2|e0] w4];
        injection R as _ _ _ _ _ Es Er; subst; split; try reflexivity;
        eexists; reflexivity.
    - injection R as _ _ _ _ _ Es Er. subst. split; [reflexivity|].
      eexists. reflexivity. }
  destruct E as [<- [later' ->]]. clear R.
  split; [|split]; try (intros; congruence).
  - intros _ [H|H]; congruence.
  - intros tc tcs _ _ T'. rewrite T in T'. injection T' as <- <-.
    exists r, later'. unfold calling_tool_message.
    now rewrite !append_assoc.
Qed.

Lemma tool_use_ids_assistant (st : DecoderState) :
  tool_use_ids (assistant_message_content st) = map call_id (tool_calls st)
  /\ tool_result_ids (assistant_message_content st) = [].
Proof.
  unfold assistant_message_content, tool_use_ids, tool_result_ids.
  rewrite !flat_map_app.
  assert (A : forall calls : list ToolCall,
             flat_map (fun b : Block => match b with
                                        | ToolUse id _ _ => [id]
                                        | _ => []
                                        end)
               (map (fun c => ToolUse (call_id c) (call_name c) (call_input c))
                    calls)
             = map call_id calls
             /\ flat_map (fun b : Block => match b with
                                           | ToolResult i _ => [i]
                                           | _ => []
                                           end)
                  (map (fun c => ToolUse (call_id c) (call_name c)
                                         (call_input c)) calls)
                = []).
  { induction calls as [|c calls [I1 I2]]; [now split|].
    cbn. now rewrite I1, I2. }
  destruct (A (tool_calls st)) as [-> ->].
  now destruct (text_parts st).
Qed.

Lemma tool_result_ids_blocks (calls : list ToolCall) :
  forall payloads : list Payload,
  List.length payloads = List.length calls ->
  tool_result_ids (tool_result_blocks calls payloads) = map call_id calls
  /\ tool_use_ids (tool_result_blocks calls payloads) = [].
Proof.
  unfold tool_result_blocks.
  induction calls as [|c calls IH]; intros [|p ps] L; try discriminate.
  - now split.
  - cbn in L. injection L as L. destruct (IH ps L) as [I1 I2].
    cbn. unfold tool_result_ids, tool_use_ids in *. now rewrite I1, I2.
Qed.

Lemma filter_tool_use_assistant (st : DecoderState) :
  filter is_tool_use (assistant_message_content st)
  = map (fun c => ToolUse (call_id c) (call_name c) (call_input c))
        (tool_calls st).
Proof.
  unfold assistant_message_content. rewrite filter_app.
  assert (A : forall calls : list ToolCall,
             filter is_tool_use
               (map (fun c => ToolUse (call_id c) (call_name c) (call_input c))
                    calls)
             = map (fun c => ToolUse (call_id c) (call_name c) (call_input c))
                   calls).
  { induction calls as [|c calls IH]; [reflexivity|]. cbn. now rewrite IH. }
  rewrite A. now destruct (text_parts st).
Qed.

Lemma tool_result_blocks_only (calls : list ToolCall) :
  forall payloads : list Payload,
  forallb is_tool_result (tool_result_blocks calls payloads) = true.
Proof.
  unfold tool_result_blocks.
  induction calls as [|c calls IH]; intros [|p ps]; try reflexivity.
  cbn. apply IH.
Qed.

(** X10: the second request extends the first, which holds the query of
    the user, by two messages: an assistant message whose tool-use
    blocks are the decoded tool calls, with their ids, names and
    inputs, in order, and a user message that holds tool results only
    and answers each tool-use block, in the same order, by one tool
    result with the same id. *)
Theorem tool_results_answer_tool_uses
  (query : string) (w w' : World) (o : Outcome unit)
  (r0 : Outcome (list (Tool JSON))) (msgs1 : list Message)
  (tools1 : list (ToolDescriptor JSON)) (s1 : ResponseStream)
  (rest : list Event)
  (msgs2 : list Message) (tools2 : list (ToolDescriptor JSON))
  (r2 : Outcome ResponseStream) :
  process_query query w
  = (o, w', ListTools r0 :: ModelCall msgs1 tools1 (Returned s1) :: rest) ->
  In (ModelCall msgs2 tools2 r2) rest ->
  exists a u : Message,
    msgs1 = [{| role := User; content := Str query |}]
    /\ msgs2 = msgs1 ++ [a; u]
    /\ role a = Assistant /\ role u = User
    /\ filter is_tool_use (content_blocks a)
       = map (fun c => ToolUse (call_id c) (call_name c) (call_input c))
             (tool_calls (fst (decode (chunks s1))))
    /\ forallb is_tool_result (content_blocks u) = true
    /\ tool_use_ids (content_blocks a)
       = map call_id (tool_calls (fst (decode (chunks s1))))
    /\ tool_result_ids (content_blocks u) = tool_use_ids (content_blocks a)
    /\ tool_result_ids (content_blocks a) = []
    /\ tool_use_ids (content_blocks u) = []
    /\ tool_use_ids (content_blocks a) <> [].
Proof.
  intros R I.
  assert (M1 : msgs1 = [user_message query]
               /\ tool_calls (fst (decode (chunks s1))) <> []).
  { pose proof R as R'.
    query_paths R'; unfold first_round in Etr; cbn [app] in Etr;
      try discriminate; injection Etr as <- <- <- <- <-;
      trace_facts; find_model_call I; try discriminate;
      cbn [chunks] in *; split; congruence. }
  destruct M1 as [-> NE].
  destruct (second_request_results query w msgs2 tools2 r2 R I)
    as [ps [L [-> _]]].
  destruct (tool_use_ids_assistant (fst (decode (chunks s1)))) as [A1 A2].
  destruct (tool_result_ids_blocks (tool_calls (fst (decode (chunks s1))))
              ps L) as [B1 B2].
  exists (assistant_message (fst (decode (chunks s1)))),
    (tool_result_message
       (tool_result_blocks (tool_calls (fst (decode (chunks s1)))) ps)).
  unfold assistant_message, tool_result_message, content_blocks.
  cbn [content role]. rewrite A1, A2, B1, B2.
  rewrite filter_tool_use_assistant, tool_result_blocks_only.
  repeat split.
  destruct (tool_calls (fst (decode (chunks s1)))); [congruence|discriminate].
Qed.
(** ** Properties of [chat_loop] *)

(** How the loop handles one typed line.  A line that is ['quit'] once
    stripped and lowered ends the loop at once.  Any other line is
    processed as a query: when the query returns, or raises an
    exception that [except Exception] catches, the loop goes on with
    the next line from the world the query left, after printing the
    error in the second case; any other exception ends the loop,
    unprinted. *)
Lemma chat_iterations_cons (line : string) (rest : list string) (w : World) :
  chat_iterations (line :: rest) w
  = if is_quit line
    then (Returned Exited, w,
          [Printed (nl ++ "Query: ")%string; ReadLine line])
    else
      match process_query (strip line) w with
      | (Returned _, w', tr) =>
          (fst (fst (chat_iterations rest w')),
           snd (fst (chat_iterations rest w')),
           Printed (nl ++ "Query: ")%string :: ReadLine line :: tr
           ++ snd (chat_iterations rest w'))
      | (Raised e, w', tr) =>
          if is_Exception e
          then (fst (fst (chat_iterations rest w')),
                snd (fst (chat_iterations rest w')),
                Printed (nl ++ "Query: ")%string :: ReadLine line :: tr
                ++ Printed (error_message e ++ nl)%string
                   :: snd (chat_iterations rest w'))
          else (Raised e, w',
                Printed (nl ++ "Query: ")%string :: ReadLine line :: tr)
      end.
Proof.
  cbn [chat_iterations].
  unfold chat_iteration, try_except, bind, input, is_quit.
  destruct (lower (strip line) =? "quit")%string; [reflexivity|].
  destruct (process_query (strip line) w) as [[[u|e] w'] tr].
  - unfold ret. destruct (chat_iterations rest w') as [[o2 w2] tr2]. cbn.
    now rewrite app_nil_r.
  - destruct (is_Exception e); [|reflexivity].
    unfold print, write, ret.
    destruct (chat_iterations rest w') as [[o2 w2] tr2]. cbn.
    now rewrite <- !app_assoc.
Qed.

(** An exception that leaves the loop is never one that
    [except Exception] catches. *)
Lemma chat_iterations_escape (lines : list string) :
  forall (w w' : World) (e : PyException) (tr : list Event),
  chat_iterations lines w = (Raised e, w', tr) -> is_Exception e = false.
Proof.
  induction lines as [|line rest IH]; intros w w' e tr H.
  - discriminate.
  - rewrite chat_iterations_cons in H.
    destruct (is_quit line); [discriminate|].
    destruct (process_query (strip line) w) as [[[u|e0] w1] tr1].
    + destruct (chat_iterations rest w1) as [[o2 w2] tr2] eqn:E.
      cbn in H. injection H as -> _ _. exact (IH _ _ _ _ E).
    + destruct (is_Exception e0) eqn:X.
      * destruct (chat_iterations rest w1) as [[o2 w2] tr2] eqn:E.
        cbn in H. injection H as -> _ _. exact (IH _ _ _ _ E).
      * now injection H as <- _ _.
Qed.

(** The lines are read in the order they are typed, each once, and the
    loop stops reading at the first line that is ['quit']. *)
Lemma chat_iterations_reads (lines : list string) :
  forall (w w' : World) (o : Outcome LoopStatus) (tr : list Event),
  chat_iterations lines w = (o, w', tr) ->
  (exists unread, lines = read_lines tr ++ unread)
  /\ (o = Returned WaitingForInput ->
      read_lines tr = lines
      /\ forallb (fun l => negb (is_quit l)) lines = true
      /\ exists before, tr = before ++ [Printed (nl ++ "Query: ")%string])
  /\ (o = Returned Exited ->
      exists before q,
        read_lines tr = before ++ [q] /\ is_quit q = true
        /\ forallb (fun l => negb (is_quit l)) before = true)
  /\ (forall e, o = Raised e ->
        forallb (fun l => negb (is_quit l)) (read_lines tr) = true).
Proof.
  induction lines as [|line rest IH]; intros w w' o tr H.
  - cbn in H. injection H as <- <- <-. cbn. repeat split; try discriminate.
    + now exists [].
    + now exists [].
  - rewrite chat_iterations_cons in H.
    destruct (is_quit line) eqn:Q.
    + injection H as <- <- <-. cbn. repeat split; try discriminate.
      * now exists rest.
      * intros _. exists [], line. now repeat split.
    + assert (K : forall w1 tr1 extra,
                 read_lines tr1 = [] -> read_lines extra = [] ->
                 (fst (fst (chat_iterations rest w1)),
                  snd (fst (chat_iterations rest w1)),
                  Printed (nl ++ "Query: ")%string :: ReadLine line :: tr1
                  ++ extra ++ snd (chat_iterations rest w1)) = (o, w', tr) ->
                 (exists unread, line :: rest = read_lines tr ++ unread)
                 /\ (o = Returned WaitingForInput ->
                     read_lines tr = line :: rest
                     /\ forallb (fun l => negb (is_quit l)) (line :: rest)
                        = true
                     /\ exists before,
                          tr = before ++ [Printed (nl ++ "Query: ")%string])
                 /\ (o = Returned Exited ->
                     exists before q,
                       read_lines tr = before ++ [q] /\ is_quit q = true
                       /\ forallb (fun l => negb (is_quit l)) before = true)
                 /\ (forall e, o = Raised e ->
                       forallb (fun l => negb (is_quit l)) (read_lines tr)
                       = true)).
      { clear H. intros w1 tr1 extra R1 R2 E.
        destruct (chat_iterations rest w1) as [[o2 w2] tr2] eqn:E2.
        cbn [fst snd] in E. injection E as <- <- <-.
        destruct (IH _ _ _ _ E2) as [[unread U] [W [X Z]]].
        rewrite read_lines_cons, read_lines_cons, !read_lines_app, R1, R2.
        cbn [app]. split; [|split; [|split]].
        - exists unread. now rewrite <- U.
        - intro H. destruct (W H) as [-> [F [before ->]]].
          split; [reflexivity|]. split; [cbn; now rewrite Q, F|].
          exists (Printed (nl ++ "Query: ")%string :: ReadLine line
                  :: tr1 ++ extra ++ before).
          cbn [app]. now rewrite <- !app_assoc.
        - intro H. destruct (X H) as [before [q [-> [Hq F]]]].
          exists (line :: before), q. cbn. now rewrite Q, F.
        - intros e H. cbn. rewrite Q. exact (Z e H). }
      destruct (process_query (strip line) w) as [[[u|e0] w1] tr1] eqn:P;
        pose proof (process_query_reads_nothing _ _ P) as R1.
      * apply (K w1 tr1 []); [exact R1 | reflexivity | exact H].
      * destruct (is_Exception e0).
        -- apply (K w1 tr1 [Printed (error_message e0 ++ nl)%string]);
             [exact R1 | reflexivity | exact H].
        -- injection H as <- <- <-.
           rewrite read_lines_cons, read_lines_cons, R1. cbn.
           rewrite Q. repeat split; try discriminate.
           now exists rest.
Qed.

Lemma chat_loop_eq (lines : list string) (w : World) :
  chat_loop lines w
  = (fst (fst (chat_iterations lines w)),
     snd (fst (chat_iterations lines w)),
     Printed (nl ++ "MCP Client Started!" ++ nl)%string
     :: Printed ("Type your queries or 'quit' to exit." ++ nl)%string
     :: snd (chat_iterations lines w)).
Proof.
  unfold chat_loop, bind, print, write.
  now destruct (chat_iterations lines w) as [[o w'] tr].
Qed.

(** X11: the chat loop lets no exception escape that [except Exception]
    catches: whatever goes wrong with a query, the loop is left only by
    ['quit'] or by an exception outside that class. *)
Theorem chat_loop_catches_exceptions
  (lines : list string) (w w' : World) (e : PyException) (tr : list Event) :
  chat_loop lines w = (Raised e, w', tr) -> is_Exception e = false.
Proof.
  rewrite chat_loop_eq. intro H.
  destruct (chat_iterations lines w) as [[o w1] tr1] eqn:E.
  cbn [fst snd] in H. injection H as -> _ _.
  exact (chat_iterations_escape _ _ E).
Qed.

(** X12: the chat loop reads the typed lines in order, each once, and stops
    reading at the first line that is ['quit']: it is left normally
    exactly there, and it waits for more input, the prompt written,
    only when no line typed so far was ['quit']. *)
Theorem chat_loop_reads_until_quit
  (lines : list string) (w w' : World) (o : Outcome LoopStatus)
  (tr : list Event) :
  chat_loop lines w = (o, w', tr) ->
  (exists unread, lines = read_lines tr ++ unread)
  /\ (o = Returned WaitingForInput ->
      read_lines tr = lines
      /\ forallb (fun l => negb (is_quit l)) lines = true
      /\ exists before, tr = before ++ [Printed (nl ++ "Query: ")%string])
  /\ (o = Returned Exited ->
      exists before q,
        read_lines tr = before ++ [q] /\ is_quit q = true
        /\ forallb (fun l => negb (is_quit l)) before = true)
  /\ (forall e, o = Raised e ->
        forallb (fun l => negb (is_quit l)) (read_lines tr) = true).
Proof.
  rewrite chat_loop_eq. intro H.
  destruct (chat_iterations lines w) as [[o1 w1] tr1] eqn:E.
  cbn [fst snd] in H. injection H as <- <- <-.
  rewrite !read_lines_cons.
  destruct (chat_iterations_reads _ _ E) as [U [W [X Z]]].
  split; [exact U | split; [|split; [exact X | exact Z]]].
  intro H. destruct (W H) as [R [F [before ->]]].
  split; [exact R | split; [exact F|]].
  exists (Printed (nl ++ "MCP Client Started!" ++ nl)%string
          :: Printed ("Type your queries or 'quit' to exit." ++ nl)%string
          :: before).
  reflexivity.
Qed.

(** ** Starting and stopping the client *)

Lemma substring_skip (p s : string) :
  substring (String.length p) (String.length s) (p ++ s)%string = s.
Proof.
  induction p as [|c p IH]; simpl.
  - induction s as [|c s IH]; simpl; [reflexivity | now rewrite IH].
  - exact IH.
Qed.

Lemma length_append (p s : string) :
  String.length (p ++ s)%string = String.length p + String.length s.
Proof. induction p as [|c p IH]; simpl; [reflexivity | now rewrite IH]. Qed.

Lemma substring_split (n : nat) :
  forall s : string,
  n <= String.length s ->
  s = (substring 0 n s ++ substring n (String.length s - n) s)%string.
Proof.
  induction n as [|n IH]; intros s H.
  - simpl. rewrite Nat.sub_0_r.
    destruct s as [|c s]; [reflexivity|].
    change (String c s) with ("" ++ String c s)%string at 2.
    change (String.length (String c s))
      with (String.length (String c s)) at 1.
    exact (eq_sym (substring_skip "" (String c s))).
  - destruct s as [|c s]; simpl in *; [lia|].
    f_equal. apply IH. lia.
Qed.

(** [endswith] is the suffix test. *)
Lemma endswith_iff (s suffix : string) :
  endswith s suffix = true <-> exists p, s = (p ++ suffix)%string.
Proof.
  unfold endswith. split.
  - intro H. apply andb_prop in H. destruct H as [L E].
    apply Nat.leb_le in L. apply String.eqb_eq in E.
    exists (substring 0 (String.length s - String.length suffix) s).
    assert (S : String.length s - String.length suffix <= String.length s)
      by lia.
    apply substring_split in S.
    replace (String.length s - (String.length s - String.length suffix))
      with (String.length suffix) in S by lia.
    rewrite E in S. exact S.
  - intros [p ->]. rewrite length_append.
    replace (String.length p + String.length suffix - String.length suffix)
      with (String.length p) by lia.
    rewrite substring_skip, String.eqb_refl.
    rewrite andb_true_r. apply Nat.leb_le. lia.
Qed.

(** [connect_to_server], path by path. *)
Lemma connect_to_server_eq (path : string) (w : World)
  (stack : list Context) :
  connect_to_server path w stack =
  if negb (endswith path ".py" || endswith path ".js")
  then (Raised ValueError_script, w, stack, [])
  else
    match stdio_client_enter (server_params_for path) w with
    | (Raised e, w1) =>
        (Raised e, w1, stack,
         [Enter (StdioClient (server_params_for path)) (Raised e)])
    | (Returned u1, w1) =>
      match client_session_enter w1 with
      | (Raised e, w2) =>
          (Raised e, w2, stack ++ [StdioClient (server_params_for path)],
           [Enter (StdioClient (server_params_for path)) (Returned u1);
            Enter ClientSession (Raised e)])
      | (Returned u2, w2) =>
        match session_initialize w2 with
        | (Raised e, w3) =>
            (Raised e, w3,
             stack ++ [StdioClient (server_params_for path); ClientSession],
             [Enter (StdioClient (server_params_for path)) (Returned u1);
              Enter ClientSession (Returned u2);
              Initialize (Raised e)])
        | (Returned u3, w3) =>
          match session_list_tools w3 with
          | (Raised e, w4) =>
              (Raised e, w4,
               stack ++ [StdioClient (server_params_for path); ClientSession],
               [Enter (StdioClient (server_params_for path)) (Returned u1);
                Enter ClientSession (Returned u2);
                Initialize (Returned u3);
                Client (ListTools (Raised e))])
          | (Returned tools, w4) =>
              (Returned tt, w4,
               stack ++ [StdioClient (server_params_for path); ClientSession],
               [Enter (StdioClient (server_params_for path)) (Returned u1);
                Enter ClientSession (Returned u2);
                Initialize (Returned u3);
                Client (ListTools (Returned tools));
                Client (Printed (connected_message
                                   (map (@tool_name JSON) tools) ++ nl)%string)])
          end
        end
      end
    end.
Proof.
  unfold connect_to_server, server_params_for.
  destruct (negb (endswith path ".py" || endswith path ".js"));
    [reflexivity|].
  unfold pbind, enter_async_context, initialize, lift, list_tools, print,
    write.
  destruct (stdio_client_enter _ w) as [[u1|e] w1]; [|reflexivity].
  destruct (client_session_enter w1) as [[u2|e] w2]; [|reflexivity].
  destruct (session_initialize w2) as [[u3|e] w3];
    [|cbn; now rewrite <- app_assoc].
  destruct (session_list_tools w3) as [[tools|e] w4];
    cbn; now rewrite <- app_assoc.
Qed.

(** X13: [connect_to_server] looks at the name of the script before it does
    anything.  A name that ends in [.py] is launched with [python], a
    name that ends in [.js] with [node], each with the name as its only
    argument and no environment; for any other name it raises the
    [ValueError] and has no effect at all. *)
Theorem connect_checks_script_name (path : string) (w : World)
  (stack : list Context) :
  ((exists p, path = (p ++ ".py")%string) ->
   exists r later,
     snd (connect_to_server path w stack)
     = Enter (StdioClient {| command := "python"; args := [path];
                             env := None |}) r :: later)
  /\ ((exists p, path = (p ++ ".js")%string) ->
      exists r later,
        snd (connect_to_server path w stack)
        = Enter (StdioClient {| command := "node"; args := [path];
                                env := None |}) r :: later)
  /\ ((forall p, path <> (p ++ ".py")%string) ->
      (forall p, path <> (p ++ ".js")%string) ->
      connect_to_server path w stack
      = (Raised ValueError_script, w, stack, [])).
Proof.
  rewrite connect_to_server_eq. unfold server_params_for.
  split; [|split].
  - intro H. apply endswith_iff in H. rewrite H. cbn [negb orb].
    destruct (stdio_client_enter _ w) as [[u1|e] w1]; [|cbn; eauto].
    destruct (client_session_enter w1) as [[u2|e] w2]; [|cbn; eauto].
    destruct (session_initialize w2) as [[u3|e] w3]; [|cbn; eauto].
    destruct (session_list_tools w3) as [[tools|e] w4]; cbn; eauto.
  - intros [p ->].
    assert (J : endswith (p ++ ".js") ".js" = true)
      by (apply endswith_iff; now exists p).
    assert (N : endswith (p ++ ".js") ".py" = false).
    { unfold endswith. rewrite length_append.
      replace (String.length p + String.length ".js" - String.length ".py")
        with (String.length p) by (simpl; lia).
      change (String.length ".py") with (String.length ".js").
      rewrite substring_skip. apply andb_false_r. }
    rewrite J, N. cbn [negb orb].
    destruct (stdio_client_enter _ w) as [[u1|e] w1]; [|cbn; eauto].
    destruct (client_session_enter w1) as [[u2|e] w2]; [|cbn; eauto].
    destruct (session_initialize w2) as [[u3|e] w3]; [|cbn; eauto].
    destruct (session_list_tools w3) as [[tools|e] w4]; cbn; eauto.
  - intros Hpy Hjs.
    destruct (endswith path ".py") eqn:A.
    { apply endswith_iff in A. destruct A as [p A]. now destruct (Hpy p). }
    destruct (endswith path ".js") eqn:B.
    { apply endswith_iff in B. destruct B as [p B]. now destruct (Hjs p). }
    reflexivity.
Qed.

(** The trace and the exit stack of [connect_to_server], by outcome. *)
Lemma connect_to_server_trace
  (path : string) (w w' : World) (stack stack' : list Context)
  (o : Outcome unit) (tr : list ProcessEvent) :
  connect_to_server path w stack = (o, w', stack', tr) ->
  stack' = stack ++ entered tr
  /\ filter is_aclose tr = []
  /\ (forall u, o = Returned u ->
        exists tools,
          tr = [Enter (StdioClient (server_params_for path)) (Returned tt);
                Enter ClientSession (Returned tt);
                Initialize (Returned tt);
                Client (ListTools (Returned tools));
                Client (Printed (connected_message
                                   (map (@tool_name JSON) tools) ++ nl)%string)])
  /\ (forall e, o = Raised e ->
        (tr = [] /\ e = ValueError_script)
        \/ exists pre ev,
             tr = pre ++ [ev] /\ start_failures [ev] = [e]
             /\ start_failures pre = []
             /\ read_lines (client_events tr) = []).
Proof.
  rewrite connect_to_server_eq.
  destruct (negb (endswith path ".py" || endswith path ".js")).
  { intro H. injection H as <- <- <- <-. cbn. rewrite app_nil_r.
    repeat split; try discriminate.
    intros e E. injection E as <-. now left. }
  destruct (stdio_client_enter _ w) as [[[]|e1] w1].
  2:{ intro H. injection H as <- <- <- <-. cbn. rewrite app_nil_r.
      repeat split; try discriminate.
      intros e E. injection E as <-. right.
      exists [], (Enter (StdioClient (server_params_for path)) (Raised e1)).
      now repeat split. }
  destruct (client_session_enter w1) as [[[]|e2] w2].
  2:{ intro H. injection H as <- <- <- <-. cbn.
      repeat split; try discriminate.
      intros e E. injection E as <-. right.
      exists [Enter (StdioClient (server_params_for path)) (Returned tt)],
        (Enter ClientSession (Raised e2)).
      now repeat split. }
  destruct (session_initialize w2) as [[[]|e3] w3].
  2:{ intro H. injection H as <- <- <- <-. cbn.
      repeat split; try discriminate.
      intros e E. injection E as <-. right.
      exists [Enter (StdioClient (server_params_for path)) (Returned tt);
              Enter ClientSession (Returned tt)],
        (Initialize (Raised e3)).
      now repeat split. }
  destruct (session_list_tools w3) as [[tools|e4] w4].
  - intro H. injection H as <- <- <- <-. cbn.
    repeat split; try discriminate. intros _ _. now exists tools.
  - intro H. injection H as <- <- <- <-. cbn.
    repeat split; try discriminate.
    intros e E. injection E as <-. right.
    exists [Enter (StdioClient (server_params_for path)) (Returned tt);
            Enter ClientSession (Returned tt);
            Initialize (Returned tt)],
      (Client (ListTools (Raised e4))).
    now repeat split.
Qed.

(** X14: [connect_to_server] keeps the exit stack in step with what it
    entered: the stack grows by exactly the contexts entered, in order,
    and nothing is closed.  When it returns, it has entered the stdio
    client and then the session, initialized the session, listed the
    tools and printed their names, in this order.  When it raises, the
    exception is the [ValueError] of the name check, raised before any
    effect, or that of the operation that failed, which is then the
    last event. *)
Theorem connect_stack_discipline
  (path : string) (w w' : World) (stack stack' : list Context)
  (o : Outcome unit) (tr : list ProcessEvent) :
  connect_to_server path w stack = (o, w', stack', tr) ->
  stack' = stack ++ entered tr
  /\ filter is_aclose tr = []
  /\ (forall u, o = Returned u ->
        exists tools,
          tr = [Enter (StdioClient (server_params_for path)) (Returned tt);
                Enter ClientSession (Returned tt);
                Initialize (Returned tt);
                Client (ListTools (Returned tools));
                Client (Printed (connected_message
                                   (map (@tool_name JSON) tools) ++ nl)%string)])
  /\ (forall e, o = Raised e ->
        (tr = [] /\ e = ValueError_script)
        \/ exists pre ev,
             tr = pre ++ [ev] /\ start_failures [ev] = [e]
             /\ start_failures pre = []
             /\ read_lines (client_events tr) = []).
Proof. apply connect_to_server_trace. Qed.

Lemma entered_app (a b : list ProcessEvent) :
  entered (a ++ b) = entered a ++ entered b.
Proof. apply flat_map_app. Qed.

Lemma client_events_app (a b : list ProcessEvent) :
  client_events (a ++ b) = client_events a ++ client_events b.
Proof. apply flat_map_app. Qed.

Lemma lifted_events (t : list Event) :
  entered (map Client t) = []
  /\ filter is_aclose (map Client t) = []
  /\ client_events (map Client t) = t.
Proof.
  induction t as [|x t [I1 [I2 I3]]]; [now repeat split|].
  cbn. unfold client_events in I3. now rewrite I3.
Qed.

(** The body of the [try] of [main]. *)
Lemma connect_then_chat_eq (path : string) (lines : list string)
  (w : World) (stack : list Context) :
  pbind (connect_to_server path) (fun _ => lift (chat_loop lines)) w stack
  = match connect_to_server path w stack with
    | (Returned _, w1, stack1, t1) =>
        (fst (fst (chat_loop lines w1)), snd (fst (chat_loop lines w1)),
         stack1, t1 ++ map Client (snd (chat_loop lines w1)))
    | (Raised e, w1, stack1, t1) => (Raised e, w1, stack1, t1)
    end.
Proof.
  unfold pbind, lift.
  destruct (connect_to_server path w stack) as [[[[u|e] w1] stack1] t1];
    [|reflexivity].
  now destruct (chat_loop lines w1) as [[o2 w2] t2].
Qed.

Lemma connect_then_chat_facts (path : string) (lines : list string)
  (w w' : World) (stack stack' : list Context)
  (o : Outcome LoopStatus) (tr : list ProcessEvent) :
  pbind (connect_to_server path) (fun _ => lift (chat_loop lines)) w stack
  = (o, w', stack', tr) ->
  stack' = stack ++ entered tr
  /\ filter is_aclose tr = []
  /\ ((exists u, o = Returned u) \/ read_lines (client_events tr) <> [] ->
      exists tools later,
        tr = Enter (StdioClient (server_params_for path)) (Returned tt)
             :: Enter ClientSession (Returned tt)
             :: Initialize (Returned tt)
             :: Client (ListTools (Returned tools))
             :: Client (Printed (connected_message
                                   (map (@tool_name JSON) tools) ++ nl)%string)
             :: later
        /\ entered later = []).
Proof.
  rewrite connect_then_chat_eq.
  destruct (connect_to_server path w stack) as [[[[u|e] w1] stack1] t1] eqn:C;
    destruct (connect_to_server_trace _ _ _ C) as [S [A [R F]]].
  - intro H. injection H as <- <- <- <-.
    destruct (lifted_events (snd (chat_loop lines w1))) as [L1 [L2 L3]].
    destruct (R u eq_refl) as [tools ->].
    rewrite entered_app, filter_app, L1, L2, A, app_nil_r.
    repeat split; [exact S|].
    intros _. exists tools, (map Client (snd (chat_loop lines w1))).
    now split.
  - intro H. injection H as <- <- <- <-.
    repeat split; [exact S | exact A |].
    intros [[u U]|N]; [discriminate|].
    destruct (F e eq_refl) as [[-> _]|[pre [ev [_ [_ [_ Z]]]]]];
      now destruct N.
Qed.

(** X15: once the client object exists, [main] closes the exit stack on
    every way out of the [try] block, exactly once and last, with
    exactly the contexts that were entered, and leaves the stack empty;
    an exception raised by the closing replaces the outcome.  While the
    chat loop still waits for a line, nothing has been closed and both
    contexts are on the stack. *)
Theorem main_always_cleans_up
  (argv lines : list string) (w w' : World) (stack stack' : list Context)
  (o : Outcome LoopStatus) (tr : list ProcessEvent) :
  main argv lines w stack
  = (o, w', stack', NewAnthropic (Returned tt) :: tr) ->
  (o = Returned WaitingForInput ->
   filter is_aclose tr = [] /\ stack' = entered tr
   /\ entered tr
      = [StdioClient (server_params_for (nth 1 argv "")); ClientSession])
  /\ (o <> Returned WaitingForInput ->
      exists body r,
        tr = body ++ [Aclose (entered body) r]
        /\ filter is_aclose body = []
        /\ stack' = []
        /\ (forall e, r = Raised e -> o = Raised e)).
Proof.
  unfold main. destruct (List.length argv <? 2)%nat.
  { unfold pbind, lift, print, write, praise. cbn. discriminate. }
  unfold pbind at 1. unfold new_client.
  destruct (anthropic_new w) as [[[]|e0] w0]; [|discriminate].
  unfold try_finally, cleanup.
  destruct (pbind (connect_to_server (nth 1 argv ""))
                  (fun _ => lift (chat_loop lines)) w0 [])
    as [[[ob wb] sb] tb] eqn:B.
  destruct (connect_then_chat_facts _ _ _ _ B) as [S [A K]].
  cbn [app] in S.
  assert (Done : forall o1, ob = o1 -> o1 <> Returned WaitingForInput ->
            match exit_stack_aclose sb wb with
            | (r, w1) =>
                match r with
                | Returned _ => (o1, w1, @nil Context, tb ++ [Aclose sb r])
                | Raised e => (Raised e, w1, [], tb ++ [Aclose sb r])
                end
            end = (o, w', stack', tr) ->
            (o = Returned WaitingForInput ->
             filter is_aclose tr = [] /\ stack' = entered tr
             /\ entered tr
                = [StdioClient (server_params_for (nth 1 argv ""));
                   ClientSession])
            /\ (o <> Returned WaitingForInput ->
                exists body r,
                  tr = body ++ [Aclose (entered body) r]
                  /\ filter is_aclose body = []
                  /\ stack' = []
                  /\ (forall e, r = Raised e -> o = Raised e))).
  { intros o1 _ N H.
    destruct (exit_stack_aclose sb wb) as [[u|e] w1];
      injection H as <- <- <- <-.
    - split; [intro X; now destruct N|]. intros _.
      exists tb, (Returned u). rewrite <- S. now repeat split.
    - split; [discriminate|]. intros _.
      exists tb, (Raised e). rewrite <- S. repeat split; try assumption.
      now intros e1 [= ->]. }
  destruct ob as [[|]|eb].
  - intro H. cbn in H. apply (Done (Returned Exited) eq_refl);
      [discriminate|].
    destruct (exit_stack_aclose sb wb) as [[u|e] w1];
      injection H as <- <- <- <-; reflexivity.
  - intro H. cbn in H. injection H as <- <- <- <-.
    split; [|intro N; now destruct N]. intros _.
    destruct K as [tools [later [-> E]]]; [left; eauto|].
    repeat split; [exact A | exact S |].
    unfold entered in *. cbn. now rewrite E.
  - intro H. cbn in H. apply (Done (Raised eb) eq_refl); [discriminate|].
    destruct (exit_stack_aclose sb wb) as [[u|e] w1];
      injection H as <- <- <- <-; reflexivity.
Qed.

Lemma connect_enters (path : string) (w w' : World)
  (stack stack' : list Context) (o : Outcome unit) (tr : list ProcessEvent)
  (c : Context) (r : Outcome unit) :
  connect_to_server path w stack = (o, w', stack', tr) ->
  In (Enter c r) tr ->
  c = StdioClient (server_params_for path) \/ c = ClientSession.
Proof.
  rewrite connect_to_server_eq.
  destruct (negb (endswith path ".py" || endswith path ".js")).
  { intro H. injection H as <- <- <- <-. intros []. }
  destruct (stdio_client_enter _ w) as [[u1|e1] w1];
    [destruct (client_session_enter w1) as [[u2|e2] w2];
     [destruct (session_initialize w2) as [[u3|e3] w3];
      [destruct (session_list_tools w3) as [[tools|e4] w4]|]|]|];
    intro H; injection H as <- <- <- <-; cbn; intro I;
    repeat match type of I with
           | _ \/ _ => destruct I as [I|I]
           | False => destruct I
           | _ = _ => first [discriminate I | injection I as <- _; tauto]
           end.
Qed.

(** X16: [main] needs the script as its first argument.  With fewer than
    two entries in [sys.argv] it prints the usage and ends with
    [SystemExit(1)], before a client is created.  Whatever it launches
    or enters is the stdio client of the script named by [sys.argv[1]],
    or the session on it. *)
Theorem main_requires_script
  (argv lines : list string) (w : World) (stack : list Context) :
  (List.length argv < 2 ->
   main argv lines w stack
   = (Raised SystemExit_1, w, stack, [Client (Printed (usage ++ nl)%string)]))
  /\ (forall c r,
         In (Enter c r) (snd (main argv lines w stack)) ->
         2 <= List.length argv
         /\ (c = StdioClient (server_params_for (nth 1 argv ""))
             \/ c = ClientSession)).
Proof.
  unfold main. destruct (List.length argv <? 2)%nat eqn:L.
  - split; [intros _; reflexivity|].
    intros c r I. cbn in I. destruct I as [I|[]]. discriminate.
  - apply Nat.ltb_ge in L. split; [lia|].
    intros c r. unfold pbind at 1. unfold new_client.
    destruct (anthropic_new w) as [[[]|e0] w0].
    2:{ cbn. intros [I|[]]. discriminate. }
    unfold try_finally, cleanup.
    rewrite connect_then_chat_eq.
    destruct (connect_to_server (nth 1 argv "") w0 [])
      as [[[[u|e] w1] s1] t1] eqn:C.
    + assert (G : forall extra,
                 (In (Enter c r) extra -> False) ->
                 In (Enter c r)
                    ([NewAnthropic (Returned tt)]
                     ++ (t1 ++ map Client (snd (chat_loop lines w1)))
                     ++ extra) ->
                 2 <= List.length argv
                 /\ (c = StdioClient (server_params_for (nth 1 argv ""))
                     \/ c = ClientSession)).
      { intros extra X I. split; [exact L|].
        apply in_app_or in I. destruct I as [[I|[]]|I]; [discriminate|].
        apply in_app_or in I. destruct I as [I|I]; [|now destruct (X I)].
        apply in_app_or in I. destruct I as [I|I].
        - eapply connect_enters; [exact C | exact I].
        - apply in_map_iff in I. destruct I as [x [I _]]. discriminate. }
      destruct (fst (fst (chat_loop lines w1))) as [[|]|eb].
      * destruct (exit_stack_aclose s1 (snd (fst (chat_loop lines w1))))
          as [[u2|e2] w2]; cbn [snd]; apply G;
          intros [I|[]]; discriminate.
      * cbn [snd]. intro I. apply (G []); [intros [] |].
        now rewrite app_nil_r.
      * destruct (exit_stack_aclose s1 (snd (fst (chat_loop lines w1))))
          as [[u2|e2] w2]; cbn [snd]; apply G;
          intros [I|[]]; discriminate.
    + destruct (exit_stack_aclose s1 w1) as [[u2|e2] w2]; cbn [snd app];
        intros [I|I]; try discriminate;
        (apply in_app_or in I; destruct I as [I|[I|[]]];
         [split; [exact L | eapply connect_enters; [exact C | exact I]]
         | discriminate]).
Qed.

(** X17: the chat loop runs only on a connected session: when [main] has
    read a line, it had before that created the client, entered the
    stdio client of the script and the session on it, initialized the
    session and listed its tools, all with success. *)
Theorem chat_needs_connection
  (argv lines : list string) (w w' : World) (stack stack' : list Context)
  (o : Outcome LoopStatus) (tr : list ProcessEvent) :
  main argv lines w stack = (o, w', stack', tr) ->
  read_lines (client_events tr) <> [] ->
  exists tools later,
    tr = NewAnthropic (Returned tt)
         :: Enter (StdioClient (server_params_for (nth 1 argv "")))
                  (Returned tt)
         :: Enter ClientSession (Returned tt)
         :: Initialize (Returned tt)
         :: Client (ListTools (Returned tools))
         :: Client (Printed (connected_message
                               (map (@tool_name JSON) tools) ++ nl)%string)
         :: later.
Proof.
  unfold main. destruct (List.length argv <? 2)%nat.
  { unfold pbind, lift, print, write, praise. cbn.
    intro H. injection H as <- <- <- <-. intro N. now destruct N. }
  unfold pbind at 1. unfold new_client.
  destruct (anthropic_new w) as [[[]|e0] w0].
  2:{ intro H. injection H as <- <- <- <-. intro N. now destruct N. }
  unfold try_finally, cleanup.
  destruct (pbind (connect_to_server (nth 1 argv ""))
                  (fun _ => lift (chat_loop lines)) w0 [])
    as [[[ob wb] sb] tb] eqn:B.
  destruct (connect_then_chat_facts _ _ _ _ B) as [_ [_ K]].
  assert (G : forall extra,
             client_events extra = [] ->
             read_lines (client_events
                           ([NewAnthropic (Returned tt)] ++ tb ++ extra))
             <> [] ->
             exists tools later,
               [NewAnthropic (Returned tt)] ++ tb ++ extra
               = NewAnthropic (Returned tt)
                 :: Enter (StdioClient (server_params_for (nth 1 argv "")))
                          (Returned tt)
                 :: Enter ClientSession (Returned tt)
                 :: Initialize (Returned tt)
                 :: Client (ListTools (Returned tools))
                 :: Client (Printed (connected_message
                                       (map (@tool_name JSON) tools)
                                     ++ nl)%string)
                 :: later).
  { intros extra X N.
    rewrite !client_events_app, X, app_nil_r in N. cbn [client_events
      flat_map app] in N.
    destruct K as [tools [later [-> _]]]; [right; exact N|].
    exists tools, (later ++ extra). reflexivity. }
  destruct ob as [[|]|eb].
  - destruct (exit_stack_aclose sb wb) as [[u|e] w1];
      intro H; injection H as <- <- <- <-; now apply G.
  - intro H. injection H as <- <- <- <-. intro N.
    destruct (G [] eq_refl) as [tools [later E]].
    + now rewrite app_nil_r.
    + rewrite app_nil_r in E. eauto.
  - destruct (exit_stack_aclose sb wb) as [[u|e] w1];
      intro H; injection H as <- <- <- <-; now apply G.
Qed.

End Client.

Arguments Text {JSON Payload} text.
Arguments ToolUse {JSON Payload} id name input.
Arguments ToolResult {JSON Payload} tool_use_id content.
Arguments Str {JSON Payload} s.
Arguments Blocks {JSON Payload} blocks.
Arguments Printed {JSON Payload} s.
Arguments ReadLine {JSON Payload} line.
Arguments ListTools {JSON Payload} r.
Arguments ModelCall {JSON Payload} messages tools r.
Arguments CallTool {JSON Payload} tool arguments r.
Arguments initial_state {JSON}.
Arguments user_message {JSON Payload} query.
Arguments assistant_message {JSON Payload} st.
Arguments tool_result_message {JSON Payload} tool_results.
Arguments Client {JSON Payload} ev.
Arguments NewAnthropic {JSON Payload} r.
Arguments Enter {JSON Payload} c r.
Arguments Initialize {JSON Payload} r.
Arguments Aclose {JSON Payload} stack r.

(** ** The examples, on the scripted instance *)

#[local] Abbreviation sample_decode := (decode Sample.json_loads).

#[local] Abbreviation sample_query :=
  (process_query Sample.json_loads Sample.format_json
     Sample.list_tools Sample.call_tool Sample.create).

#[local] Abbreviation sample_chat :=
  (chat_iterations Sample.json_loads Sample.format_json
     Sample.list_tools Sample.call_tool Sample.create
     Sample.strip Sample.lower).

#[local] Abbreviation sample_decode_raised :=
  (decode_raised Sample.json_loads).

Lemma triple_eta (A B C : Type) (x : A * B * C) :
  x = (fst (fst x), snd (fst x), snd x).
Proof. now destruct x as [[a b] c]. Qed.

(** Scenario 1: a text-only answer is surfaced as it is and no tool is
    invoked. *)
Example scenario_text_only :
  snd (sample_query "What is 2+2?" Sample.text_world)
  = [ListTools (Returned [Sample.list_files]);
     ModelCall [user_message "What is 2+2?"]
               [descriptor Sample.list_files]
               (Returned (Sample.stream_of (Sample.text_block ["4"])));
     Printed "4"].
Proof. reflexivity. Qed.

(** Scenario 2: the two fragments are put together and parsed, the tool
    is invoked with the parsed input, its result is sent back and the
    text of the second answer is surfaced. *)
Example scenario_tool_round :
  snd (sample_query "list my files" Sample.files_world)
  = [ListTools (Returned [Sample.list_files]);
     ModelCall [user_message "list my files"]
               [descriptor Sample.list_files]
               (Returned (Sample.stream_of Sample.files_stream));
     Printed "Let me "; Printed "look.";
     Printed (nl ++ "[Calling tool list_files with args {'path': '/tmp'}]"
                 ++ nl)%string;
     CallTool "list_files" Sample.path_value (Returned "a.txt b.txt");
     ModelCall [user_message "list my files";
                {| role := Assistant;
                   content :=
                     Blocks [Text "Let me look.";
                             ToolUse "toolu_01" "list_files"
                                     Sample.path_value] |};
                {| role := User;
                   content := Blocks [ToolResult "toolu_01" "a.txt b.txt"] |}]
               [descriptor Sample.list_files]
               (Returned
                  (Sample.stream_of (Sample.text_block ["a.txt"; " b.txt"])));
     Printed nl; Printed "a.txt"; Printed " b.txt"; Printed nl].
Proof. reflexivity. Qed.

(** Scenario 3: the session fails to run the tool; the query ends with
    that error after its first request. *)
Example scenario_tool_failure :
  fst (fst (sample_query "list my files" Sample.failing_world))
  = Raised Sample.remote_error
  /\ model_calls (snd (sample_query "list my files" Sample.failing_world)) = 1.
Proof. split; reflexivity. Qed.

(** Scenario 4: the input of the tool call is nested deeper than
    [json.loads] has room for; the [RecursionError] ends the query
    after its first request, before the text that follows the block is
    written, and the chat loop reports it and goes on. *)
Example scenario_deep_input :
  sample_query "go deep" Sample.deep_world
  = (Raised (Sample.recursion_error true),
     {| Sample.catalog := [Sample.list_files];
        Sample.model_replies := [];
        Sample.tool_replies := [] |},
     [ListTools (Returned [Sample.list_files]);
      ModelCall [user_message "go deep"]
                [descriptor Sample.list_files]
                (Returned (Sample.stream_of Sample.deep_stream))])
  /\ sample_chat ["go deep"; "quit"] Sample.deep_world
     = (Returned Exited,
        {| Sample.catalog := [Sample.list_files];
           Sample.model_replies := [];
           Sample.tool_replies := [] |},
        [Printed (nl ++ "Query: ")%string; ReadLine "go deep";
         ListTools (Returned [Sample.list_files]);
         ModelCall [user_message "go deep"]
                   [descriptor Sample.list_files]
                   (Returned (Sample.stream_of Sample.deep_stream));
         Printed (nl ++ "Error: maximum recursion depth exceeded while "
                     ++ "decoding a JSON array from a unicode string"
                     ++ nl)%string;
         Printed (nl ++ "Query: ")%string; ReadLine "quit"]).
Proof. split; vm_compute; reflexivity. Qed.

Lemma single_tool_use_block_witness :
  tool_calls
    (fst (sample_decode
            (Sample.text_block ["Let me "; "look."]
             ++ tool_use_block "toolu_01" "list_files" Sample.path_body
             ++ [OtherChunk])))
  = [{| call_id := "toolu_01"; call_name := "list_files";
        call_input := Sample.path_value |}].
Proof. apply single_tool_use_block_decoded; reflexivity. Defined.



Lemma text_only_stream_witness :
  decoded_text (fst (sample_decode (Sample.text_block ["4"]))) = "4"
  /\ tool_calls (fst (sample_decode (Sample.text_block ["4"]))) = []
  /\ ~ In (CallTool "list_files" Sample.path_value (Returned "a.txt b.txt"))
          (skipn 2 (snd (sample_query "What is 2+2?" Sample.text_world))).
Proof.
  destruct (@text_only_stream_no_dispatch
              Sample.json Sample.json_loads Sample.format_json
              string Sample.world
              Sample.list_tools Sample.call_tool Sample.create
              (Sample.text_block ["4"]) eq_refl) as [A [B C]].
  split; [exact A | split; [exact B|]].
  exact (C "What is 2+2?" Sample.text_world
           (snd (fst (sample_query "What is 2+2?" Sample.text_world)))
           (fst (fst (sample_query "What is 2+2?" Sample.text_world)))
           (Returned [Sample.list_files])
           [user_message "What is 2+2?"] [descriptor Sample.list_files]
           None
           (skipn 2 (snd (sample_query "What is 2+2?" Sample.text_world)))
           eq_refl
           "list_files" Sample.path_value (Returned "a.txt b.txt")).
Defined.

(** The messages of the request at a position of a trace. *)
#[local] Abbreviation request_at n tr :=
  (match nth n tr (Printed "") with
   | ModelCall messages _ _ => messages
   | _ => []
   end).

Lemma tool_results_in_call_order_witness :
  exists pA pB : string,
    request_at 6 (snd (sample_query "two" Sample.two_calls_world))
    = [{| role := User; content := Str "two" |};
       {| role := Assistant;
          content :=
            Blocks [ToolUse "toolu_A" "list_files" Sample.path_value;
                    ToolUse "toolu_B" "read_file" Sample.path_value] |};
       {| role := User;
          content := Blocks [ToolResult "toolu_A" pA;
                             ToolResult "toolu_B" pB] |}]
    /\ tool_invocations
         (skipn 2 (snd (sample_query "two" Sample.two_calls_world)))
       = [CallTool "list_files" Sample.path_value (Returned pA);
          CallTool "read_file" Sample.path_value (Returned pB)].
Proof.
  destruct (@tool_results_in_call_order
              Sample.json Sample.json_loads Sample.format_json
              string Sample.world
              Sample.list_tools Sample.call_tool Sample.create
              "two" Sample.two_calls_world
              (snd (fst (sample_query "two" Sample.two_calls_world)))
              (fst (fst (sample_query "two" Sample.two_calls_world)))
              (Returned [Sample.list_files])
              [user_message "two"] [descriptor Sample.list_files]
              (Sample.stream_of Sample.two_calls_stream)
              (skipn 2 (snd (sample_query "two" Sample.two_calls_world)))
              (request_at 6 (snd (sample_query "two" Sample.two_calls_world)))
              [descriptor Sample.list_files]
              (Returned (Sample.stream_of Sample.second_stream))
              eq_refl)
    as [_ [_ AB]].
  - vm_compute. tauto.
  - destruct (AB [] Sample.path_body [OtherChunk] Sample.path_body []
                 "toolu_A" "list_files" "toolu_B" "read_file"
                 Sample.path_value Sample.path_value
                 eq_refl eq_refl eq_refl eq_refl eq_refl eq_refl eq_refl
                 eq_refl eq_refl eq_refl) as [pA [pB [E1 E2]]].
    exists pA, pB. split; [exact E1 | exact E2].
Defined.

Lemma failed_tool_call_witness :
  fst (fst (sample_query "list my files" Sample.failing_world))
  = Raised Sample.remote_error
  /\ model_calls (snd (sample_query "list my files" Sample.failing_world)) = 1
  /\ sample_chat ["  list my files "; "QUIT "] Sample.failing_world
     = (fst (fst (sample_chat
                    ["QUIT "]
                    (snd (fst (sample_query "list my files"
                                            Sample.failing_world))))),
        snd (fst (sample_chat
                    ["QUIT "]
                    (snd (fst (sample_query "list my files"
                                            Sample.failing_world))))),
        Printed (nl ++ "Query: ")%string :: ReadLine "  list my files "
        :: snd (sample_query "list my files" Sample.failing_world)
        ++ Printed (nl ++ "Error: remote error" ++ nl)%string
           :: snd (sample_chat
                     ["QUIT "]
                     (snd (fst (sample_query "list my files"
                                             Sample.failing_world))))).
Proof.
  destruct (@failed_tool_call_abandons_turn
              Sample.json Sample.json_loads Sample.format_json
              string Sample.world
              Sample.list_tools Sample.call_tool Sample.create
              Sample.strip Sample.lower
              "list my files" Sample.failing_world _ _ _
              "list_files" Sample.path_value Sample.remote_error
              (triple_eta _)) as [A [B C]].
  - vm_compute. tauto.
  - reflexivity.
  - split; [exact A | split; [exact B|]].
    apply (C "  list my files " ["QUIT "] eq_refl). discriminate.
Defined.

Lemma second_stream_witness :
  skipn 7 (snd (sample_query "two" Sample.two_calls_world))
  = [Printed nl; Printed "Two "; Printed "files."; Printed nl]
  /\ tool_invocations
       (skipn 7 (snd (sample_query "two" Sample.two_calls_world))) = [].
Proof.
  destruct (@second_stream_text_only
              Sample.json Sample.json_loads Sample.format_json
              string Sample.world
              Sample.list_tools Sample.call_tool Sample.create
              "two" Sample.two_calls_world
              (snd (fst (sample_query "two" Sample.two_calls_world)))
              (fst (fst (sample_query "two" Sample.two_calls_world)))
              (firstn 6 (snd (sample_query "two" Sample.two_calls_world)))
              (skipn 7 (snd (sample_query "two" Sample.two_calls_world)))
              (second_request "two"
                 (fst (sample_decode Sample.two_calls_stream))
                 [ToolResult "toolu_A" "result of A";
                  ToolResult "toolu_B" "result of B"])
              [descriptor Sample.list_files]
              (Sample.stream_of Sample.second_stream)
              eq_refl eq_refl) as [A [_ [B _]]].
  split; [exact A | exact B].
Defined.

(** C7, as it is stated, fails: a text delta that carries the empty
    string makes the decoded text empty and still puts a text block of
    length zero in the assistant message. *)
Lemma empty_text_delta_keeps_text_block :
  decoded_text (fst (sample_decode [ContentBlockDelta (TextDelta "")])) = ""
  /\ content_blocks
       (@assistant_message Sample.json string
          (fst (sample_decode [ContentBlockDelta (TextDelta "")])))
     = [Text ""]
  /\ @is_text_block Sample.json string (Text "") = true.
Proof. repeat split. Qed.

Lemma no_text_delta_witness :
  @is_text_block Sample.json string
    (ToolUse "toolu_01" "list_files" Sample.path_value) = false.
Proof.
  apply (@no_text_delta_no_text_block
           Sample.json Sample.json_loads string
           (tool_use_block "toolu_01" "list_files" Sample.path_body)).
  - reflexivity.
  - left. reflexivity.
Defined.

Lemma unclosed_slot_witness :
  tool_calls
    (fst (sample_decode
            ([] ++ ContentBlockStart (ToolUseBlock "toolu_A" "list_files")
                :: Sample.cut_body
                ++ ContentBlockStart (ToolUseBlock "toolu_B" "list_files")
                :: Sample.path_body ++ [ContentBlockStop])))
  = tool_calls (fst (sample_decode []))
    ++ tool_calls
         (fst (sample_decode
                 (ContentBlockStart (ToolUseBlock "toolu_B" "list_files")
                  :: Sample.path_body ++ [ContentBlockStop]))).
Proof.
  exact (proj1 (proj2 (proj2 (proj2
           (@unclosed_slot_discarded
              Sample.json Sample.json_loads [] Sample.cut_body
              (Sample.path_body ++ [ContentBlockStop])
              "toolu_A" "list_files" "toolu_B" "list_files"
              eq_refl eq_refl eq_refl))))).
Defined.

Lemma stray_event_witness :
  on_chunk Sample.json_loads initial_state ContentBlockStop
  = (Returned initial_state, []).
Proof.
  exact (proj1 (@stray_event_ignored
                  Sample.json Sample.json_loads string Sample.world
                  ContentBlockStop (or_intror eq_refl))
               initial_state eq_refl).
Defined.

(** C9, as it is stated, fails: the loop is not total.  On the finite
    stream below, which begins with a partial-JSON delta and a stop
    event that belong to no block, the two stray events are ignored
    and the text is written, but the stop event of the tool-use block
    leaves the loop with the [RecursionError] of [json.loads]. *)
Lemma stray_events_then_deep_input_raises :
  sample_decode_raised Sample.stray_deep_stream
  = Some (Sample.recursion_error true)
  /\ snd (sample_decode Sample.stray_deep_stream) = ["Hi"]
  /\ @decode_stream Sample.json Sample.json_loads string Sample.world
       (Sample.stream_of Sample.stray_deep_stream) Sample.deep_world
     = (Raised (Sample.recursion_error true), Sample.deep_world,
        [Printed "Hi"]).
Proof. repeat split; vm_compute; reflexivity. Qed.

Lemma stop_clears_slot_witness :
  run_decoder Sample.json_loads initial_state
    (ContentBlockStop
     :: (Sample.path_body ++ Sample.text_block ["4"])
     ++ tool_use_block "toolu_01" "list_files" Sample.path_body)
  = run_decoder Sample.json_loads initial_state
      (ContentBlockStop
       :: without_json_deltas (Sample.path_body ++ Sample.text_block ["4"])
       ++ tool_use_block "toolu_01" "list_files" Sample.path_body).
Proof.
  exact (proj2
           (@stop_clears_slot
              Sample.json Sample.json_loads initial_state
              (Sample.path_body ++ Sample.text_block ["4"])
              (tool_use_block "toolu_01" "list_files" Sample.path_body)
              eq_refl)).
Defined.

(** ** Instances of the further properties *)

#[local] Abbreviation sample_chat_loop :=
  (chat_loop Sample.json_loads Sample.format_json
     Sample.list_tools Sample.call_tool Sample.create
     Sample.strip Sample.lower).

#[local] Abbreviation sample_connect :=
  (@connect_to_server Sample.json string Sample.world
     Sample.list_tools Sample.format_names Sample.stdio_client_enter
     Sample.client_session_enter Sample.session_initialize).

#[local] Abbreviation sample_main :=
  (main Sample.json_loads Sample.format_json
     Sample.list_tools Sample.call_tool Sample.create
     Sample.strip Sample.lower
     Sample.format_names Sample.anthropic_new Sample.stdio_client_enter
     Sample.client_session_enter Sample.session_initialize
     Sample.exit_stack_aclose).

Lemma quadruple_eta (A B C D : Type) (x : A * B * C * D) :
  x = (fst (fst (fst x)), snd (fst (fst x)), snd (fst x), snd x).
Proof. now destruct x as [[[a b] c] d]. Qed.

Lemma tool_calls_from_start_events_witness :
  In (ContentBlockStart (ToolUseBlock "toolu_01" "list_files"))
     Sample.files_stream.
Proof.
  apply (@tool_calls_from_start_events
           Sample.json Sample.json_loads Sample.files_stream
           {| call_id := "toolu_01"; call_name := "list_files";
              call_input := Sample.path_value |}).
  left. reflexivity.
Defined.

Lemma decode_app_closed_witness :
  tool_calls
    (fst (sample_decode
            (Sample.text_block ["Hi"]
             ++ tool_use_block "toolu_01" "list_files" Sample.path_body)))
  = tool_calls (fst (sample_decode (Sample.text_block ["Hi"])))
    ++ tool_calls
         (fst (sample_decode
                 (tool_use_block "toolu_01" "list_files" Sample.path_body))).
Proof.
  exact (proj1 (proj2
           (@decode_app_closed
              Sample.json Sample.json_loads (Sample.text_block ["Hi"])
              (tool_use_block "toolu_01" "list_files" Sample.path_body)
              eq_refl))).
Defined.

Lemma fragment_boundaries_witness :
  tool_calls
    (fst (sample_decode
            (Sample.text_block ["Hi"]
             ++ tool_use_block "toolu_01" "list_files" Sample.path_body
             ++ [OtherChunk])))
  = tool_calls
      (fst (sample_decode
              (Sample.text_block ["Hi"]
               ++ tool_use_block "toolu_01" "list_files"
                    [ContentBlockDelta
                       (InputJsonDelta
                          (Sample.path_open ++ Sample.path_close)%string)]
               ++ [OtherChunk]))).
Proof.
  exact (proj1
           (@fragment_boundaries_irrelevant
              Sample.json Sample.json_loads
              (Sample.text_block ["Hi"]) [OtherChunk] Sample.path_body
              [ContentBlockDelta
                 (InputJsonDelta
                    (Sample.path_open ++ Sample.path_close)%string)]
              "toolu_01" "list_files"
              eq_refl eq_refl eq_refl eq_refl eq_refl eq_refl)).
Defined.

Lemma query_request_budget_witness :
  model_calls (snd (sample_query "two" Sample.two_calls_world)) <= 2
  /\ read_lines (snd (sample_query "two" Sample.two_calls_world)) = [].
Proof.
  exact (proj2
           (@query_request_budget
              Sample.json Sample.json_loads Sample.format_json
              string Sample.world
              Sample.list_tools Sample.call_tool Sample.create
              "two" Sample.two_calls_world _ _ _ (triple_eta _))).
Defined.

Lemma requests_share_tools_witness :
  map (@name Sample.json) [descriptor Sample.list_files]
  = map (@tool_name Sample.json) [Sample.list_files].
Proof.
  refine (proj1 (proj2
            (@requests_share_tools_and_query
               Sample.json Sample.json_loads Sample.format_json
               string Sample.world
               Sample.list_tools Sample.call_tool Sample.create
               "two" Sample.two_calls_world
               (snd (fst (sample_query "two" Sample.two_calls_world)))
               (fst (fst (sample_query "two" Sample.two_calls_world)))
               [Sample.list_files]
               (skipn 1 (snd (sample_query "two" Sample.two_calls_world)))
               [user_message "two"] [descriptor Sample.list_files]
               (Returned (Sample.stream_of Sample.two_calls_stream))
               eq_refl _))).
  left. reflexivity.
Defined.

Lemma remote_failure_witness :
  (exists pre ev,
      snd (sample_query "go deep" Sample.deep_world) = pre ++ [ev]
      /\ failures [ev] = [Sample.recursion_error true]
      /\ failures pre = [])
  \/ (exists pre msgs tools s out,
         snd (sample_query "go deep" Sample.deep_world)
         = pre ++ ModelCall msgs tools (Returned s) :: map Printed out
         /\ failures (snd (sample_query "go deep" Sample.deep_world)) = []
         /\ (broken s = Some (Sample.recursion_error true)
             \/ sample_decode_raised (chunks s)
                = Some (Sample.recursion_error true))).
Proof.
  apply (proj2
           (@remote_failure_ends_query
              Sample.json Sample.json_loads Sample.format_json
              string Sample.world
              Sample.list_tools Sample.call_tool Sample.create
              "go deep" Sample.deep_world
              (snd (fst (sample_query "go deep" Sample.deep_world)))
              (Raised (Sample.recursion_error true))
              (snd (sample_query "go deep" Sample.deep_world))
              eq_refl)).
  reflexivity.
Defined.

Lemma invocations_follow_requests_witness :
  exists remaining,
    requested (tool_calls (fst (sample_decode Sample.files_stream)))
    = invoked (skipn 2 (snd (sample_query "list my files"
                                          Sample.failing_world)))
      ++ remaining.
Proof.
  destruct (@invocations_follow_requests
              Sample.json Sample.json_loads Sample.format_json
              string Sample.world
              Sample.list_tools Sample.call_tool Sample.create
              "list my files" Sample.failing_world
              (snd (fst (sample_query "list my files" Sample.failing_world)))
              (fst (fst (sample_query "list my files" Sample.failing_world)))
              (Returned [Sample.list_files])
              [user_message "list my files"] [descriptor Sample.list_files]
              (Sample.stream_of Sample.files_stream)
              (skipn 2 (snd (sample_query "list my files"
                                          Sample.failing_world)))
              eq_refl) as [remaining [E _]].
  exists remaining. exact E.
Defined.

Lemma first_round_decides_witness :
  skipn 2 (snd (sample_query "What is 2+2?" Sample.text_world))
  = map Printed (snd (sample_decode (Sample.text_block ["4"])))
  /\ fst (fst (sample_query "What is 2+2?" Sample.text_world))
     = Returned tt.
Proof.
  exact (proj1 (proj2
           (@first_round_decides
              Sample.json Sample.json_loads Sample.format_json
              string Sample.world
              Sample.list_tools Sample.call_tool Sample.create
              "What is 2+2?" Sample.text_world
              (snd (fst (sample_query "What is 2+2?" Sample.text_world)))
              (fst (fst (sample_query "What is 2+2?" Sample.text_world)))
              (Returned [Sample.list_files])
              [user_message "What is 2+2?"] [descriptor Sample.list_files]
              (Sample.stream_of (Sample.text_block ["4"]))
              (skipn 2 (snd (sample_query "What is 2+2?"
                                          Sample.text_world)))
              eq_refl))
           eq_refl (or_intror eq_refl)).
Defined.

Lemma tool_results_answer_tool_uses_witness :
  exists a u : Message Sample.json string,
    request_at 6 (snd (sample_query "two" Sample.two_calls_world))
    = [user_message "two"] ++ [a; u]
    /\ filter (@is_tool_use Sample.json string) (content_blocks a)
    = [ToolUse "toolu_A" "list_files" Sample.path_value;
       ToolUse "toolu_B" "read_file" Sample.path_value]
    /\ tool_result_ids (content_blocks u) = tool_use_ids (content_blocks a)
    /\ tool_use_ids (content_blocks a) = ["toolu_A"; "toolu_B"].
Proof.
  destruct (@tool_results_answer_tool_uses
              Sample.json Sample.json_loads Sample.format_json
              string Sample.world
              Sample.list_tools Sample.call_tool Sample.create
              "two" Sample.two_calls_world
              (snd (fst (sample_query "two" Sample.two_calls_world)))
              (fst (fst (sample_query "two" Sample.two_calls_world)))
              (Returned [Sample.list_files])
              [user_message "two"] [descriptor Sample.list_files]
              (Sample.stream_of Sample.two_calls_stream)
              (skipn 2 (snd (sample_query "two" Sample.two_calls_world)))
              (request_at 6 (snd (sample_query "two" Sample.two_calls_world)))
              [descriptor Sample.list_files]
              (Returned (Sample.stream_of Sample.second_stream))
              eq_refl)
    as [a [u [_ [M [_ [_ [F [_ [A [B _]]]]]]]]]].
  - vm_compute. tauto.
  - exists a, u.
    split; [exact M | split; [exact F | split; [exact B | exact A]]].
Defined.

Lemma chat_loop_catches_exceptions_witness :
  is_Exception Sample.keyboard_interrupt = false.
Proof.
  apply (@chat_loop_catches_exceptions
           Sample.json Sample.json_loads Sample.format_json
           string Sample.world
           Sample.list_tools Sample.call_tool Sample.create
           Sample.strip Sample.lower
           ["  list my files "; "more"] Sample.interrupted_world
           (snd (fst (sample_chat_loop ["  list my files "; "more"]
                                       Sample.interrupted_world)))
           Sample.keyboard_interrupt
           (snd (sample_chat_loop ["  list my files "; "more"]
                                  Sample.interrupted_world))).
  reflexivity.
Defined.

Lemma chat_loop_reads_until_quit_witness :
  exists unread,
    ["  list my files "; " QUIT"; "more"]
    = read_lines (snd (sample_chat_loop
                         ["  list my files "; " QUIT"; "more"]
                         Sample.failing_world))
      ++ unread.
Proof.
  exact (proj1
           (@chat_loop_reads_until_quit
              Sample.json Sample.json_loads Sample.format_json
              string Sample.world
              Sample.list_tools Sample.call_tool Sample.create
              Sample.strip Sample.lower
              ["  list my files "; " QUIT"; "more"] Sample.failing_world
              _ _ _ (triple_eta _))).
Defined.

Lemma connect_checks_script_name_witness :
  exists r later,
    snd (sample_connect "server.py" Sample.files_world [])
    = Enter (StdioClient {| command := "python"; args := ["server.py"];
                            env := None |}) r :: later.
Proof.
  apply (proj1
           (@connect_checks_script_name
              Sample.json string Sample.world
              Sample.list_tools Sample.format_names
              Sample.stdio_client_enter Sample.client_session_enter
              Sample.session_initialize
              "server.py" Sample.files_world [])).
  exists "server". reflexivity.
Defined.

Lemma connect_stack_discipline_witness :
  snd (fst (sample_connect "server.py" Sample.files_world []))
  = [] ++ entered (snd (sample_connect "server.py" Sample.files_world [])).
Proof.
  exact (proj1
           (@connect_stack_discipline
              Sample.json string Sample.world
              Sample.list_tools Sample.format_names
              Sample.stdio_client_enter Sample.client_session_enter
              Sample.session_initialize
              "server.py" Sample.files_world _ [] _ _ _ (quadruple_eta _))).
Defined.

Lemma main_always_cleans_up_witness :
  exists body r,
    tl (snd (sample_main ["client.py"; "server.js"] ["quit"]
                         Sample.files_world []))
    = body ++ [Aclose (entered body) r].
Proof.
  destruct (proj2
              (@main_always_cleans_up
                 Sample.json Sample.json_loads Sample.format_json
                 string Sample.world
                 Sample.list_tools Sample.call_tool Sample.create
                 Sample.strip Sample.lower
                 Sample.format_names Sample.anthropic_new
                 Sample.stdio_client_enter Sample.client_session_enter
                 Sample.session_initialize Sample.exit_stack_aclose
                 ["client.py"; "server.js"] ["quit"] Sample.files_world
                 Sample.files_world [] [] (Raised Sample.no_node)
                 (tl (snd (sample_main ["client.py"; "server.js"] ["quit"]
                                       Sample.files_world [])))
                 eq_refl))
    as [body [r [E _]]].
  - discriminate.
  - exists body, r. exact E.
Defined.

Lemma main_requires_script_witness :
  sample_main ["client.py"] ["quit"] Sample.files_world []
  = (Raised SystemExit_1, Sample.files_world, [],
     [Client (Printed (usage ++ nl)%string)]).
Proof.
  apply (proj1
           (@main_requires_script
              Sample.json Sample.json_loads Sample.format_json
              string Sample.world
              Sample.list_tools Sample.call_tool Sample.create
              Sample.strip Sample.lower
              Sample.format_names Sample.anthropic_new
              Sample.stdio_client_enter Sample.client_session_enter
              Sample.session_initialize Sample.exit_stack_aclose
              ["client.py"] ["quit"] Sample.files_world [])).
  simpl. lia.
Defined.

Lemma chat_needs_connection_witness :
  exists tools later,
    snd (sample_main ["client.py"; "server.py"] ["quit"]
                     Sample.files_world [])
    = NewAnthropic (Returned tt)
      :: Enter (StdioClient (server_params_for "server.py")) (Returned tt)
      :: Enter ClientSession (Returned tt)
      :: Initialize (Returned tt)
      :: Client (ListTools (Returned tools))
      :: Client (Printed (connected_message Sample.format_names
                            (map (@tool_name Sample.json) tools) ++ nl)%string)
      :: later.
Proof.
  apply (@chat_needs_connection
           Sample.json Sample.json_loads Sample.format_json
           string Sample.world
           Sample.list_tools Sample.call_tool Sample.create
           Sample.strip Sample.lower
           Sample.format_names Sample.anthropic_new
           Sample.stdio_client_enter Sample.client_session_enter
           Sample.session_initialize Sample.exit_stack_aclose
           ["client.py"; "server.py"] ["quit"] Sample.files_world
           _ [] _ _ _ (quadruple_eta _)).
  vm_compute. discriminate.
Defined.
